(** * Medicine-information pipeline of the prescription analyzer

    A shallow embedding of [medicine_info.py]: the Site Selector, the
    Medicine Search Stage, the Name Extractor, the Content Normalizer, the
    Summarization Stage and the Pipeline Orchestrator, with the properties
    the specification states about them.

    Conventions of the embedding.
    - Python text is a Rocq [string]; a character of the text is an [ascii]
      (code points below 256), so [len] is [String.length] and the ASCII
      range is the codes below 128.
    - Code that can raise lives in the monad [M W A := W -> outcome A * W]:
      [W] is the state of the outside world (browser session, generative
      backend), an outcome is a value or a raised [Exception].  Only
      subclasses of [Exception] are modelled, which is what every [except]
      clause of the source catches.
    - [print] and the pacing delays ([human_delay], [time.sleep]) have no
      effect on any value and are left out of the state. *)

From Stdlib Require Import ZArith Ascii String List Floats.SpecFloat.
From stdpp Require Import base tactics option list gmap strings countable pretty.

Set Warnings "-register-all,-abstract-large-number,-clear-no-such-hyp".
Local Open Scope Z_scope.
Local Open Scope nat_scope.

(* ===================================================================== *)
(** * Python text operations used by the pipeline *)
(* ===================================================================== *)

Module Py.

Definition nl : ascii := "010"%char.

Fixpoint newlines (n : nat) : string :=
  match n with
  | 0 => ""
  | S n => String nl (newlines n)
  end.

(** [s.startswith(p)] *)
Fixpoint startswith (p s : string) : bool :=
  match p, s with
  | "", _ => true
  | String a p', String b s' => Ascii.eqb a b && startswith p' s'
  | String _ _, "" => false
  end.

(** [p in s] on text: substring test *)
Fixpoint contains (p s : string) : bool :=
  startswith p s ||
  match s with
  | "" => false
  | String _ s' => contains p s'
  end.

(** [s.split(sep)] for a non-empty separator: non-overlapping occurrences,
    leftmost first.  [skip] counts the characters of a separator that is
    being stepped over, [cur] holds the current piece reversed. *)
Fixpoint split_go (sep : string) (skip : nat) (cur : string) (s : string)
  : list string :=
  match s with
  | "" => [String.rev cur]
  | String c s' =>
      match skip with
      | S k => split_go sep k cur s'
      | 0 =>
          if startswith sep s
          then String.rev cur :: split_go sep (String.length sep - 1) "" s'
          else split_go sep 0 (String c cur) s'
      end
  end.

Definition split (sep s : string) : list string := split_go sep 0 "" s.

(** [s.replace(old, new)] for a non-empty [old]. *)
Fixpoint replace_go (old new : string) (skip : nat) (s : string) : string :=
  match s with
  | "" => ""
  | String c s' =>
      match skip with
      | S k => replace_go old new k s'
      | 0 =>
          if startswith old s
          then new +:+ replace_go old new (String.length old - 1) s'
          else String c (replace_go old new 0 s')
      end
  end.

Definition replace (old new s : string) : string := replace_go old new 0 s.

(** [str.isspace] on one character (code points below 256). *)
Definition isspace (c : ascii) : bool :=
  let n := nat_of_ascii c in
  ((9 <=? n) && (n <=? 13)) || ((28 <=? n) && (n <=? 32))
  || (n =? 133) || (n =? 160).

Fixpoint lstrip (s : string) : string :=
  match s with
  | "" => ""
  | String c s' => if isspace c then lstrip s' else s
  end.

(** [s.strip()] *)
Definition strip (s : string) : string :=
  String.rev (lstrip (String.rev (lstrip s))).

(** [sep.join(l)] on a list of texts *)
Fixpoint join (sep : string) (l : list string) : string :=
  match l with
  | [] => ""
  | [x] => x
  | x :: l' => x +:+ sep +:+ join sep l'
  end.

(** [re.sub(r'[^\x00-\x7F]+', '', s)]: every character outside the ASCII
    range is dropped. *)
Fixpoint strip_non_ascii (s : string) : string :=
  match s with
  | "" => ""
  | String c s' =>
      if nat_of_ascii c <? 128 then String c (strip_non_ascii s')
      else strip_non_ascii s'
  end.

(** What [re.sub(r'\n{3,}', '\n\n', ...)] writes for a maximal run of
    [run] newlines. *)
Definition flush_run (run : nat) : string :=
  if 3 <=? run then newlines 2 else newlines run.

(** [re.sub(r'\n{3,}', '\n\n', s)]: the scan keeps the length [run] of the
    run of newlines read so far; the greedy [{3,}] always takes the whole
    run. *)
Fixpoint sub_newline_runs (run : nat) (s : string) : string :=
  match s with
  | "" => flush_run run
  | String c s' =>
      if Ascii.eqb c nl then sub_newline_runs (S run) s'
      else flush_run run +:+ String c (sub_newline_runs 0 s')
  end.

(** [s[:n]] *)
Fixpoint take (n : nat) (s : string) : string :=
  match n, s with
  | S n', String c s' => String c (take n' s')
  | _, _ => ""
  end.

Fixpoint ends_with_nl (s : string) : bool :=
  match s with
  | "" => false
  | String c "" => Ascii.eqb c nl
  | String _ s' => ends_with_nl s'
  end.

Definition starts_with_nl (s : string) : bool :=
  match s with
  | String c _ => Ascii.eqb c nl
  | "" => false
  end.

End Py.

(** The blank-line collapsing step of the Content Normalizer
    (medicine_info.py, line 260). *)
Definition collapse_blank_lines (s : string) : string :=
  Py.sub_newline_runs 0 s.


(* ===================================================================== *)
(** * Exceptions and the effect monad *)
(* ===================================================================== *)

(** A raised exception: its class name and [str(e)]. *)
Record exn := Exception { exn_class : string; exn_msg : string }.

Inductive outcome (A : Type) :=
| Ret (a : A)
| Raise (e : exn).
Arguments Ret {A} a.
Arguments Raise {A} e.

Definition is_raise {A} (o : outcome A) : bool :=
  match o with Ret _ => false | Raise _ => true end.

(** Pure code that can raise. *)
Definition obind {A B} (o : outcome A) (k : A -> outcome B) : outcome B :=
  match o with
  | Ret a => k a
  | Raise e => Raise e
  end.

(** Code that talks to the outside world [W] and can raise. *)
Definition M (W A : Type) : Type := W -> outcome A * W.

Definition ret {W A} (a : A) : M W A := fun w => (Ret a, w).
Definition raise {W A} (e : exn) : M W A := fun w => (Raise e, w).
Definition lift {W A} (o : outcome A) : M W A := fun w => (o, w).

Definition bind {W A B} (m : M W A) (k : A -> M W B) : M W B :=
  fun w =>
    match m w with
    | (Ret a, w') => k a w'
    | (Raise e, w') => (Raise e, w')
    end.

(** [try: m  except Exception as e: h e] *)
Definition try_except {W A} (m : M W A) (h : exn -> M W A) : M W A :=
  fun w =>
    match m w with
    | (Ret a, w') => (Ret a, w')
    | (Raise e, w') => h e w'
    end.

Declare Scope py_scope.
Delimit Scope py_scope with py.
Notation "x <- m ;; k" := (bind m (fun x => k))
  (at level 100, m at next level, right associativity) : py_scope.
Notation "m ;;; k" := (bind m (fun _ => k))
  (at level 100, right associativity) : py_scope.
Local Open Scope py_scope.

Definition IndexError : exn := Exception "IndexError" "list index out of range".
Definition ZeroDivisionError : exn :=
  Exception "ZeroDivisionError" "division by zero".
Definition TypeError (msg : string) : exn := Exception "TypeError" msg.
Definition AttributeError (msg : string) : exn := Exception "AttributeError" msg.
Definition KeyError (key : string) : exn :=
  Exception "KeyError" ("'" +:+ key +:+ "'").

(** [l[i]] on a list *)
Definition py_index {A} (l : list A) (i : nat) : outcome A :=
  match l !! i with
  | Some a => Ret a
  | None => Raise IndexError
  end.

(** The [backoff.on_exception(backoff.expo, Exception, max_tries=n,
    jitter=...)] decorator, for [n >= 1]: the target is called again after
    every exception until it returns or the [n]-th attempt has raised, whose
    exception is then re-raised.  The waits between attempts are not
    modelled. *)
Fixpoint on_exception {W A} (max_tries : nat) (target : M W A) : M W A :=
  fun w =>
    match target w with
    | (Ret a, w') => (Ret a, w')
    | (Raise e, w') =>
        match max_tries with
        | S ((S _) as n) => on_exception n target w'
        | _ => (Raise e, w')
        end
    end.

(* ===================================================================== *)
(** * JSON values, as [json.loads] builds them *)
(* ===================================================================== *)

Inductive json :=
| JNull
| JBool (b : bool)
| JInt (z : Z)
| JFloat (f : spec_float)
| JStr (s : string)
| JList (l : list json)
| JDict (d : gmap string json).

(** Python truth value of a JSON value ([not v] is its negation). *)
Definition truthy (v : json) : bool :=
  match v with
  | JNull => false
  | JBool b => b
  | JInt z => negb (z =? 0)%Z
  | JFloat (S754_zero _) => false
  | JFloat _ => true
  | JStr s => negb (String.eqb s "")
  | JList l => negb (bool_decide (length l = 0))
  | JDict d => negb (bool_decide (size d = 0))
  end.

(** [type(v).__name__] *)
Definition type_name (v : json) : string :=
  match v with
  | JNull => "NoneType"
  | JBool _ => "bool"
  | JInt _ => "int"
  | JFloat _ => "float"
  | JStr _ => "str"
  | JList _ => "list"
  | JDict _ => "dict"
  end.

(** [d[key]] on a dict with text keys *)
Definition py_getitem (d : gmap string json) (key : string) : outcome json :=
  match d !! key with
  | Some v => Ret v
  | None => Raise (KeyError key)
  end.

(* ===================================================================== *)
(** * The outside world: browser automation and generative backend *)
(* ===================================================================== *)

(** A Playwright locator is a description of elements, resolved against the
    page each time it is used. *)
Inductive locator :=
| Locator (selector : string)               (* page.locator(selector) *)
| Sub (l : locator) (selector : string)     (* l.locator(selector) *)
| First (l : locator)                       (* l.first *)
| Nth (l : locator) (i : nat).              (* l.nth(i), an element of l.all() *)

Global Instance locator_eq_dec : EqDecision locator.
Proof. solve_decision. Defined.

(** The automation surface the pipeline is built on.  Every call may change
    the world and may raise (timeouts, detached elements, strict-mode
    violations, ...). *)
Class Browser (W : Type) := {
  goto : string -> M W unit;
  wait_for_selector : string -> M W unit;
  wait_for_load_state : string -> M W unit;
  page_url : W -> string;
  content : M W string;
  press : string -> string -> M W unit;
  count : locator -> M W nat;
  is_visible : locator -> M W bool;
  get_attribute : locator -> string -> M W (option string);
  inner_text : locator -> M W string;
  click : locator -> M W unit;
  fill : locator -> string -> M W unit;
  type_char : locator -> ascii -> M W unit;
  (** [sync_playwright().__enter__()] and [__exit__] *)
  playwright_start : M W unit;
  playwright_stop : M W unit;
  (** [chromium.launch], [new_context], [new_page], [set_default_timeout] *)
  open_page : M W unit;
  page_close : M W unit;
  browser_close : M W unit
}.

(** [gemini_model.generate_content(prompt, generation_config=...)] followed by
    [response.text]. *)
Class Backend (W : Type) := {
  generate_content : string -> M W string
}.

(** A node of the tree BeautifulSoup builds: text, or a tag with the
    attributes the selectors of the normalizer look at. *)
Inductive node :=
| Text (s : string)
| Tag (name : string) (id : option string) (classes : list string)
      (role : option string) (children : list node).

(** Library functions the pipeline calls. *)
Class Runtime := {
  (** [json.loads]; a malformed text raises [JSONDecodeError] *)
  json_loads : string -> outcome json;
  (** [str(v)] *)
  py_str : json -> string;
  (** [str.title] *)
  title : string -> string;
  (** [re.search(r'/medicine/([^?]+)', url)], the captured group *)
  search_medicine_slug : string -> option string;
  (** [re.sub(r'\d+mg|\d+\s*s$', '', name)] *)
  sub_dosage : string -> string;
  (** [BeautifulSoup(html, 'html.parser')], the top-level nodes *)
  parse_html : string -> outcome (list node);
  (** [md(str(x), heading_style="ATX")]; [None] when [x] is [None] *)
  markdownify : option node -> outcome string;
  (** the prompt text of the Summarization Stage (lines 279-298), built from
      the medicine name and the first 20000 characters of the content *)
  prompt_text : string -> string -> string
}.

(** [locator.all()] *)
Definition all {W} `{Browser W} (l : locator) : M W (list locator) :=
  n <- count l ;;
  ret (map (Nth l) (seq 0 n)).

(* ===================================================================== *)
(** * Site Selector *)
(* ===================================================================== *)

Definition preferred_domains : list string :=
  [ "1mg.com"; "apollopharmacy.in"; "webmd.com"; "mayoclinic.org";
    "drugs.com"; "rxlist.com"; "nih.gov"; "medlineplus.gov";
    "pharmeasy.in"; "netmeds.com" ].

(** [link.locator('xpath=..').first] *)
Definition parent_of (link : locator) : locator := First (Sub link "xpath=..").

Section SiteSelector.
Context {W : Type} `{Browser W}.

(** Body of the inner [try] for one result (lines 59-66): [Some url] when
    the function returns, [None] when the loop goes on. *)
Definition try_link (domain : string) (link : locator) : M W (option string) :=
  let parent := parent_of link in
  href <- get_attribute parent "href" ;;
  let url_text := default "" href in
  if Py.contains domain url_text then
    click link ;;;                      (* all_links[i] is link *)
    wait_for_load_state "networkidle" ;;;
    fun w => (Ret (Some (page_url w)), w)
  else ret None.

(** [for i, link in enumerate(all_links)] with its [try ... except:
    continue] (lines 57-68). *)
Fixpoint scan_links (domain : string) (links : list locator)
  : M W (option string) :=
  match links with
  | [] => ret None
  | link :: rest =>
      r <- try_except (try_link domain link) (fun _ => ret None) ;;
      match r with
      | Some u => ret (Some u)
      | None => scan_links domain rest
      end
  end.

(** [for domain in preferred_domains] (lines 56-68). *)
Fixpoint scan_domains (domains : list string) (all_links : list locator)
  : M W (option string) :=
  match domains with
  | [] => ret None
  | domain :: rest =>
      r <- scan_links domain all_links ;;
      match r with
      | Some u => ret (Some u)
      | None => scan_domains rest all_links
      end
  end.

(** Lines 71-78: the first result, whatever its domain. *)
Definition click_first (all_links : list locator) : M W (option string) :=
  try_except
    (link <- lift (py_index all_links 0) ;;
     click link ;;;
     wait_for_load_state "networkidle" ;;;
     fun w => (Ret (Some (page_url w)), w))
    (fun _ => ret None).

(** The page does not change while link targets are read: reading the
    target of [link] in world [w] gives [href] and leaves [w] as it is. *)
Definition reads (w : W) (link : locator) (href : option string) : Prop :=
  get_attribute (parent_of link) "href" w = (Ret href, w).

Definition select_medication_website : M W (option string) :=
  try_except
    (wait_for_selector "h3" ;;;
     all_links <- all (Locator "h3") ;;
     r <- scan_domains preferred_domains all_links ;;
     match r with
     | Some u => ret (Some u)
     | None => click_first all_links
     end)
    (fun _ => ret None).

End SiteSelector.

(* ===================================================================== *)
(** * Medicine Search Stage *)
(* ===================================================================== *)

(** The double-quote character of the [:has-text("...")] selectors. *)
Definition dq : string := String (ascii_of_nat 34) "".

Definition has_text (sel text : string) : string :=
  sel +:+ ":has-text(" +:+ dq +:+ text +:+ dq +:+ ")".

Definition search_selectors : list string :=
  [ "textarea.gLFyf"; "#APjFqb"; "textarea[name=" +:+ dq +:+ "q" +:+ dq +:+ "]" ].

(** The locators of the spelling-correction affordances (lines 121-137). *)
Definition did_you_mean_link : locator :=
  First (Locator (has_text "a" "Did you mean")).
Definition suggestion_text : locator := Locator "a.gL9Hy, i".
Definition suggestion_click : locator := First (Locator "a.gL9Hy, .spell_orig a").
Definition showing_results_mark : locator :=
  First (Locator (has_text "p" "Showing results for" +:+ ", .spell_orig")).
Definition auto_correction_text : locator := Locator ".spell_orig a, .spell b".

Section SearchStage.
Context {W : Type} `{Browser W}.

(** Lines 89-92. *)
Definition accept_cookies : M W unit :=
  v <- is_visible (Locator (has_text "button" "Accept all")) ;;
  if v then click (Locator (has_text "button" "Accept all")) else ret tt.

(** [for char in misspelled_medicine: element.type(char, ...)] *)
Fixpoint type_text (element : locator) (text : string) : M W unit :=
  match text with
  | "" => ret tt
  | String c rest => type_char element c ;;; type_text element rest
  end.

(** Lines 97-112: the first visible search input gets the query. *)
Fixpoint enter_query (selectors : list string) (query : string) : M W unit :=
  match selectors with
  | [] => ret tt
  | selector :: rest =>
      v <- is_visible (Locator selector) ;;
      if v then
        let element := Locator selector in
        click element ;;;
        fill element "" ;;;
        type_text element query ;;;
        press selector "Enter"
      else enter_query rest query
  end.

(** Lines 85-115: from the search engine's home page to the settled
    results page. *)
Definition submit_query (misspelled_medicine : string) : M W unit :=
  goto "https://www.google.com" ;;;
  accept_cookies ;;;
  enter_query search_selectors misspelled_medicine ;;;
  wait_for_load_state "networkidle".

(** Lines 120-131.  [corrected_spelling] is assigned as soon as the
    suggestion is read, so a failure of the click that follows keeps the
    suggestion; the bare [except:] only skips the rest of the block. *)
Definition did_you_mean (corrected_spelling : string) : M W string :=
  v <- is_visible did_you_mean_link ;;
  if v then
    try_except
      (suggestion <- inner_text suggestion_text ;;
       try_except
         (click suggestion_click ;;; ret suggestion)
         (fun _ => ret suggestion))
      (fun _ => ret corrected_spelling)
  else ret corrected_spelling.

(** Lines 133-141. *)
Definition showing_results_for (corrected_spelling : string) : M W string :=
  let showing_results := showing_results_mark in
  n <- count showing_results ;;
  if 0 <? n then
    try_except (inner_text auto_correction_text)
               (fun _ => ret corrected_spelling)
  else ret corrected_spelling.

Definition search_single_medicine (misspelled_medicine : string)
  : M W (string * option string) :=
  submit_query misspelled_medicine ;;;
  corrected_spelling <- did_you_mean misspelled_medicine ;;
  corrected_spelling <- showing_results_for corrected_spelling ;;
  url <- select_medication_website ;;
  match url with
  | Some u => if String.eqb u "" then ret (corrected_spelling, None)
              else ret (corrected_spelling, Some u)
  | None => ret (corrected_spelling, None)
  end.

End SearchStage.

(* ===================================================================== *)
(** * Name Extractor *)
(* ===================================================================== *)

Section NameExtractor.
Context {W : Type} `{Browser W} `{Runtime}.

(** [t = page.locator(sel).first; if t.is_visible(): return
    t.inner_text().strip()] *)
Definition visible_title (sel : string) : M W (option string) :=
  let product_title := First (Locator sel) in
  v <- is_visible product_title ;;
  if v then t <- inner_text product_title ;; ret (Some (Py.strip t))
  else ret None.

(** Lines 201-204. *)
Fixpoint name_from_parts (url_parts : list string) : option string :=
  match url_parts with
  | [] => None
  | part :: rest =>
      if (3 <? String.length part) && Py.contains "-" part
         && negb (Py.contains "?" part)
      then Some (title (Py.replace "-" " " part))
      else name_from_parts rest
  end.

(** The [if/elif] chain on the domain (lines 159-193): [Some name] when a
    branch returns. *)
Definition site_specific_name (url : string) : M W (option string) :=
  if Py.contains "apollopharmacy.in" url then
    r <- visible_title
           ".ProductDetailsGeneric-name, .ProductCard-title, h1.MuiTypography-root" ;;
    match r with
    | Some name => ret (Some name)
    | None =>
        match search_medicine_slug url with
        | Some medicine_slug =>
            let medicine_name := Py.replace "-" " " medicine_slug in
            let medicine_name := sub_dosage medicine_name in
            let medicine_name := Py.strip (Py.replace "tablet" "" medicine_name) in
            ret (Some (title medicine_name))
        | None => ret None
        end
    end
  else if Py.contains "1mg.com" url then
    visible_title ".DrugHeader__title-content, .style__pro-title, h1"
  else if Py.contains "netmeds.com" url then
    visible_title ".product-detail, .product_title, h1"
  else if Py.contains "pharmeasy.in" url then
    visible_title
      ".MedicineOverviewSection_medicineName, .ProductTitle_medicineName, h1"
  else ret None.

Definition extract_medicine_name_from_url (url : string) : M W (option string) :=
  try_except
    (r <- site_specific_name url ;;
     match r with
     | Some name => ret (Some name)
     | None =>
         r <- visible_title "h1" ;;
         match r with
         | Some name => ret (Some name)
         | None => ret (name_from_parts (Py.split "/" url))
         end
     end)
    (fun _ => ret None).

End NameExtractor.

(* ===================================================================== *)
(** * Content Normalizer *)
(* ===================================================================== *)

(** The simple selectors the normalizer uses; a comma-separated selector
    string is the list of its alternatives. *)
Inductive selector :=
| ByTag (name : string)                      (* nav *)
| ById (id : string)                         (* #content *)
| ByClass (class : string)                   (* .content *)
| ByRole (role : string)                     (* [role=banner] *)
| ByTagRole (name : string) (role : string). (* div[role=main] *)

Definition matches (sel : selector) (n : node) : bool :=
  match n with
  | Text _ => false
  | Tag name id classes role _ =>
      match sel with
      | ByTag t => String.eqb name t
      | ById i => bool_decide (id = Some i)
      | ByClass c => bool_decide (c ∈ classes)
      | ByRole r => bool_decide (role = Some r)
      | ByTagRole t r => String.eqb name t && bool_decide (role = Some r)
      end
  end.

Definition matches_any (sels : list selector) (n : node) : bool :=
  existsb (fun sel => matches sel n) sels.

(** A node followed by its descendants, in document order. *)
Fixpoint subtree (n : node) : list node :=
  n :: match n with
       | Text _ => []
       | Tag _ _ _ _ children =>
           (fix go (l : list node) : list node :=
              match l with
              | [] => []
              | c :: l' => subtree c ++ go l'
              end) children
       end.

Definition subtrees (l : list node) : list node := flat_map subtree l.

(** [soup.select(sels)]: the matching tags in document order. *)
Definition select (sels : list selector) (soup : list node) : list node :=
  filter (fun n => matches_any sels n = true) (subtrees soup).

Definition noise_selectors : list selector :=
  [ ByTag "script"; ByTag "style"; ByTag "nav"; ByTag "footer"; ByTag "iframe";
    ByClass "cookie-banner"; ByClass "popup"; ByClass "modal";
    ByClass "advertisement"; ByClass "ad"; ByClass "banner"; ByTag "aside";
    ByRole "banner"; ByRole "complementary" ].

Definition potential_content_selectors : list selector :=
  [ ByTag "main"; ByTag "article"; ById "content"; ByClass "content";
    ByClass "main"; ByClass "main-content"; ByClass "product-detail";
    ByClass "drug-info"; ByClass "medicine-info"; ByClass "product-description";
    ByTagRole "div" "main" ].

(** The tree after [element.decompose()] on every element the noise
    selectors match (lines 221-222): such an element goes with all it
    contains. *)
Fixpoint decompose_noise (n : node) : option node :=
  match n with
  | Text s => Some (Text s)
  | Tag name id classes role children =>
      if matches_any noise_selectors n then None
      else Some (Tag name id classes role
                   ((fix go (l : list node) : list node :=
                       match l with
                       | [] => []
                       | c :: l' =>
                           match decompose_noise c with
                           | Some c' => c' :: go l'
                           | None => go l'
                           end
                       end) children))
  end.

Definition remove_noise (soup : list node) : list node :=
  omap decompose_noise soup.

(** The text pieces below a node, in document order. *)
Fixpoint strings_of (n : node) : list string :=
  match n with
  | Text s => [s]
  | Tag _ _ _ _ children =>
      (fix go (l : list node) : list string :=
         match l with
         | [] => []
         | c :: l' => strings_of c ++ go l'
         end) children
  end.

(** [element.get_text(strip=True)]: the pieces stripped, the empty ones
    dropped, joined without separator. *)
Definition get_text_strip (n : node) : string :=
  Py.join "" (filter (fun t => t <> "") (map Py.strip (strings_of n))).

(** [element.get_text()] *)
Definition get_text (n : node) : string := Py.join "" (strings_of n).

Definition substantial (n : node) : bool :=
  200 <? String.length (get_text_strip n).

(** Lines 240-249: the first selector with a substantial match decides. *)
Fixpoint find_main_content (sels : list selector) (soup : list node)
  : option node :=
  match sels with
  | [] => None
  | sel :: rest =>
      match List.find substantial (select [sel] soup) with
      | Some element => Some element
      | None => find_main_content rest soup
      end
  end.

(** [soup.body]: the first [body] tag of the document, if any. *)
Definition body (soup : list node) : option node :=
  head (select [ByTag "body"] soup).

Section ContentNormalizer.
Context `{Runtime}.

(** Lines 218-265, the [try] block. *)
Definition convert (html_content url : string) : outcome string :=
  obind (parse_html html_content) (fun soup =>
  let soup := remove_noise soup in
  let main_content :=
    match find_main_content potential_content_selectors soup with
    | Some element => Some element
    | None => body soup
    end in
  obind (markdownify main_content) (fun markdown_content =>
  let markdown_content := collapse_blank_lines markdown_content in
  Ret (markdown_content +:+ Py.newlines 2 +:+ "Source URL: " +:+ url))).

Definition convert_html_to_markdown (html_content url : string) : string :=
  match convert html_content url with
  | Ret markdown_content => markdown_content
  | Raise e => "Failed to convert content: " +:+ exn_msg e
  end.

End ContentNormalizer.

(* ===================================================================== *)
(** * Summarization Stage *)
(* ===================================================================== *)

Definition required_keys : list string :=
  [ "medicine_name"; "description"; "key_benefits"; "directions";
    "safety_info"; "relevant_info" ].

Definition fence : string := "```".

(** Lines 316-321: unwrap a markdown code fence. *)
Definition strip_code_fence (response_text : string) : outcome string :=
  if Py.contains (fence +:+ "json") response_text then
    obind (py_index (Py.split (fence +:+ "json") response_text) 1) (fun after =>
    obind (py_index (Py.split fence after) 0) (fun inside =>
    Ret (Py.strip inside)))
  else if Py.contains fence response_text then
    obind (py_index (Py.split fence response_text) 1) (fun inside =>
    Ret (Py.strip inside))
  else Ret (Py.strip response_text).

(** Line 324: newlines become spaces, every backslash is doubled. *)
Definition clean_json_text (json_text : string) : string :=
  Py.replace "\" "\\" (Py.replace (String Py.nl "") " " json_text).

(** The default of a required key (lines 342-345). *)
Definition default_value (key : string) : json :=
  if String.eqb key "key_benefits" then JList [] else JStr "".

(** Lines 340-345 for one key. *)
Definition ensure_key (result : gmap string json) (key : string)
  : gmap string json :=
  match result !! key with
  | Some _ => result
  | None => <[key := default_value key]> result
  end.

(** Lines 335-336.  [json.loads] may return any JSON value; on anything but
    an object the membership test or the subscript raises [TypeError]
    (messages as CPython 3.12 words them). *)
Definition set_missing_name (result : json) (medicine_name : string)
  : outcome (gmap string json) :=
  match result with
  | JDict d =>
      match d !! "medicine_name" with
      | Some v =>
          if truthy v then Ret d
          else Ret (<["medicine_name" := JStr medicine_name]> d)
      | None => Ret (<["medicine_name" := JStr medicine_name]> d)
      end
  | JList _ =>
      Raise (TypeError "list indices must be integers or slices, not str")
  | JStr s =>
      if Py.contains "medicine_name" s
      then Raise (TypeError "string indices must be integers, not 'str'")
      else Raise (TypeError "'str' object does not support item assignment")
  | v =>
      Raise (TypeError ("argument of type '" +:+ type_name v +:+ "' is not iterable"))
  end.

(** Lines 352-359. *)
Definition error_record (medicine_name : string) (e : exn) : gmap string json :=
  list_to_map
    [ ("medicine_name", JStr medicine_name);
      ("description", JStr ("Error extracting information: " +:+ exn_msg e));
      ("key_benefits", JList []);
      ("directions", JStr "");
      ("safety_info", JStr "");
      ("relevant_info", JStr "") ].

Section Summarization.
Context {W : Type} `{Backend W} `{Runtime}.

(** Lines 327-332: one more parse, without the non-ASCII characters, when
    the first one raises [JSONDecodeError]. *)
Definition parse_json (json_text : string) : outcome json :=
  match json_loads json_text with
  | Ret result => Ret result
  | Raise e =>
      if String.eqb (exn_class e) "JSONDecodeError"
      then json_loads (Py.strip_non_ascii json_text)
      else Raise e
  end.

(** Lines 313-347: from the response text to the completed record. *)
Definition parse_response (response_text medicine_name : string)
  : outcome (gmap string json) :=
  obind (strip_code_fence response_text) (fun json_text =>
  let json_text := clean_json_text json_text in
  obind (parse_json json_text) (fun result =>
  obind (set_missing_name result medicine_name) (fun result =>
  Ret (foldl ensure_key result required_keys)))).

(** The function as written, before the decorator is applied: its whole
    body is one [try ... except Exception] (lines 300-359). *)
Definition extract_medicine_info_body (markdown_content medicine_name : string)
  : M W (gmap string json) :=
  try_except
    (response_text <-
       generate_content
         (prompt_text medicine_name (Py.take 20000 markdown_content)) ;;
     lift (parse_response response_text medicine_name))
    (fun e => ret (error_record medicine_name e)).

(** The decorated function (lines 271-277). *)
Definition extract_medicine_info (markdown_content medicine_name : string)
  : M W (gmap string json) :=
  on_exception 3 (extract_medicine_info_body markdown_content medicine_name).

End Summarization.

(* ===================================================================== *)
(** * Pipeline Orchestrator *)
(* ===================================================================== *)

(** Keys of a Python dict: values that compare equal are one key
    ([True == 1 == 1.0]), lists and dicts cannot be keys. *)
Inductive pykey :=
| KNone
| KStr (s : string)
| KInt (z : Z)
| KFloat (f : spec_float).

Global Instance spec_float_eq_dec : EqDecision spec_float.
Proof. solve_decision. Defined.

Global Instance pykey_eq_dec : EqDecision pykey.
Proof. solve_decision. Defined.

Definition spec_float_code (f : spec_float) : bool + bool + unit + bool * positive * Z :=
  match f with
  | S754_zero s => inl (inl (inl s))
  | S754_infinity s => inl (inl (inr s))
  | S754_nan => inl (inr tt)
  | S754_finite s m e => inr (s, m, e)
  end.

Definition spec_float_decode (c : bool + bool + unit + bool * positive * Z) : spec_float :=
  match c with
  | inl (inl (inl s)) => S754_zero s
  | inl (inl (inr s)) => S754_infinity s
  | inl (inr _) => S754_nan
  | inr (s, m, e) => S754_finite s m e
  end.

Global Instance spec_float_countable : Countable spec_float.
Proof.
  apply (inj_countable' spec_float_code spec_float_decode).
  by intros [].
Defined.

Definition pykey_code (k : pykey) : unit + string + Z + spec_float :=
  match k with
  | KNone => inl (inl (inl tt))
  | KStr s => inl (inl (inr s))
  | KInt z => inl (inr z)
  | KFloat f => inr f
  end.

Definition pykey_decode (c : unit + string + Z + spec_float) : pykey :=
  match c with
  | inl (inl (inl _)) => KNone
  | inl (inl (inr s)) => KStr s
  | inl (inr z) => KInt z
  | inr f => KFloat f
  end.

Global Instance pykey_countable : Countable pykey.
Proof.
  apply (inj_countable' pykey_code pykey_decode).
  by intros [].
Defined.

(** A finite float [m * 2^e] with the factors of two moved out of [m]. *)
Fixpoint odd_mantissa (m : positive) (e : Z) : positive * Z :=
  match m with
  | xO m' => odd_mantissa m' (e + 1)
  | _ => (m, e)
  end.

(** The key a float stands for: an integral float is the integer. *)
Definition float_key (f : spec_float) : pykey :=
  match f with
  | S754_zero _ => KInt 0
  | S754_finite s m e =>
      let '(m', e') := odd_mantissa m e in
      if (0 <=? e')%Z
      then KInt ((if s then -1 else 1) * (Z.pos m' * 2 ^ e'))
      else KFloat (S754_finite s m' e')
  | _ => KFloat f
  end.

(** [hash(v)] as far as the dict needs it. *)
Definition hash_key (v : json) : outcome pykey :=
  match v with
  | JNull => Ret KNone
  | JBool b => Ret (KInt (if b then 1 else 0))
  | JInt z => Ret (KInt z)
  | JFloat f => Ret (float_key f)
  | JStr s => Ret (KStr s)
  | JList _ => Raise (TypeError "unhashable type: 'list'")
  | JDict _ => Raise (TypeError "unhashable type: 'dict'")
  end.

(** The key under which a record is entered. *)
Definition entered_as (info : gmap string json) (key : pykey) : Prop :=
  exists v, info !! "medicine_name" = Some v /\ hash_key v = Ret key.

(** An entry of the returned mapping (lines 461-468). *)
Record entry := Entry {
  description : json;
  key_benefits : string;
  directions : json;
  safety_info : json;
  relevant_info : json;
  url : json
}.

(** The records appended for an item that failed (lines 394-402, 434-442). *)
Definition placeholder (medicine_name description : string) : gmap string json :=
  list_to_map
    [ ("medicine_name", JStr medicine_name);
      ("description", JStr description);
      ("key_benefits", JList []);
      ("directions", JStr "");
      ("safety_info", JStr "");
      ("relevant_info", JStr "");
      ("url", JStr "") ].

(** Line 420: [info["description"] and not
    info["description"].startswith("Error")]. *)
Definition meaningful (info : gmap string json) : outcome bool :=
  obind (py_getitem info "description") (fun d =>
  if truthy d then
    match d with
    | JStr s => Ret (negb (Py.startswith "Error" s))
    | v => Raise (AttributeError
                    ("'" +:+ type_name v +:+ "' object has no attribute 'startswith'"))
    end
  else Ret false).

(** The items of [", ".join(benefits)]: each must be text. *)
Fixpoint str_items (i : nat) (l : list json) : outcome (list string) :=
  match l with
  | [] => Ret []
  | JStr s :: rest => obind (str_items (S i) rest) (fun r => Ret (s :: r))
  | v :: _ =>
      Raise (TypeError ("sequence item " +:+ pretty i +:+ ": expected str instance, "
                        +:+ type_name v +:+ " found"))
  end.

(** [try: m  finally: f], which is also how the [with] block leaves its
    context manager: [f] always runs, and an exception of [f] replaces the
    outcome of [m]. *)
Definition finally {W A} (m : M W A) (f : M W unit) : M W A :=
  fun w =>
    match m w with
    | (o, w') =>
        match f w' with
        | (Ret _, w'') => (o, w'')
        | (Raise e, w'') => (Raise e, w'')
        end
    end.

Section Orchestrator.
Context {W : Type} `{Browser W} `{Backend W} `{Runtime}.

(** The body of the loop for one medicine (lines 387-442), from the
    [results] and [success_count] so far to the new ones.  Nothing can
    raise between the first update of either and the end of the [try], so
    the handler sees them as they were when the item started. *)
Definition process_medicine (medicine_name : string)
    (acc : list (gmap string json) * nat)
  : M W (list (gmap string json) * nat) :=
  let '(results, success_count) := acc in
  try_except
    (let search_term := medicine_name +:+ " medicine links" in
     found <- search_single_medicine search_term ;;
     let '(corrected_name, url) := found in
     match url with
     | None =>
         ret (results ++
                [placeholder medicine_name
                   "Failed to find a reliable URL for this medicine"],
              success_count)
     | Some url =>
         actual_medicine_name <- extract_medicine_name_from_url url ;;
         let corrected_name :=
           match actual_medicine_name with
           | Some name => if String.eqb name "" then corrected_name else name
           | None => corrected_name
           end in
         html_content <- content ;;
         let markdown_content := convert_html_to_markdown html_content url in
         info <- extract_medicine_info markdown_content corrected_name ;;
         let info := <["url" := JStr url]> info in
         ok <- lift (meaningful info) ;;
         ret (results ++ [info],
              if ok : bool then S success_count else success_count)
     end)
    (fun e =>
       ret (results ++ [placeholder medicine_name ("Error: " +:+ exn_msg e)],
            success_count)).

(** [for i, medicine_name in enumerate(medicine_list)] (line 384). *)
Fixpoint process_items (medicine_list : list string)
    (acc : list (gmap string json) * nat)
  : M W (list (gmap string json) * nat) :=
  match medicine_list with
  | [] => ret acc
  | medicine_name :: rest =>
      acc' <- process_medicine medicine_name acc ;;
      process_items rest acc'
  end.

(** Lines 454-458. *)
Definition benefits_text (benefits : json) : outcome string :=
  match benefits with
  | JList l => obind (str_items 0 l) (fun items => Ret (Py.join ", " items))
  | v => Ret (py_str v)
  end.

(** One round of the formatting loop (lines 450-468). *)
Definition format_record (medicine_data : gmap pykey entry)
    (info : gmap string json) : outcome (gmap pykey entry) :=
  obind (py_getitem info "medicine_name") (fun medicine_name =>
  obind (py_getitem info "key_benefits") (fun benefits =>
  obind (benefits_text benefits) (fun benefits_str =>
  obind (py_getitem info "description") (fun description =>
  obind (py_getitem info "directions") (fun directions =>
  obind (py_getitem info "safety_info") (fun safety_info =>
  obind (py_getitem info "relevant_info") (fun relevant_info =>
  let url := default (JStr "") (info !! "url") in
  obind (hash_key medicine_name) (fun key =>
  Ret (<[key := Entry description benefits_str directions safety_info
                      relevant_info url]> medicine_data))))))))).

Fixpoint format_results (medicine_data : gmap pykey entry)
    (results : list (gmap string json)) : outcome (gmap pykey entry) :=
  match results with
  | [] => Ret medicine_data
  | info :: rest =>
      obind (format_record medicine_data info) (fun medicine_data =>
      format_results medicine_data rest)
  end.

(** The [with sync_playwright() as playwright:] block (lines 367-446). *)
Definition run_batch (medicine_list : list string)
  : M W (list (gmap string json) * nat) :=
  playwright_start ;;;
  finally
    (open_page ;;;
     acc <- process_items medicine_list ([], 0) ;;
     page_close ;;;
     browser_close ;;;
     ret acc)
    playwright_stop.

(** Line 471 evaluates [success_count/len(medicine_list)] for the summary
    line it prints. *)
Definition success_rate_check (medicine_list : list string) : outcome unit :=
  if length medicine_list =? 0 then Raise ZeroDivisionError else Ret tt.

Definition process_medicine_list (medicine_list : list string)
  : M W (gmap pykey entry) :=
  acc <- run_batch medicine_list ;;
  let '(results, success_count) := acc in
  medicine_data <- lift (format_results ∅ results) ;;
  lift (success_rate_check medicine_list) ;;;
  ret medicine_data.

End Orchestrator.

(* ===================================================================== *)
(** * The selection order, as the specification words it *)
(* ===================================================================== *)

(** These definitions follow the specification of the Site Selector
    (section 4.2), not the code: the preference list is scanned in order
    and, within a domain, the results in page order; the first result whose
    link contains the domain is selected; if no preferred domain matches any
    result, the first result is selected.  Results are given by the link
    targets read from the page. *)
Definition link_contains (domain : string) (href : option string) : bool :=
  Py.contains domain (default "" href).

Fixpoint first_result_for (domain : string) (hrefs : list (option string))
  : option nat :=
  match hrefs with
  | [] => None
  | href :: rest =>
      if link_contains domain href then Some 0
      else S <$> first_result_for domain rest
  end.

Fixpoint preferred_result (domains : list string) (hrefs : list (option string))
  : option nat :=
  match domains with
  | [] => None
  | domain :: rest =>
      match first_result_for domain hrefs with
      | Some i => Some i
      | None => preferred_result rest hrefs
      end
  end.

Definition selected_result (hrefs : list (option string)) : option nat :=
  match preferred_result preferred_domains hrefs with
  | Some i => Some i
  | None => match hrefs with [] => None | _ :: _ => Some 0 end
  end.

(* ===================================================================== *)
(** * A simulated world *)
(* ===================================================================== *)

(** A small deterministic browser and backend, used to run the pipeline on
    concrete inputs.  The browser shows one search-results page; a click on
    a result navigates to its target.  The backend answers from a script. *)
Module Sim.

Record hit := Hit {
  href : option string;     (* the href of the element around the h3 *)
  target : string;          (* the address a click on it leads to *)
  shown : bool              (* a click on a hidden result times out *)
}.

Record world := World {
  address : string;                 (* page.url *)
  hits : list hit;                  (* the h3 results, in page order *)
  suggestion : option string;       (* the "Did you mean" link, if shown *)
  auto_correction : option string;  (* the "Showing results for" term *)
  heading : option string;          (* the visible h1 of a product page *)
  html : string;                    (* page.content() *)
  script : list (outcome string)    (* the backend's answers, in order *)
}.

Definition TimeoutError : exn :=
  Exception "TimeoutError" "Timeout 60000ms exceeded.".

Definition navigate (u : string) (w : world) : world :=
  World u (hits w) (suggestion w) (auto_correction w) (heading w) (html w)
        (script w).

Definition same {A} (f : world -> outcome A) : M world A :=
  fun w => (f w, w).

Definition of_option {A} (o : option A) : outcome A :=
  match o with
  | Some a => Ret a
  | None => Raise TimeoutError
  end.

Definition results_locator : locator := Locator "h3".

Definition heading_locator : locator := First (Locator "h1").

Definition sim_count (l : locator) : M world nat :=
  same (fun w =>
    if decide (l = results_locator) then Ret (length (hits w))
    else if decide (l = showing_results_mark)
    then Ret (match auto_correction w with Some _ => 1 | None => 0 end)
    else Ret 0).

Definition sim_is_visible (l : locator) : M world bool :=
  same (fun w =>
    if decide (l = did_you_mean_link)
    then Ret (bool_decide (is_Some (suggestion w)))
    else if decide (l = Locator "textarea.gLFyf") then Ret true
    else if decide (l = heading_locator)
    then Ret (bool_decide (is_Some (heading w)))
    else Ret false).

(** The result a locator of the form
    [page.locator('h3').nth(i).locator('xpath=..').first] or
    [page.locator('h3').nth(i)] points at. *)
Definition result_index (l : locator) : option nat :=
  match l with
  | First (Sub (Nth r i) sel) =>
      if decide (r = results_locator /\ sel = "xpath=..") then Some i else None
  | _ => None
  end.

Definition sim_get_attribute (l : locator) (name : string)
  : M world (option string) :=
  same (fun w =>
    match result_index l with
    | Some i =>
        match hits w !! i with
        | Some h => Ret (href h)
        | None => Raise TimeoutError
        end
    | None => Raise TimeoutError
    end).

Definition sim_inner_text (l : locator) : M world string :=
  same (fun w =>
    if decide (l = suggestion_text) then of_option (suggestion w)
    else if decide (l = auto_correction_text)
    then of_option (auto_correction w)
    else if decide (l = heading_locator) then of_option (heading w)
    else Raise TimeoutError).

Definition sim_click (l : locator) : M world unit :=
  fun w =>
    match l with
    | Nth r i =>
        if decide (r = results_locator) then
          match hits w !! i with
          | Some h => if shown h then (Ret tt, navigate (target h) w)
                      else (Raise TimeoutError, w)
          | None => (Raise TimeoutError, w)
          end
        else (Ret tt, w)
    | _ => (Ret tt, w)
    end.

Definition sim_wait_for_selector (sel : string) : M world unit :=
  same (fun w =>
    match hits w with
    | [] => Raise TimeoutError
    | _ => Ret tt
    end).

Global Instance browser : Browser world := {|
  goto u := fun w => (Ret tt, navigate u w);
  wait_for_selector := sim_wait_for_selector;
  wait_for_load_state _ := ret tt;
  page_url := address;
  content := same (fun w => Ret (html w));
  press _ _ := ret tt;
  count := sim_count;
  is_visible := sim_is_visible;
  get_attribute := sim_get_attribute;
  inner_text := sim_inner_text;
  click := sim_click;
  fill _ _ := ret tt;
  type_char _ _ := ret tt;
  playwright_start := ret tt;
  playwright_stop := ret tt;
  open_page := ret tt;
  page_close := ret tt;
  browser_close := ret tt
|}.

Definition sim_generate_content (prompt : string) : M world string :=
  fun w =>
    match script w with
    | answer :: rest =>
        (answer,
         World (address w) (hits w) (suggestion w) (auto_correction w)
               (heading w) (html w) rest)
    | [] => (Raise (Exception "RuntimeError" "the script is exhausted"), w)
    end.

Global Instance backend : Backend world := {|
  generate_content := sim_generate_content
|}.

(** A backend that is down: every call raises. *)
Definition offline : Backend world := {|
  generate_content _ :=
    raise (Exception "ServiceUnavailable" "503 The model is overloaded")
|}.

(** Library functions for the simulation: the two parsers are given as
    tables, markdown conversion keeps the text of the selected element. *)
Definition runtime (loads : string -> outcome json)
    (parse : string -> outcome (list node)) : Runtime := {|
  json_loads := loads;
  py_str v := match v with JStr s => s | _ => "" end;
  title s := s;
  search_medicine_slug _ := None;
  sub_dosage s := s;
  parse_html := parse;
  markdownify o := match o with
                   | Some n => Ret (get_text n)
                   | None => Ret "None"
                   end;
  prompt_text medicine_name content := medicine_name +:+ ": " +:+ content
|}.

Definition JSONDecodeError : exn :=
  Exception "JSONDecodeError" "Expecting value: line 1 column 1 (char 0)".

(** A parser that knows no text. *)
Definition no_json (text : string) : outcome json := Raise JSONDecodeError.

Definition no_html (text : string) : outcome (list node) := Ret [].

End Sim.

Module SimSelector.

(** The results page of the specification's example: an unknown site
    first, a preferred pharmacy second. *)
Definition example_page : Sim.world :=
  Sim.World "https://www.google.com/search?q=ultracet+medicine+links"
    [ Sim.Hit (Some "https://unknown.example/x") "https://unknown.example/x" true;
      Sim.Hit (Some "https://www.1mg.com/y") "https://www.1mg.com/y" true ]
    None None None "" [].

(** A results page whose first result, a preferred pharmacy, is hidden (a
    collapsed box), so that the click on it times out; the second result is
    another preferred pharmacy. *)
Definition hidden_first : Sim.world :=
  Sim.World "https://www.google.com/search?q=ultracet+medicine+links"
    [ Sim.Hit (Some "https://www.1mg.com/drugs/ultracet")
              "https://www.1mg.com/drugs/ultracet" false;
      Sim.Hit (Some "https://www.apollopharmacy.in/medicine/ultracet")
              "https://www.apollopharmacy.in/medicine/ultracet" true ]
    None None None "" [].

(** A results page whose only preferred pharmacy, the second result, is
    hidden, so that the click on it times out; the first result is an
    unknown site. *)
Definition hidden_preferred : Sim.world :=
  Sim.World "https://www.google.com/search?q=ultracet+medicine+links"
    [ Sim.Hit (Some "https://unknown.example/x") "https://unknown.example/x" true;
      Sim.Hit (Some "https://www.1mg.com/y") "https://www.1mg.com/y" false ]
    None None None "" [].

(** A results page on which no result element ever renders. *)
Definition empty_page : Sim.world :=
  Sim.World "https://www.google.com/search?q=ultracet+medicine+links"
    [] None None None "" [].

End SimSelector.

Module SimSearch.

Definition pharmacy : Sim.hit :=
  Sim.Hit (Some "https://www.1mg.com/drugs/paracetamol-500mg-tablet")
          "https://www.1mg.com/drugs/paracetamol-500mg-tablet" true.

(** The results page for a misspelt query, with a "Did you mean"
    suggestion. *)
Definition suggested : Sim.world :=
  Sim.World "https://www.google.com" [pharmacy]
    (Some "paracetamol") None None "" [].

(** A results page that shows the suggestion and also a "Showing results
    for" term. *)
Definition both : Sim.world :=
  Sim.World "https://www.google.com" [pharmacy]
    (Some "paracetamol") (Some "paracetamol tablet") None "" [].

End SimSearch.

Module SimSummary.

Definition quoted (text : string) : string := dq +:+ text +:+ dq.

Definition field (key value : string) : string :=
  quoted key +:+ ": " +:+ value.

(** A well-formed answer of the backend, with all six keys. *)
Definition valid_answer : string :=
  "{" +:+ field "medicine_name" (quoted "Ultracet") +:+ ", "
      +:+ field "description" (quoted "Relieves moderate to severe pain") +:+ ", "
      +:+ field "key_benefits" ("[" +:+ quoted "Pain relief" +:+ "]") +:+ ", "
      +:+ field "directions" (quoted "After food") +:+ ", "
      +:+ field "safety_info" (quoted "May cause drowsiness") +:+ ", "
      +:+ field "relevant_info" (quoted "Store below 30 C") +:+ "}".

Definition valid_record : gmap string json :=
  list_to_map
    [ ("medicine_name", JStr "Ultracet");
      ("description", JStr "Relieves moderate to severe pain");
      ("key_benefits", JList [JStr "Pain relief"]);
      ("directions", JStr "After food");
      ("safety_info", JStr "May cause drowsiness");
      ("relevant_info", JStr "Store below 30 C") ].

(** An answer that leaves keys out and has an empty name. *)
Definition partial_answer : string :=
  "{" +:+ field "medicine_name" (quoted "") +:+ ", "
      +:+ field "description" (quoted "Relieves moderate to severe pain") +:+ "}".

Definition partial_record : gmap string json :=
  list_to_map
    [ ("medicine_name", JStr "");
      ("description", JStr "Relieves moderate to severe pain") ].

(** [json.loads] on the texts of this simulation. *)
Definition loads (text : string) : outcome json :=
  if decide (text = valid_answer) then Ret (JDict valid_record)
  else if decide (text = partial_answer) then Ret (JDict partial_record)
  else Raise Sim.JSONDecodeError.

Definition runtime : Runtime := Sim.runtime loads Sim.no_html.

Definition unavailable : exn :=
  Exception "ServiceUnavailable" "503 The model is overloaded".

Definition page (answers : list (outcome string)) : Sim.world :=
  Sim.World "https://www.1mg.com/drugs/ultracet-tablet-75142"
    [] None None (Some "Ultracet Tablet") "" answers.

(** A backend that raises on the first two calls and answers well on the
    third. *)
Definition flaky : Sim.world :=
  page [Raise unavailable; Raise unavailable; Ret valid_answer].

Definition healthy : Sim.world := page [Ret valid_answer].

Definition terse : Sim.world := page [Ret partial_answer].

Definition down : Sim.world := page [].

End SimSummary.

Module SimBatch.

(** A session in which both searches end on the same product page and the
    backend answers both times with the record of that product. *)
Definition session : Sim.world :=
  Sim.World "about:blank"
    [ Sim.Hit (Some "https://www.1mg.com/drugs/ultracet-tablet-75142")
              "https://www.1mg.com/drugs/ultracet-tablet-75142" true ]
    None None (Some "Ultracet Tablet") ""
    [ Ret SimSummary.valid_answer; Ret SimSummary.valid_answer ].

(** Two spellings of one medicine. *)
Definition two_spellings : list string := ["ultracet"; "ultracett"].

(** The one entry both spellings end up in. *)
Definition merged : gmap pykey entry :=
  {[ KStr "Ultracet" :=
       Entry (JStr "Relieves moderate to severe pain") "Pain relief"
             (JStr "After food") (JStr "May cause drowsiness")
             (JStr "Store below 30 C")
             (JStr "https://www.1mg.com/drugs/ultracet-tablet-75142") ]}.

(** A session in which no search finds anything and the backend is down. *)
Definition barren : Sim.world :=
  Sim.World "about:blank" [] None None None "" [].

Definition two_medicines : list string := ["ultracet"; "dolo"].

Definition not_found (medicine_name : string) : gmap string json :=
  placeholder medicine_name "Failed to find a reliable URL for this medicine".

Definition not_found_entry : entry :=
  Entry (JStr "Failed to find a reliable URL for this medicine") ""
        (JStr "") (JStr "") (JStr "") (JStr "").

Definition two_placeholders : gmap pykey entry :=
  <[KStr "dolo" := not_found_entry]> {[ KStr "ultracet" := not_found_entry ]}.

End SimBatch.

Module SimPage.

Fixpoint repeated (c : ascii) (n : nat) : string :=
  match n with
  | 0 => ""
  | S n => String c (repeated c n)
  end.

Definition menu : node := Tag "nav" None [] None [Text "Home | Medicines | Cart"].
Definition tracker : node := Tag "script" None [] None [Text "track('pageview')"].

(** A [<div class="content">] with 201 characters of text. *)
Definition leaflet : node :=
  Tag "div" None ["content"] None [Text (repeated "B" 201)].

(** A [<main>] with 201 characters of other text. *)
Definition article : node :=
  Tag "main" None [] None [Text (repeated "A" 201)].

(** The page of the specification's example. *)
Definition product_page : list node :=
  [Tag "html" None [] None [Tag "body" None [] None [menu; tracker; leaflet]]].

(** The same page with a [<main>] element before the [div]. *)
Definition portal_page : list node :=
  [Tag "html" None [] None
     [Tag "body" None [] None [menu; tracker; article; leaflet]]].

Definition parse (html_content : string) : outcome (list node) :=
  if decide (html_content = "product") then Ret product_page
  else if decide (html_content = "portal") then Ret portal_page
  else Ret [].

Definition runtime : Runtime := Sim.runtime Sim.no_json parse.

Definition address : string := "https://www.1mg.com/drugs/ultracet-tablet-75142".

End SimPage.

Module SimLeaflet.

(** A page whose only candidate, a [div] of class [content], is short: the
    body is what gets converted. *)
Definition note : node :=
  Tag "div" None ["content"] None [Text "Take after food."].

Definition short_page : list node :=
  [Tag "html" None [] None
     [Tag "body" None [] None [SimPage.menu; SimPage.tracker; note]]].

Definition parse (html_content : string) : outcome (list node) :=
  Ret short_page.

Definition runtime : Runtime := Sim.runtime Sim.no_json parse.

End SimLeaflet.

Module SimBroken.

Definition rejected : exn :=
  Exception "ParserRejectedMarkup" "The markup you provided was rejected by the parser.".

(** A parser that rejects every document. *)
Definition parse (html_content : string) : outcome (list node) :=
  Raise rejected.

Definition runtime : Runtime := Sim.runtime Sim.no_json parse.

End SimBroken.

Module SimAnswers.

(** The well-formed answer with a stray non-ASCII character in front. *)
Definition polluted_answer : string :=
  String (ascii_of_nat 233) SimSummary.valid_answer.

Definition polluted : Sim.world := SimSummary.page [Ret polluted_answer].

(** An answer that is no JSON at all. *)
Definition prose : Sim.world :=
  SimSummary.page [Ret "I could not find this medicine."].

(** A parser for a backend that answers with a JSON array. *)
Definition loads_array (text : string) : outcome json :=
  if decide (text = "[]") then Ret (JList []) else Raise Sim.JSONDecodeError.

Definition array_runtime : Runtime := Sim.runtime loads_array Sim.no_html.

Definition array : Sim.world := SimSummary.page [Ret "[]"].

End SimAnswers.

Module SimProduct.

(** A product page of a site without a profile of its own, with a visible
    heading. *)
Definition page : Sim.world :=
  Sim.World "https://www.drugs.com/ultracet.html" [] None None
    (Some "  Ultracet  ") "" [].

End SimProduct.

(* ===================================================================== *)
(** * What the orchestrator's loop leaves behind *)
(* ===================================================================== *)

(** The record the loop can append for an input name (lines 394-402,
    417-426, 434-442): the "not found" placeholder, the placeholder of an
    item-level failure, or the record of the Summarization Stage with the
    URL attached. *)
Inductive item_record (medicine_name : string) : gmap string json -> Prop :=
| item_not_found :
    item_record medicine_name
      (placeholder medicine_name "Failed to find a reliable URL for this medicine")
| item_failed (e : exn) :
    item_record medicine_name
      (placeholder medicine_name ("Error: " +:+ exn_msg e))
| item_summarized (url : string) (info : gmap string json) :
    url <> "" ->
    (forall key, key ∈ required_keys -> is_Some (info !! key)) ->
    item_record medicine_name (<["url" := JStr url]> info).

(** A record the loop counts as a success (lines 420-421): it carries a URL
    and its description is a non-empty text that does not start with
    "Error". *)
Definition succeeded (info : gmap string json) : bool :=
  match meaningful info with
  | Ret true =>
      match info !! "url" with
      | Some (JStr u) => negb (String.eqb u "")
      | _ => false
      end
  | _ => false
  end.

(** A record the formatting loop cannot take: a [key_benefits] list with an
    item that is no text, or a name that cannot be a dict key. *)
Definition unformattable (info : gmap string json) : Prop :=
  (exists l item, info !! "key_benefits" = Some (JList l)
                  /\ item ∈ l /\ forall s, item <> JStr s)
  \/ (exists v, info !! "medicine_name" = Some v /\ is_raise (hash_key v) = true).

Module SimFaulty.

Definition unreachable : exn :=
  Exception "Error" "net::ERR_INTERNET_DISCONNECTED".

Definition crashed : exn :=
  Exception "Error" "Target page, context or browser has been closed".

(** The simulated browser with a network that is down ([goto] raises) or a
    page that cannot be closed ([page.close()] raises). *)
Definition browser (offline stuck : bool) : Browser Sim.world := {|
  goto u := if offline then raise unreachable else @goto _ Sim.browser u;
  wait_for_selector := Sim.sim_wait_for_selector;
  wait_for_load_state _ := ret tt;
  page_url := Sim.address;
  content := Sim.same (fun w => Ret (Sim.html w));
  press _ _ := ret tt;
  count := Sim.sim_count;
  is_visible := Sim.sim_is_visible;
  get_attribute := Sim.sim_get_attribute;
  inner_text := Sim.sim_inner_text;
  click := Sim.sim_click;
  fill _ _ := ret tt;
  type_char _ _ := ret tt;
  playwright_start := ret tt;
  playwright_stop := ret tt;
  open_page := ret tt;
  page_close := if stuck then raise crashed else ret tt;
  browser_close := ret tt
|}.

(** A backend answer whose [key_benefits] holds a number. *)
Definition counted_benefits : gmap string json :=
  list_to_map
    [ ("medicine_name", JStr "Ultracet");
      ("description", JStr "Relieves moderate to severe pain");
      ("key_benefits", JList [JInt 3]) ].

Definition loads (text : string) : outcome json := Ret (JDict counted_benefits).

Definition runtime : Runtime := Sim.runtime loads Sim.no_html.

Definition session : Sim.world :=
  Sim.World "about:blank"
    [ Sim.Hit (Some "https://www.1mg.com/drugs/ultracet-tablet-75142")
              "https://www.1mg.com/drugs/ultracet-tablet-75142" true ]
    None None (Some "Ultracet Tablet") "" [ Ret "{}" ].

End SimFaulty.

Section EntryOf.
Context `{Runtime}.

(** The entry the formatting loop writes for a record (lines 461-468). *)
Definition entry_for (info : gmap string json) (en : entry) : Prop :=
  py_getitem info "description" = Ret (description en)
  /\ py_getitem info "directions" = Ret (directions en)
  /\ py_getitem info "safety_info" = Ret (safety_info en)
  /\ py_getitem info "relevant_info" = Ret (relevant_info en)
  /\ url en = default (JStr "") (info !! "url")
  /\ exists benefits, info !! "key_benefits" = Some benefits
                      /\ benefits_text benefits = Ret (key_benefits en).

End EntryOf.

Module SimMerge.

Definition first_try : gmap string json :=
  placeholder "ultracet" "Error: Timeout 60000ms exceeded.".

Definition second_try : gmap string json :=
  <["url" := JStr "https://www.1mg.com/drugs/ultracet-tablet-75142"]>
    SimSummary.valid_record.

Definition other : gmap string json :=
  placeholder "dolo" "Failed to find a reliable URL for this medicine".

End SimMerge.

(** * Timing codes of a prescription ([prescription_data.py]) *)

Module Prescription.

(** [part != "0" and part != "0/0"] *)
Definition taken (part : string) : bool :=
  negb (String.eqb part "0") && negb (String.eqb part "0/0").

(** [if part != "0" and part != "0/0": schedule[key] = part] *)
Definition set_dose (key part : string) (schedule : gmap string string)
  : gmap string string :=
  if taken part then <[key := part]> schedule else schedule.

(** [get_timing_text(timing_str)].  The argument is whatever the parsed
    answer holds under ["timing"]; [.split] exists on text only. *)
Definition get_timing_text (timing_str : json) : outcome (gmap string string) :=
  if negb (truthy timing_str) then Ret ∅
  else
    match timing_str with
    | JStr s =>
        let parts := Py.split "-" s in
        if negb (length parts =? 3) then Ret ∅
        else
          let schedule := ∅ in
          let schedule := set_dose "morning" (nth 0 parts "") schedule in
          let schedule := set_dose "afternoon" (nth 1 parts "") schedule in
          let schedule := set_dose "night" (nth 2 parts "") schedule in
          Ret schedule
    | v => Raise (AttributeError
                    ("'" +:+ type_name v +:+ "' object has no attribute 'split'"))
    end.

End Prescription.

Section LoopOutcome.
Context {W : Type} `{Browser W} `{Backend W} `{Runtime}.

(** Lines 406-408: the name handed to the Summarization Stage. *)
Definition name_used (corrected_name : string) (actual : option string)
  : string :=
  match actual with
  | Some name => if String.eqb name "" then corrected_name else name
  | None => corrected_name
  end.

(** One round of the loop (lines 387-442) for an input name, started in
    world [w]: the record it appends and the world it leaves.  The record is
    the placeholder of a failed search, the "not found" placeholder, the
    placeholder of a page whose content cannot be read, the record that
    [extract_medicine_info] returned for the normalized page content with
    the URL attached, or, when the check of line 420 raises on that record,
    the placeholder with the message of that failure. *)
Inductive item_outcome (medicine_name : string) (w : W)
  : gmap string json -> W -> Prop :=
| outcome_search_failed (e : exn) (w1 : W) :
    search_single_medicine (medicine_name +:+ " medicine links") w
    = (Raise e, w1) ->
    item_outcome medicine_name w
      (placeholder medicine_name ("Error: " +:+ exn_msg e)) w1
| outcome_not_found (corrected_name : string) (w1 : W) :
    search_single_medicine (medicine_name +:+ " medicine links") w
    = (Ret (corrected_name, None), w1) ->
    item_outcome medicine_name w
      (placeholder medicine_name
         "Failed to find a reliable URL for this medicine") w1
| outcome_content_failed (corrected_name url : string)
    (actual : option string) (e : exn) (w1 w2 w3 : W) :
    search_single_medicine (medicine_name +:+ " medicine links") w
    = (Ret (corrected_name, Some url), w1) ->
    extract_medicine_name_from_url url w1 = (Ret actual, w2) ->
    content w2 = (Raise e, w3) ->
    item_outcome medicine_name w
      (placeholder medicine_name ("Error: " +:+ exn_msg e)) w3
| outcome_summarized (corrected_name url : string) (actual : option string)
    (html_content : string) (info : gmap string json) (ok : bool)
    (w1 w2 w3 w4 : W) :
    search_single_medicine (medicine_name +:+ " medicine links") w
    = (Ret (corrected_name, Some url), w1) ->
    extract_medicine_name_from_url url w1 = (Ret actual, w2) ->
    content w2 = (Ret html_content, w3) ->
    extract_medicine_info (convert_html_to_markdown html_content url)
      (name_used corrected_name actual) w3
    = (Ret info, w4) ->
    meaningful (<["url" := JStr url]> info) = Ret ok ->
    item_outcome medicine_name w (<["url" := JStr url]> info) w4
| outcome_check_failed (corrected_name url : string) (actual : option string)
    (html_content : string) (info : gmap string json) (e : exn)
    (w1 w2 w3 w4 : W) :
    search_single_medicine (medicine_name +:+ " medicine links") w
    = (Ret (corrected_name, Some url), w1) ->
    extract_medicine_name_from_url url w1 = (Ret actual, w2) ->
    content w2 = (Ret html_content, w3) ->
    extract_medicine_info (convert_html_to_markdown html_content url)
      (name_used corrected_name actual) w3
    = (Ret info, w4) ->
    meaningful (<["url" := JStr url]> info) = Raise e ->
    item_outcome medicine_name w
      (placeholder medicine_name ("Error: " +:+ exn_msg e)) w4.

(** The rounds of the loop in sequence: each starts in the world the one
    before left. *)
Inductive items_outcome : list string -> W -> list (gmap string json) -> W
                          -> Prop :=
| items_done (w : W) : items_outcome [] w [] w
| items_next (medicine_name : string) (rest : list string)
    (info : gmap string json) (new : list (gmap string json)) (w w1 w2 : W) :
    item_outcome medicine_name w info w1 ->
    items_outcome rest w1 new w2 ->
    items_outcome (medicine_name :: rest) w (info :: new) w2.

End LoopOutcome.

(** Membership in a list that computes. *)
Ltac solve_elem_of :=
  vm_compute; repeat first [apply list_elem_of_here | apply list_elem_of_further].

Ltac unfold_monad := unfold bind, try_except, ret, raise, lift, finally in *.

(* ===================================================================== *)
(** * Properties: text operations *)
(* ===================================================================== *)

Section TextFacts.

Lemma string_app_cons (c : ascii) (a b : string) :
  String c a +:+ b = String c (a +:+ b).
Proof. reflexivity. Qed.

Lemma string_app_nil_l (s : string) : "" +:+ s = s.
Proof. reflexivity. Qed.

Lemma string_app_nil_r (s : string) : s +:+ "" = s.
Proof.
  induction s as [|c s IH]; [done|]. by rewrite string_app_cons, IH.
Qed.

Lemma string_app_assoc (a b c : string) : (a +:+ b) +:+ c = a +:+ b +:+ c.
Proof.
  induction a as [|x a IH]; [done|]. by rewrite !string_app_cons, IH.
Qed.

Lemma flush_run_small (run : nat) :
  run <= 2 -> Py.flush_run run = Py.newlines run.
Proof. intros Hr. by destruct run as [|[|[|run]]]; [..|lia]. Qed.

Lemma flush_run_large (run : nat) :
  3 <= run -> Py.flush_run run = Py.newlines 2.
Proof. intros Hr. by destruct run as [|[|[|run]]]; [lia..|]. Qed.

(** A run of newlines in front of the text only advances the counter. *)
Lemma sub_newline_runs_newlines (n run : nat) (b : string) :
  Py.sub_newline_runs run (Py.newlines n +:+ b)
  = Py.sub_newline_runs (run + n) b.
Proof.
  revert run. induction n as [|n IH]; intros run.
  - by rewrite Nat.add_0_r.
  - change (Py.newlines (S n) +:+ b) with (String Py.nl (Py.newlines n +:+ b)).
    simpl. rewrite IH. f_equal. lia.
Qed.

(** Text that does not start with a newline ends the current run. *)
Lemma sub_newline_runs_flush (run : nat) (b : string) :
  Py.starts_with_nl b = false ->
  Py.sub_newline_runs run b
  = Py.flush_run run +:+ Py.sub_newline_runs 0 b.
Proof.
  destruct b as [|c b]; simpl.
  - intros _. change (Py.flush_run 0) with "". by rewrite string_app_nil_r.
  - by intros ->.
Qed.

(** The scan of a paragraph does not depend on what follows it. *)
Lemma sub_newline_runs_app (a s : string) (run : nat) :
  a <> "" -> Py.ends_with_nl a = false ->
  Py.sub_newline_runs run (a +:+ s)
  = Py.sub_newline_runs run a +:+ Py.sub_newline_runs 0 s.
Proof.
  revert run. induction a as [|c a IH]; intros run Hne Hend; [done|].
  destruct a as [|c' a].
  - simpl in *. rewrite Hend. simpl.
    by rewrite string_app_assoc.
  - assert (Hend' : Py.ends_with_nl (String c' a) = false) by exact Hend.
    change (String c (String c' a) +:+ s) with (String c (String c' a +:+ s)).
    change (Py.sub_newline_runs run (String c (String c' a +:+ s)))
      with (if Ascii.eqb c Py.nl
            then Py.sub_newline_runs (S run) (String c' a +:+ s)
            else Py.flush_run run
                 +:+ String c (Py.sub_newline_runs 0 (String c' a +:+ s))).
    change (Py.sub_newline_runs run (String c (String c' a)))
      with (if Ascii.eqb c Py.nl
            then Py.sub_newline_runs (S run) (String c' a)
            else Py.flush_run run
                 +:+ String c (Py.sub_newline_runs 0 (String c' a))).
    rewrite !IH by done.
    destruct (Ascii.eqb c Py.nl); [done|].
    by rewrite string_app_assoc.
Qed.

Lemma collapse_app (a s : string) :
  Py.ends_with_nl a = false ->
  collapse_blank_lines (a +:+ s)
  = collapse_blank_lines a +:+ collapse_blank_lines s.
Proof.
  intros Hend. destruct a as [|c a]; [done|].
  by apply sub_newline_runs_app.
Qed.

(** The output of the scan is a fixed point of the collapse. *)
Lemma collapse_sub_newline_runs (s : string) (run : nat) :
  collapse_blank_lines (Py.sub_newline_runs run s)
  = Py.sub_newline_runs run s.
Proof.
  unfold collapse_blank_lines. revert run.
  induction s as [|c s IH]; intros run.
  - simpl. by destruct run as [|[|[|run]]].
  - simpl. destruct (Ascii.eqb c Py.nl) eqn:Hc; [apply IH|].
    assert (Hm : exists m, m <= 2 /\ Py.flush_run run = Py.newlines m).
    { destruct (decide (run <= 2)) as [Hr|Hr].
      - exists run. split; [done | by apply flush_run_small].
      - exists 2. split; [lia | apply flush_run_large; lia]. }
    destruct Hm as (m & Hm & ->).
    rewrite sub_newline_runs_newlines. simpl.
    rewrite Hc, IH. by rewrite flush_run_small.
Qed.

(** [split] always yields at least one piece, and at least two when the
    separator occurs: the subscripts of the code-fence handling never
    fail. *)
Lemma split_go_length sep skip cur s :
  1 <= length (Py.split_go sep skip cur s).
Proof.
  revert skip cur. induction s as [|c s IH]; intros skip cur; simpl; [lia|].
  destruct skip as [|k]; [|apply IH].
  destruct (Py.startswith sep (String c s)); [simpl; lia | apply IH].
Qed.

Lemma split_go_found sep cur s :
  sep <> "" -> Py.contains sep s = true ->
  2 <= length (Py.split_go sep 0 cur s).
Proof.
  intros Hsep. revert cur. induction s as [|c s IH]; intros cur.
  - destruct sep; [done|]. simpl. discriminate.
  - cbn [Py.contains Py.split_go].
    destruct (Py.startswith sep (String c s)).
    + intros _. cbn [length].
      pose proof (split_go_length sep (String.length sep - 1) "" s). lia.
    + cbn [orb]. apply IH.
Qed.

Lemma py_index_returns {A} (l : list A) (i : nat) :
  i < length l -> exists a, py_index l i = Ret a.
Proof.
  intros Hi. unfold py_index.
  destruct (lookup_lt_is_Some_2 l i Hi) as [a ->]. by exists a.
Qed.

Lemma strip_code_fence_returns (response_text : string) :
  exists json_text, strip_code_fence response_text = Ret json_text.
Proof.
  unfold strip_code_fence.
  destruct (Py.contains (fence +:+ "json") response_text) eqn:Hjson.
  - destruct (py_index_returns (Py.split (fence +:+ "json") response_text) 1)
      as [after ->].
    { by apply split_go_found. }
    cbn [obind].
    destruct (py_index_returns (Py.split fence after) 0) as [inside ->].
    { apply split_go_length. }
    by eexists.
  - destruct (Py.contains fence response_text) eqn:Hfence; [|by eexists].
    destruct (py_index_returns (Py.split fence response_text) 1)
      as [inside ->].
    { by apply split_go_found. }
    by eexists.
Qed.

End TextFacts.

Example split_fence :
  Py.split fence ("a" +:+ fence +:+ "json{x}" +:+ fence +:+ "b")
  = ["a"; "json{x}"; "b"].
Proof. reflexivity. Qed.

Example strip_spaces : Py.strip ("  ab c " +:+ Py.newlines 1) = "ab c".
Proof. reflexivity. Qed.

Example strip_code_fence_json :
  strip_code_fence
    (fence +:+ "json" +:+ Py.newlines 1 +:+ "{}" +:+ Py.newlines 1 +:+ fence)
  = Ret "{}".
Proof. reflexivity. Qed.

Example strip_code_fence_plain :
  strip_code_fence (fence +:+ Py.newlines 1 +:+ "{}" +:+ Py.newlines 1 +:+ fence)
  = Ret "{}".
Proof. reflexivity. Qed.

Example clean_json_text_backslash :
  clean_json_text ("{a\n" +:+ Py.newlines 1 +:+ "}") = "{a\\n }".
Proof. reflexivity. Qed.

Example collapse_five_newlines :
  collapse_blank_lines ("a" +:+ Py.newlines 5 +:+ "b" +:+ Py.newlines 2 +:+ "c")
  = "a" +:+ Py.newlines 2 +:+ "b" +:+ Py.newlines 2 +:+ "c".
Proof. reflexivity. Qed.

(** C9. The blank-line collapse of the Content Normalizer,
    [re.sub(r'\n{3,}', '\n\n', text)]: between two paragraphs [a] and [b]
    (text that does not end, respectively start, with a newline) a run of
    [k >= 3] blank lines, that is [k + 1] newlines, becomes exactly one blank
    line (two newlines); and the collapse is idempotent: applied to its own
    output it changes nothing. *)
Theorem collapse_blank_lines_spec :
  (forall (a b : string) (k : nat),
      3 <= k ->
      Py.ends_with_nl a = false ->
      Py.starts_with_nl b = false ->
      collapse_blank_lines (a +:+ Py.newlines (S k) +:+ b)
      = collapse_blank_lines a +:+ Py.newlines 2 +:+ collapse_blank_lines b)
  /\ (forall s : string,
         collapse_blank_lines (collapse_blank_lines s) = collapse_blank_lines s).
Proof.
  split.
  - intros a b k Hk Ha Hb.
    rewrite collapse_app by done. f_equal.
    unfold collapse_blank_lines.
    rewrite sub_newline_runs_newlines, sub_newline_runs_flush by done.
    by rewrite flush_run_large by lia.
  - intros s. apply collapse_sub_newline_runs.
Qed.

Lemma collapse_blank_lines_spec_witness :
  collapse_blank_lines ("Dose: one tablet." +:+ Py.newlines 5 +:+ "Storage: dry.")
  = "Dose: one tablet." +:+ Py.newlines 2 +:+ "Storage: dry."
  /\ collapse_blank_lines
       (collapse_blank_lines
          ("Dose: one tablet." +:+ Py.newlines 5 +:+ "Storage: dry."))
     = collapse_blank_lines
         ("Dose: one tablet." +:+ Py.newlines 5 +:+ "Storage: dry.").
Proof.
  split.
  - apply (proj1 collapse_blank_lines_spec
             "Dose: one tablet." "Storage: dry." 4); [lia | reflexivity..].
  - apply (proj2 collapse_blank_lines_spec).
Defined.

(* ===================================================================== *)
(** * Properties: Site Selector *)
(* ===================================================================== *)

Section SiteSelectorFacts.
Context {W : Type} `{Browser W}.

(** A handler that returns a value turns every outcome into a value. *)
Lemma try_except_returns {A} (m : M W A) (h : exn -> A) (w : W) :
  exists r w', try_except m (fun e => ret (h e)) w = (Ret r, w').
Proof.
  unfold try_except, ret. destruct (m w) as [[a|e] w']; eauto.
Qed.

Lemma first_result_for_None domain hrefs :
  first_result_for domain hrefs = None ->
  Forall (fun href => link_contains domain href = false) hrefs.
Proof.
  induction hrefs as [|href hrefs IH]; simpl; [constructor|].
  destruct (link_contains domain href) eqn:Hc; [done|].
  destruct (first_result_for domain hrefs); [done|]. auto.
Qed.

Lemma first_result_for_Some domain hrefs i :
  first_result_for domain hrefs = Some i ->
  exists href, hrefs !! i = Some href
               /\ link_contains domain href = true
               /\ forall j href', j < i -> hrefs !! j = Some href' ->
                                  link_contains domain href' = false.
Proof.
  revert i. induction hrefs as [|href hrefs IH]; intros i; simpl; [done|].
  destruct (link_contains domain href) eqn:Hc.
  - intros [= <-]. exists href. repeat split; [done|]. lia.
  - destruct (first_result_for domain hrefs) as [k|]; [|done].
    intros [= <-]. destruct (IH k eq_refl) as (h & Hl & Hm & Hbefore).
    exists h. repeat split; [done..|].
    intros [|j] href' Hj; simpl; [by intros [= <-]|].
    apply Hbefore. lia.
Qed.

Lemma try_link_no_match w domain link href :
  reads w link href -> link_contains domain href = false ->
  try_except (try_link domain link) (fun _ => ret None) w = (Ret None, w).
Proof.
  unfold reads, link_contains, try_link. intros Hr Hc.
  unfold_monad. by rewrite Hr, Hc.
Qed.

Lemma try_link_match w w3 w4 domain link href :
  reads w link href -> link_contains domain href = true ->
  click link w = (Ret tt, w3) ->
  wait_for_load_state "networkidle" w3 = (Ret tt, w4) ->
  try_except (try_link domain link) (fun _ => ret None) w
  = (Ret (Some (page_url w4)), w4).
Proof.
  unfold reads, link_contains, try_link. intros Hr Hc Hclick Hwait.
  unfold_monad. by rewrite Hr, Hc, Hclick, Hwait.
Qed.

(** Scanning the results for a domain none of them contains reads them all
    and goes on. *)
Lemma scan_links_no_match w domain links hrefs :
  Forall2 (reads w) links hrefs ->
  first_result_for domain hrefs = None ->
  scan_links domain links w = (Ret None, w).
Proof.
  intros Hall Hnone. apply first_result_for_None in Hnone.
  induction Hall as [|link href links hrefs Hr Hall IH]; [done|].
  inversion Hnone as [|? ? Hc Hrest]; subst.
  simpl. unfold bind at 1.
  rewrite (try_link_no_match _ _ _ _ Hr Hc). by apply IH.
Qed.

(** Scanning for a domain stops at the first result that contains it. *)
Lemma scan_links_match w w3 w4 domain links hrefs i link :
  Forall2 (reads w) links hrefs ->
  first_result_for domain hrefs = Some i ->
  links !! i = Some link ->
  click link w = (Ret tt, w3) ->
  wait_for_load_state "networkidle" w3 = (Ret tt, w4) ->
  scan_links domain links w = (Ret (Some (page_url w4)), w4).
Proof.
  intros Hall. revert i.
  induction Hall as [|l href links hrefs Hr Hall IH]; intros i; [done|].
  simpl. destruct (link_contains domain href) eqn:Hc.
  - intros [= <-] [= <-] Hclick Hwait. unfold bind at 1.
    by rewrite (try_link_match _ _ _ _ _ _ Hr Hc Hclick Hwait).
  - destruct (first_result_for domain hrefs) as [k|] eqn:Hk; [|done].
    intros [= <-] Hl Hclick Hwait. unfold bind at 1.
    rewrite (try_link_no_match _ _ _ _ Hr Hc). by eapply IH.
Qed.

Lemma scan_domains_no_match w domains links hrefs :
  Forall2 (reads w) links hrefs ->
  preferred_result domains hrefs = None ->
  scan_domains domains links w = (Ret None, w).
Proof.
  intros Hall. induction domains as [|domain domains IH]; [done|].
  simpl. destruct (first_result_for domain hrefs) eqn:Hf; [done|].
  intros Hnone. unfold bind at 1.
  rewrite (scan_links_no_match _ _ _ _ Hall Hf). by apply IH.
Qed.

Lemma scan_domains_match w w3 w4 domains links hrefs i link :
  Forall2 (reads w) links hrefs ->
  preferred_result domains hrefs = Some i ->
  links !! i = Some link ->
  click link w = (Ret tt, w3) ->
  wait_for_load_state "networkidle" w3 = (Ret tt, w4) ->
  scan_domains domains links w = (Ret (Some (page_url w4)), w4).
Proof.
  intros Hall. induction domains as [|domain domains IH]; [done|].
  simpl. destruct (first_result_for domain hrefs) as [k|] eqn:Hf.
  - intros [= <-] Hl Hclick Hwait. unfold bind at 1.
    by rewrite (scan_links_match _ _ _ _ _ _ _ _ Hall Hf Hl Hclick Hwait).
  - intros Hp Hl Hclick Hwait. unfold bind at 1.
    rewrite (scan_links_no_match _ _ _ _ Hall Hf). by apply IH.
Qed.

(** What the specification's order means for the selected index. *)
Lemma preferred_result_Some domains hrefs i :
  preferred_result domains hrefs = Some i ->
  exists before domain after href,
    domains = before ++ domain :: after
    /\ hrefs !! i = Some href
    /\ link_contains domain href = true
    /\ (forall j href', j < i -> hrefs !! j = Some href' ->
                        link_contains domain href' = false)
    /\ (forall d href', d ∈ before -> href' ∈ hrefs ->
                        link_contains d href' = false).
Proof.
  induction domains as [|domain domains IH]; simpl; [done|].
  destruct (first_result_for domain hrefs) as [k|] eqn:Hf.
  - intros [= <-].
    destruct (first_result_for_Some _ _ _ Hf) as (href & Hl & Hc & Hb).
    exists [], domain, domains, href. repeat split; [done..|].
    intros d href' Hd. by apply elem_of_nil in Hd.
  - intros Hp.
    destruct (IH Hp) as (before & d & after & href & -> & Hl & Hc & Hb & Hprev).
    exists (domain :: before), d, after, href. repeat split; [done..|].
    intros d' href' Hd Hin. apply elem_of_cons in Hd as [->|Hd]; [|eauto].
    apply first_result_for_None in Hf.
    by apply (proj1 (Forall_forall _ _) Hf).
Qed.

Lemma preferred_result_None domains hrefs :
  preferred_result domains hrefs = None ->
  forall d href, d ∈ domains -> href ∈ hrefs -> link_contains d href = false.
Proof.
  induction domains as [|domain domains IH]; simpl.
  - intros _ d href Hd. by apply elem_of_nil in Hd.
  - destruct (first_result_for domain hrefs) eqn:Hf; [done|].
    intros Hp d href Hd Hin. apply elem_of_cons in Hd as [->|Hd]; [|eauto].
    apply first_result_for_None in Hf.
    by apply (proj1 (Forall_forall _ _) Hf).
Qed.

Lemma all_results_read w (links : locator) (hrefs : list (option string)) a :
  (forall j href, hrefs !! j = Some href -> reads w (Nth links (a + j)) href) ->
  Forall2 (reads w) (map (Nth links) (seq a (length hrefs))) hrefs.
Proof.
  revert a. induction hrefs as [|href hrefs IH]; intros a Hr; [constructor|].
  simpl. constructor.
  - specialize (Hr 0 href eq_refl). by rewrite Nat.add_0_r in Hr.
  - apply IH. intros j href' Hj. specialize (Hr (S j) href' Hj).
    by replace (S a + j) with (a + S j) by lia.
Qed.

(** C5. The Site Selector chooses by trusted-domain priority first and
    page order second.  On a results page whose [n] results have the link
    targets [hrefs] (reading them does not change the page), the selector
    clicks the result the specification's order selects: the first result,
    in page order, whose link contains the first domain of the preference
    list that any link contains, and the first result of the page only when
    no link contains any preferred domain.  When that click and the wait for
    the network succeed, it returns the URL of the page reached. *)
Theorem select_medication_website_priority
    (w w1 w2 w3 w4 : W) (hrefs : list (option string)) (i : nat) :
  wait_for_selector "h3" w = (Ret tt, w1) ->
  count (Locator "h3") w1 = (Ret (length hrefs), w2) ->
  (forall j href, hrefs !! j = Some href ->
                  reads w2 (Nth (Locator "h3") j) href) ->
  selected_result hrefs = Some i ->
  click (Nth (Locator "h3") i) w2 = (Ret tt, w3) ->
  wait_for_load_state "networkidle" w3 = (Ret tt, w4) ->
  select_medication_website w = (Ret (Some (page_url w4)), w4)
  /\ ((exists before domain after href,
          preferred_domains = before ++ domain :: after
          /\ hrefs !! i = Some href
          /\ link_contains domain href = true
          /\ (forall j href', j < i -> hrefs !! j = Some href' ->
                              link_contains domain href' = false)
          /\ (forall d href', d ∈ before -> href' ∈ hrefs ->
                              link_contains d href' = false))
      \/ (i = 0
          /\ forall d href, d ∈ preferred_domains -> href ∈ hrefs ->
                            link_contains d href = false)).
Proof.
  intros Hwait Hcount Hreads Hsel Hclick Hload.
  assert (Hall : Forall2 (reads w2)
                   (map (Nth (Locator "h3")) (seq 0 (length hrefs))) hrefs).
  { apply all_results_read. intros j href Hj. by apply Hreads. }
  assert (Hlink : forall k, k < length hrefs ->
            map (Nth (Locator "h3")) (seq 0 (length hrefs)) !! k
            = Some (Nth (Locator "h3") k)).
  { intros k Hk. change (map ?f ?l) with (f <$> l).
    rewrite list_lookup_fmap, lookup_seq_lt by done. done. }
  unfold selected_result in Hsel.
  destruct (preferred_result preferred_domains hrefs) as [k|] eqn:Hp.
  - injection Hsel as ->.
    destruct (preferred_result_Some _ _ _ Hp)
      as (before & domain & after & href & Hd & Hl & Hc & Hb & Hprev).
    split; [|left; by exists before, domain, after, href].
    assert (Hi : i < length hrefs) by (by eapply lookup_lt_Some).
    unfold select_medication_website, all.
    unfold try_except at 1. unfold bind at 1. rewrite Hwait.
    unfold bind at 1. unfold bind at 1. rewrite Hcount.
    unfold ret at 1. unfold bind at 1.
    by rewrite (scan_domains_match _ _ _ _ _ _ _ _ Hall Hp (Hlink i Hi)
                  Hclick Hload).
  - destruct hrefs as [|href hrefs]; [done|]. injection Hsel as <-.
    split; [|right; split; [done | by apply preferred_result_None]].
    unfold select_medication_website, all.
    unfold try_except at 1. unfold bind at 1. rewrite Hwait.
    unfold bind at 1. unfold bind at 1. rewrite Hcount.
    unfold ret at 1. unfold bind at 1.
    rewrite (scan_domains_no_match _ _ _ _ Hall Hp).
    unfold click_first. unfold_monad. simpl.
    by rewrite Hclick, Hload.
Qed.

(** The outer handler of the selector returns [None]: the selector always
    returns. *)
Lemma select_medication_website_returns (w : W) :
  exists r w', select_medication_website w = (Ret r, w').
Proof. apply (try_except_returns _ (fun _ => None)). Qed.

(** A result whose examination or click fails is skipped. *)
Lemma scan_links_skips domain link rest w e w1 :
  try_link domain link w = (Raise e, w1) ->
  scan_links domain (link :: rest) w = scan_links domain rest w1.
Proof.
  intros Hfail. cbn [scan_links]. unfold bind at 1. unfold try_except.
  by rewrite Hfail.
Qed.

(** C6, as the code has it.  The Site Selector never propagates an
    exception: in every world it returns a URL or [None].  It returns [None]
    when the wait for result elements raises, when the results cannot be
    counted, when the page has no result element at all (the fallback to the
    first result then fails on the empty list), and when the click of the
    fallback or the wait after it fails.  A failure while a single result is
    examined or clicked for a preferred domain is caught as well, but only
    skips that result: the scan goes on with the remaining results. *)
Theorem select_medication_website_never_raises (w : W) :
  (exists r w',
      select_medication_website w = (Ret r, w')
      /\ (forall e w1, wait_for_selector "h3" w = (Raise e, w1) -> r = None)
      /\ (forall w1 e w2, wait_for_selector "h3" w = (Ret tt, w1) ->
                          count (Locator "h3") w1 = (Raise e, w2) -> r = None)
      /\ (forall w1 w2, wait_for_selector "h3" w = (Ret tt, w1) ->
                        count (Locator "h3") w1 = (Ret 0, w2) -> r = None)
      /\ (forall w1 n w2 w3 link e w4,
             wait_for_selector "h3" w = (Ret tt, w1) ->
             count (Locator "h3") w1 = (Ret n, w2) ->
             scan_domains preferred_domains
               (map (Nth (Locator "h3")) (seq 0 n)) w2 = (Ret None, w3) ->
             (click link ;;; wait_for_load_state "networkidle") w3
             = (Raise e, w4) ->
             map (Nth (Locator "h3")) (seq 0 n) !! 0 = Some link ->
             r = None))
  /\ (forall domain link rest w0 e w1,
         try_link domain link w0 = (Raise e, w1) ->
         scan_links domain (link :: rest) w0 = scan_links domain rest w1).
Proof.
  split; [|intros; by eapply scan_links_skips].
  destruct (select_medication_website_returns w) as (r & w' & Hrun).
  exists r, w'. split; [exact Hrun|].
  unfold select_medication_website, all in Hrun.
  split; [|split; [|split]].
  - intros e w1 Hwait. revert Hrun. unfold_monad. rewrite Hwait. congruence.
  - intros w1 e w2 Hwait Hcount. revert Hrun. unfold_monad.
    rewrite Hwait, Hcount. congruence.
  - intros w1 w2 Hwait Hcount. revert Hrun. unfold_monad.
    rewrite Hwait, Hcount. simpl. congruence.
  - intros w1 n w2 w3 link e w4 Hwait Hcount Hscan Hclick Hlink. revert Hrun.
    unfold try_except at 1. unfold bind at 1. rewrite Hwait.
    unfold bind at 1. unfold bind at 1. rewrite Hcount.
    unfold ret at 1. unfold bind at 1. rewrite Hscan.
    unfold click_first, py_index. rewrite Hlink.
    revert Hclick. unfold_monad.
    destruct (click link w3) as [[[]|e1] w5].
    + destruct (wait_for_load_state "networkidle" w5) as [[[]|e2] w6];
        congruence.
    + congruence.
Qed.

End SiteSelectorFacts.

Lemma select_medication_website_priority_witness :
  select_medication_website SimSelector.example_page
  = (Ret (Some "https://www.1mg.com/y"),
     Sim.navigate "https://www.1mg.com/y" SimSelector.example_page).
Proof.
  refine (proj1 (select_medication_website_priority
           SimSelector.example_page SimSelector.example_page
           SimSelector.example_page
           (Sim.navigate "https://www.1mg.com/y" SimSelector.example_page)
           (Sim.navigate "https://www.1mg.com/y" SimSelector.example_page)
           [Some "https://unknown.example/x"; Some "https://www.1mg.com/y"] 1
           _ _ _ _ _ _)).
  - reflexivity.
  - reflexivity.
  - intros [|[|j]] href; simpl; intros [= <-]; reflexivity.
  - reflexivity.
  - reflexivity.
  - reflexivity.
Defined.

Lemma select_medication_website_never_raises_witness :
  exists r w',
    select_medication_website SimSelector.empty_page = (Ret r, w')
    /\ r = None.
Proof.
  destruct (select_medication_website_never_raises SimSelector.empty_page)
    as [(r & w' & Hrun & Hwait & _) _].
  exists r, w'. split; [exact Hrun|].
  apply (Hwait Sim.TimeoutError SimSelector.empty_page). reflexivity.
Defined.

(** C6, as the specification states it, fails: the click on the first result
    times out, an interaction failure during selection, and the selector
    does not return [None]: it skips that result and returns the URL of the
    next preferred one. *)
Lemma select_medication_website_skips_failure :
  try_link "1mg.com" (Nth (Locator "h3") 0) SimSelector.hidden_first
  = (Raise Sim.TimeoutError, SimSelector.hidden_first)
  /\ select_medication_website SimSelector.hidden_first
     = (Ret (Some "https://www.apollopharmacy.in/medicine/ultracet"),
        Sim.navigate "https://www.apollopharmacy.in/medicine/ultracet"
          SimSelector.hidden_first)
  /\ ~ (exists w', select_medication_website SimSelector.hidden_first
                   = (Ret None, w')).
Proof.
  assert (Hrun : select_medication_website SimSelector.hidden_first
                 = (Ret (Some "https://www.apollopharmacy.in/medicine/ultracet"),
                    Sim.navigate "https://www.apollopharmacy.in/medicine/ultracet"
                      SimSelector.hidden_first))
    by (vm_compute; reflexivity).
  split; [vm_compute; reflexivity|]. split; [exact Hrun|].
  intros (w' & Hbad). rewrite Hrun in Hbad. discriminate Hbad.
Qed.

(** C5, as the specification states it, fails: the second result is on a
    preferred domain and is the one the specification's order selects, but
    the click on it times out; the selector skips it and returns the first
    result of the page, which is on no preferred domain. *)
Lemma select_medication_website_preferred_unclickable :
  selected_result [Some "https://unknown.example/x"; Some "https://www.1mg.com/y"]
  = Some 1
  /\ click (Nth (Locator "h3") 1) SimSelector.hidden_preferred
     = (Raise Sim.TimeoutError, SimSelector.hidden_preferred)
  /\ select_medication_website SimSelector.hidden_preferred
     = (Ret (Some "https://unknown.example/x"),
        Sim.navigate "https://unknown.example/x" SimSelector.hidden_preferred)
  /\ Forall (fun domain => link_contains domain (Some "https://unknown.example/x")
                           = false) preferred_domains.
Proof.
  split; [vm_compute; reflexivity|]. split; [vm_compute; reflexivity|].
  split; [vm_compute; reflexivity|].
  unfold preferred_domains. repeat constructor.
Qed.

(* ===================================================================== *)
(** * Properties: Summarization Stage *)
(* ===================================================================== *)

Section SummarizationFacts.
Context {W : Type} `{Backend W} `{Runtime}.

(** A target that returns is called once by the retry decorator. *)
Lemma on_exception_returns {A} (n : nat) (target : M W A) w a w' :
  target w = (Ret a, w') -> on_exception n target w = (Ret a, w').
Proof. intros Ht. destruct n; simpl; by rewrite Ht. Qed.

Lemma extract_medicine_info_body_returns markdown_content medicine_name w :
  exists r w',
    extract_medicine_info_body markdown_content medicine_name w = (Ret r, w').
Proof. apply try_except_returns. Qed.

(** The body catches every exception itself, so the decorator never sees
    one: the decorated function is its body. *)
Lemma extract_medicine_info_is_body markdown_content medicine_name w :
  extract_medicine_info markdown_content medicine_name w
  = extract_medicine_info_body markdown_content medicine_name w.
Proof.
  destruct (extract_medicine_info_body_returns markdown_content medicine_name w)
    as (r & w' & Hr).
  unfold extract_medicine_info. rewrite Hr. by apply on_exception_returns.
Qed.

Lemma ensure_key_lookup (m : gmap string json) (key k : string) :
  ensure_key m key !! k
  = match m !! k with
    | Some v => Some v
    | None => if decide (k = key) then Some (default_value k) else None
    end.
Proof.
  unfold ensure_key. destruct (m !! key) eqn:Hm.
  - destruct (m !! k) eqn:Hk; [done|].
    case_decide; [congruence | done].
  - rewrite lookup_insert. case_decide as Hd.
    + subst. rewrite Hm. by rewrite decide_True.
    + destruct (m !! k); [done|]. by rewrite decide_False.
Qed.

Lemma foldl_ensure_key_lookup (keys : list string) (m : gmap string json)
    (k : string) :
  foldl ensure_key m keys !! k
  = match m !! k with
    | Some v => Some v
    | None => if decide (k ∈ keys) then Some (default_value k) else None
    end.
Proof.
  revert m. induction keys as [|key keys IH]; intros m; cbn [foldl].
  - destruct (m !! k); [done|]. rewrite decide_False; [done|].
    apply not_elem_of_nil.
  - rewrite IH, ensure_key_lookup. destruct (m !! k); [done|].
    destruct (decide (k = key)) as [->|Hne].
    + rewrite decide_True; [done | apply elem_of_cons; by left].
    + destruct (decide (k ∈ keys)) as [Hin|Hnin].
      * rewrite decide_True; [done | apply elem_of_cons; by right].
      * rewrite decide_False; [done|].
        intros [?|?]%elem_of_cons; done.
Qed.

(** Every record the completion step returns has the six keys. *)
Lemma foldl_ensure_key_complete (m : gmap string json) (k : string) :
  k ∈ required_keys -> is_Some (foldl ensure_key m required_keys !! k).
Proof.
  intros Hk. rewrite foldl_ensure_key_lookup.
  destruct (m !! k); [by eexists|]. rewrite decide_True by done. by eexists.
Qed.

Lemma error_record_complete medicine_name e (k : string) :
  k ∈ required_keys -> is_Some (error_record medicine_name e !! k).
Proof.
  unfold required_keys. rewrite !elem_of_cons, elem_of_nil.
  intros [->|[->|[->|[->|[->|[->|[]]]]]]]; by eexists.
Qed.

Lemma set_missing_name_dict (d : gmap string json) medicine_name :
  exists d1,
    set_missing_name (JDict d) medicine_name = Ret d1
    /\ d1 !! "medicine_name"
       = Some (match d !! "medicine_name" with
               | Some v => if truthy v then v else JStr medicine_name
               | None => JStr medicine_name
               end)
    /\ forall k, k <> "medicine_name" -> d1 !! k = d !! k.
Proof.
  unfold set_missing_name.
  destruct (d !! "medicine_name") as [v|] eqn:Hd; [destruct (truthy v)|].
  - exists d. by rewrite Hd.
  - eexists. split; [done|]. split; [by rewrite lookup_insert_eq|].
    intros k Hk. by rewrite lookup_insert_ne.
  - eexists. split; [done|]. split; [by rewrite lookup_insert_eq|].
    intros k Hk. by rewrite lookup_insert_ne.
Qed.

(** C3. When the backend's answer parses to a JSON object [d], the record
    returned for it has all six required keys: a key of [d] keeps its
    value, a missing [key_benefits] is the empty list, any other missing
    required key is the empty string, and a missing or empty (falsy)
    [medicine_name] is the input name; keys outside the six are passed on
    unchanged.  Moreover, whatever the backend and the parser do, the
    returned record has the six keys: none is ever absent. *)
Theorem extract_medicine_info_fills_defaults
    (markdown_content medicine_name response_text json_text : string)
    (d : gmap string json) (w w' : W) :
  generate_content
    (prompt_text medicine_name (Py.take 20000 markdown_content)) w
  = (Ret response_text, w') ->
  strip_code_fence response_text = Ret json_text ->
  parse_json (clean_json_text json_text) = Ret (JDict d) ->
  (exists r,
      extract_medicine_info markdown_content medicine_name w = (Ret r, w')
      /\ r !! "medicine_name"
         = Some (match d !! "medicine_name" with
                 | Some v => if truthy v then v else JStr medicine_name
                 | None => JStr medicine_name
                 end)
      /\ r !! "key_benefits" = Some (default (JList []) (d !! "key_benefits"))
      /\ (forall key,
             key ∈ ["description"; "directions"; "safety_info"; "relevant_info"] ->
             r !! key = Some (default (JStr "") (d !! key)))
      /\ (forall key, key ∉ required_keys -> r !! key = d !! key))
  /\ (forall w0, exists r0 w1,
         extract_medicine_info markdown_content medicine_name w0 = (Ret r0, w1)
         /\ forall key, key ∈ required_keys -> is_Some (r0 !! key)).
Proof.
  intros Hgen Hfence Hparse. split.
  - destruct (set_missing_name_dict d medicine_name) as (d1 & Hset & Hname & Hother).
    exists (foldl ensure_key d1 required_keys).
    split; [|split; [|split; [|split]]].
    + rewrite extract_medicine_info_is_body.
      unfold extract_medicine_info_body, parse_response. unfold_monad.
      rewrite Hgen, Hfence. cbn [obind]. rewrite Hparse. cbn [obind].
      by rewrite Hset.
    + by rewrite foldl_ensure_key_lookup, Hname.
    + rewrite foldl_ensure_key_lookup, Hother by done.
      by destruct (d !! "key_benefits").
    + intros key Hkey. rewrite foldl_ensure_key_lookup.
      rewrite !elem_of_cons, elem_of_nil in Hkey.
      destruct Hkey as [->|[->|[->|[->|[]]]]];
        (rewrite Hother by done);
        match goal with |- context [d !! ?k] => by destruct (d !! k) end.
    + intros key Hkey. rewrite foldl_ensure_key_lookup.
      rewrite decide_False by done.
      rewrite Hother; [by destruct (d !! key)|].
      intros ->. apply Hkey. apply elem_of_cons. by left.
  - intros w0. rewrite extract_medicine_info_is_body.
    unfold extract_medicine_info_body, parse_response. unfold_monad.
    destruct (generate_content _ w0) as [[text|e] w1].
    + destruct (obind (strip_code_fence text) _) as [r0|e] eqn:Hr.
      * exists r0, w1. split; [done|].
        destruct (strip_code_fence text) as [jt|]; [|done]. cbn [obind] in Hr.
        destruct (parse_json (clean_json_text jt)) as [v|]; [|done].
        cbn [obind] in Hr.
        destruct (set_missing_name v medicine_name) as [d1|]; [|done].
        cbn [obind] in Hr. injection Hr as <-.
        apply foldl_ensure_key_complete.
      * eexists _, w1. split; [done|]. apply error_record_complete.
    + eexists _, w1. split; [done|]. apply error_record_complete.
Qed.

(** C4. When every call of the backend raises, the stage returns, rather
    than raises, the record with the input name, the error message
    embedded in [description], and defaults elsewhere.  And in every world
    the stage returns a record: no failure propagates past it. *)
Theorem extract_medicine_info_all_calls_fail
    (markdown_content medicine_name : string) (w : W) :
  (forall prompt w0, is_raise (generate_content prompt w0).1 = true) ->
  (exists e w',
      generate_content
        (prompt_text medicine_name (Py.take 20000 markdown_content)) w
      = (Raise e, w')
      /\ let r := error_record medicine_name e in
         extract_medicine_info markdown_content medicine_name w = (Ret r, w')
         /\ r !! "medicine_name" = Some (JStr medicine_name)
         /\ r !! "description"
            = Some (JStr ("Error extracting information: " +:+ exn_msg e))
         /\ r !! "key_benefits" = Some (JList [])
         /\ r !! "directions" = Some (JStr "")
         /\ r !! "safety_info" = Some (JStr "")
         /\ r !! "relevant_info" = Some (JStr ""))
  /\ (forall w0, exists r w1,
         extract_medicine_info markdown_content medicine_name w0 = (Ret r, w1)).
Proof.
  intros Hfail. split.
  - specialize (Hfail (prompt_text medicine_name (Py.take 20000 markdown_content)) w).
    destruct (generate_content _ w) as [[text|e] w'] eqn:Hgen; [done|].
    exists e, w'. split; [done|]. cbv zeta. split; [|by repeat split].
    rewrite extract_medicine_info_is_body.
    unfold extract_medicine_info_body. unfold_monad. by rewrite Hgen.
  - intros w0. rewrite extract_medicine_info_is_body.
    apply extract_medicine_info_body_returns.
Qed.

(** C1, as the code has it.  The first exception of the backend already
    ends the stage: the body's own handler turns it into the error record,
    the retry decorator sees a normal return and makes no second attempt;
    the world is the one right after the first call. *)
Theorem extract_medicine_info_no_retry
    (markdown_content medicine_name : string) (e : exn) (w w' : W) :
  generate_content
    (prompt_text medicine_name (Py.take 20000 markdown_content)) w
  = (Raise e, w') ->
  extract_medicine_info markdown_content medicine_name w
  = (Ret (error_record medicine_name e), w').
Proof.
  intros Hgen. rewrite extract_medicine_info_is_body.
  unfold extract_medicine_info_body. unfold_monad. by rewrite Hgen.
Qed.

End SummarizationFacts.

(** The backend that fails twice and then answers well: the stage returns
    after the first failure, with the two later answers never asked for. *)
Lemma extract_medicine_info_no_retry_witness :
  @extract_medicine_info _ Sim.backend SimSummary.runtime
    "Ultracet is a pain reliever." "Ultracet Tablet" SimSummary.flaky
  = (Ret (error_record "Ultracet Tablet" SimSummary.unavailable),
     SimSummary.page [Raise SimSummary.unavailable; Ret SimSummary.valid_answer]).
Proof.
  apply (@extract_medicine_info_no_retry _ Sim.backend SimSummary.runtime).
  reflexivity.
Defined.

(** The same answer on the first call is parsed and returned. *)
Example extract_medicine_info_healthy :
  @extract_medicine_info _ Sim.backend SimSummary.runtime
    "Ultracet is a pain reliever." "Ultracet Tablet" SimSummary.healthy
  = (Ret SimSummary.valid_record, SimSummary.page []).
Proof. vm_compute. reflexivity. Qed.

Lemma extract_medicine_info_fills_defaults_witness :
  exists r,
    @extract_medicine_info _ Sim.backend SimSummary.runtime
      "Ultracet is a pain reliever." "Ultracet Tablet" SimSummary.terse
    = (Ret r, SimSummary.page [])
    /\ r !! "medicine_name" = Some (JStr "Ultracet Tablet")
    /\ r !! "key_benefits" = Some (JList [])
    /\ r !! "description" = Some (JStr "Relieves moderate to severe pain").
Proof.
  destruct (@extract_medicine_info_fills_defaults _ Sim.backend SimSummary.runtime
              "Ultracet is a pain reliever." "Ultracet Tablet"
              SimSummary.partial_answer SimSummary.partial_answer
              SimSummary.partial_record SimSummary.terse (SimSummary.page []))
    as [(r & Hrun & Hname & Hben & Hrest & _) _].
  - reflexivity.
  - vm_compute. reflexivity.
  - vm_compute. reflexivity.
  - exists r. split; [exact Hrun|]. split; [exact Hname|]. split; [exact Hben|].
    apply (Hrest "description"). apply elem_of_cons. by left.
Defined.

Lemma extract_medicine_info_all_calls_fail_witness :
  exists e w',
    @extract_medicine_info _ Sim.offline SimSummary.runtime
      "Ultracet is a pain reliever." "Ultracet Tablet" SimSummary.down
    = (Ret (error_record "Ultracet Tablet" e), w').
Proof.
  destruct (@extract_medicine_info_all_calls_fail _ Sim.offline SimSummary.runtime
              "Ultracet is a pain reliever." "Ultracet Tablet" SimSummary.down)
    as [(e & w' & _ & Hrun & _) _].
  - intros prompt w0. reflexivity.
  - exists e, w'. exact Hrun.
Defined.

(* ===================================================================== *)
(** * Properties: Medicine Search Stage *)
(* ===================================================================== *)

Section SearchStageFacts.
Context {W : Type} `{Browser W}.

Lemma bind_returns {A B} (m : M W A) (k : A -> M W B) w a w' :
  m w = (Ret a, w') -> bind m k w = k a w'.
Proof. intros Hm. unfold bind. by rewrite Hm. Qed.

(** Once the corrected name is settled, the stage returns it with whatever
    the Site Selector yields. *)
Lemma search_tail (corrected_spelling : string) (w : W) :
  exists url w',
    (url <- select_medication_website ;;
     match url with
     | Some u => if String.eqb u "" then ret (corrected_spelling, None)
                 else ret (corrected_spelling, Some u)
     | None => ret (corrected_spelling, None)
     end) w = (Ret (corrected_spelling, url), w').
Proof.
  destruct (select_medication_website_returns w) as (r & w' & Hsel).
  rewrite (bind_returns _ _ _ _ _ Hsel).
  destruct r as [u|]; [destruct (String.eqb u "")|]; by eexists _, _.
Qed.

(** A suggestion that is read is kept, whether or not the click on it
    succeeds. *)
Lemma did_you_mean_read original s w w2 w3 :
  is_visible did_you_mean_link w = (Ret true, w2) ->
  inner_text suggestion_text w2 = (Ret s, w3) ->
  did_you_mean original w = (Ret s, (click suggestion_click w3).2).
Proof.
  intros Hvis Htext. unfold did_you_mean.
  rewrite (bind_returns _ _ _ _ _ Hvis). unfold_monad. rewrite Htext.
  by destruct (click suggestion_click w3) as [[[]|e] w4].
Qed.

Lemma did_you_mean_unread original e w w2 w3 :
  is_visible did_you_mean_link w = (Ret true, w2) ->
  inner_text suggestion_text w2 = (Raise e, w3) ->
  did_you_mean original w = (Ret original, w3).
Proof.
  intros Hvis Htext. unfold did_you_mean.
  rewrite (bind_returns _ _ _ _ _ Hvis). unfold_monad. by rewrite Htext.
Qed.

Lemma did_you_mean_absent original w w2 :
  is_visible did_you_mean_link w = (Ret false, w2) ->
  did_you_mean original w = (Ret original, w2).
Proof.
  intros Hvis. unfold did_you_mean. by rewrite (bind_returns _ _ _ _ _ Hvis).
Qed.

Lemma showing_results_for_absent corrected w w2 :
  count showing_results_mark w = (Ret 0, w2) ->
  showing_results_for corrected w = (Ret corrected, w2).
Proof.
  intros Hc. unfold showing_results_for. by rewrite (bind_returns _ _ _ _ _ Hc).
Qed.

Lemma showing_results_for_read corrected n c w w2 w3 :
  count showing_results_mark w = (Ret n, w2) -> 0 < n ->
  inner_text auto_correction_text w2 = (Ret c, w3) ->
  showing_results_for corrected w = (Ret c, w3).
Proof.
  intros Hc Hn Htext. unfold showing_results_for.
  rewrite (bind_returns _ _ _ _ _ Hc).
  destruct n as [|n]; [lia|]. simpl. unfold try_except. by rewrite Htext.
Qed.

(** The stage, from the settled results page on. *)
Lemma search_single_medicine_from_results query w w1 c1 w2 c2 w3 :
  submit_query query w = (Ret tt, w1) ->
  did_you_mean query w1 = (Ret c1, w2) ->
  showing_results_for c1 w2 = (Ret c2, w3) ->
  exists url w', search_single_medicine query w = (Ret (c2, url), w').
Proof.
  intros Hsubmit Hdym Hshow. unfold search_single_medicine.
  rewrite (bind_returns _ _ _ _ _ Hsubmit), (bind_returns _ _ _ _ _ Hdym),
    (bind_returns _ _ _ _ _ Hshow).
  apply search_tail.
Qed.

(** C8, as the code has it.  From the settled results page [w1] on:
    - a "Did you mean" suggestion that is shown and read is the corrected
      name when no "Showing results for" mark is found afterwards;
    - a "Showing results for" term that is found and read is the corrected
      name, also after a suggestion was read;
    - with no affordance at all, or with a suggestion that cannot be read and
      no "Showing results for" mark, the corrected name is the query. *)
Theorem search_single_medicine_corrected_name (query : string) (w w1 : W) :
  submit_query query w = (Ret tt, w1) ->
  (forall s w2 w3 w4,
      is_visible did_you_mean_link w1 = (Ret true, w2) ->
      inner_text suggestion_text w2 = (Ret s, w3) ->
      count showing_results_mark (click suggestion_click w3).2 = (Ret 0, w4) ->
      exists url w', search_single_medicine query w = (Ret (s, url), w'))
  /\ (forall c1 w2 n w3 c w4,
         did_you_mean query w1 = (Ret c1, w2) ->
         count showing_results_mark w2 = (Ret n, w3) -> 0 < n ->
         inner_text auto_correction_text w3 = (Ret c, w4) ->
         exists url w', search_single_medicine query w = (Ret (c, url), w'))
  /\ (forall w2 w3,
         is_visible did_you_mean_link w1 = (Ret false, w2) ->
         count showing_results_mark w2 = (Ret 0, w3) ->
         exists url w', search_single_medicine query w = (Ret (query, url), w'))
  /\ (forall e w2 w3 w4,
         is_visible did_you_mean_link w1 = (Ret true, w2) ->
         inner_text suggestion_text w2 = (Raise e, w3) ->
         count showing_results_mark w3 = (Ret 0, w4) ->
         exists url w', search_single_medicine query w = (Ret (query, url), w')).
Proof.
  intros Hsubmit. repeat split.
  - intros s w2 w3 w4 Hvis Htext Hcount.
    eapply search_single_medicine_from_results; [done | |].
    + by eapply did_you_mean_read.
    + by apply showing_results_for_absent.
  - intros c1 w2 n w3 c w4 Hdym Hcount Hn Htext.
    eapply search_single_medicine_from_results; [done..|].
    by eapply showing_results_for_read.
  - intros w2 w3 Hvis Hcount.
    eapply search_single_medicine_from_results; [done | |].
    + by apply did_you_mean_absent.
    + by apply showing_results_for_absent.
  - intros e w2 w3 w4 Hvis Htext Hcount.
    eapply search_single_medicine_from_results; [done | |].
    + by eapply did_you_mean_unread.
    + by apply showing_results_for_absent.
Qed.

End SearchStageFacts.

Lemma search_single_medicine_corrected_name_witness :
  exists url w',
    search_single_medicine "paracetamo" SimSearch.suggested
    = (Ret ("paracetamol", url), w').
Proof.
  refine (proj1 (search_single_medicine_corrected_name "paracetamo"
                   SimSearch.suggested SimSearch.suggested _)
            "paracetamol" SimSearch.suggested SimSearch.suggested
            SimSearch.suggested _ _ _);
    reflexivity.
Defined.

(** C8, as the specification states it, fails: the page shows the suggestion
    "paracetamol" for the query "paracetamo", yet the stage does not return
    it as the corrected name, because the "Showing results for" term it also
    finds overwrites it. *)
Lemma search_single_medicine_suggestion_overwritten :
  is_visible did_you_mean_link (submit_query "paracetamo" SimSearch.both).2
  = (Ret true, SimSearch.both)
  /\ inner_text suggestion_text SimSearch.both = (Ret "paracetamol", SimSearch.both)
  /\ search_single_medicine "paracetamo" SimSearch.both
     = (Ret ("paracetamol tablet",
             Some "https://www.1mg.com/drugs/paracetamol-500mg-tablet"),
        Sim.navigate "https://www.1mg.com/drugs/paracetamol-500mg-tablet"
          SimSearch.both)
  /\ ~ (exists url w',
           search_single_medicine "paracetamo" SimSearch.both
           = (Ret ("paracetamol", url), w')).
Proof.
  assert (Hrun : search_single_medicine "paracetamo" SimSearch.both
                 = (Ret ("paracetamol tablet",
                         Some "https://www.1mg.com/drugs/paracetamol-500mg-tablet"),
                    Sim.navigate
                      "https://www.1mg.com/drugs/paracetamol-500mg-tablet"
                      SimSearch.both))
    by (vm_compute; reflexivity).
  split; [vm_compute; reflexivity|].
  split; [vm_compute; reflexivity|].
  split; [exact Hrun|].
  intros (url & w' & Hbad). rewrite Hrun in Hbad. discriminate Hbad.
Qed.

(* ===================================================================== *)
(** * Properties: Pipeline Orchestrator *)
(* ===================================================================== *)

Section OrchestratorFacts.
Context {W : Type} `{Browser W} `{Backend W} `{Runtime}.

(** Every item leaves exactly one more record, whatever fails inside. *)
Lemma process_medicine_appends medicine_name results success_count w :
  exists info success_count' w',
    process_medicine medicine_name (results, success_count) w
    = (Ret (results ++ [info], success_count'), w').
Proof.
  unfold process_medicine. unfold_monad.
  repeat case_match; simplify_eq; by eexists _, _, _.
Qed.

Lemma process_items_appends medicine_list results success_count w :
  exists new success_count' w',
    process_items medicine_list (results, success_count) w
    = (Ret (results ++ new, success_count'), w')
    /\ length new = length medicine_list.
Proof.
  revert results success_count w.
  induction medicine_list as [|medicine_name rest IH];
    intros results success_count w.
  - exists [], success_count, w. by rewrite app_nil_r.
  - destruct (process_medicine_appends medicine_name results success_count w)
      as (info & c1 & w1 & Hone).
    destruct (IH (results ++ [info]) c1 w1) as (new & c2 & w2 & Hrest & Hlen).
    exists (info :: new), c2, w2. split; [|simpl; by rewrite Hlen].
    cbn [process_items]. unfold bind. rewrite Hone, Hrest.
    by rewrite <- app_assoc.
Qed.

Lemma format_record_dom medicine_data info medicine_data' :
  format_record medicine_data info = Ret medicine_data' ->
  exists key, entered_as info key
              /\ dom medicine_data' = dom medicine_data ∪ {[key]}.
Proof.
  unfold format_record, py_getitem, obind, entered_as. intros Hf.
  repeat case_match; simplify_eq.
  eexists. split; [by eexists|]. rewrite dom_insert_L. set_solver.
Qed.

Lemma format_results_dom results medicine_data medicine_data' :
  format_results medicine_data results = Ret medicine_data' ->
  exists keys, Forall2 entered_as results keys
               /\ dom medicine_data' = dom medicine_data ∪ list_to_set keys.
Proof.
  revert medicine_data.
  induction results as [|info results IH]; intros medicine_data; simpl.
  - intros [= <-]. exists []. split; [constructor | set_solver].
  - unfold obind at 1.
    destruct (format_record medicine_data info) as [m1|] eqn:Hone; [|done].
    intros Hrest.
    destruct (format_record_dom _ _ _ Hone) as (key & Hkey & Hdom1).
    destruct (IH _ Hrest) as (keys & Hkeys & Hdom).
    exists (key :: keys). split; [by constructor|].
    rewrite Hdom, Hdom1. set_solver.
Qed.

Lemma remove_dups_length {A} `{EqDecision A} (l : list A) :
  length (remove_dups l) <= length l.
Proof.
  induction l as [|x l IH]; simpl; [done|]. case_decide; simpl; lia.
Qed.

Lemma size_list_to_set_remove_dups (keys : list pykey) :
  size (list_to_set keys : gset pykey) = length (remove_dups keys).
Proof.
  rewrite <- (size_list_to_set (C:=gset pykey) (remove_dups keys))
    by apply NoDup_remove_dups.
  f_equal. apply set_eq. intros k.
  by rewrite !elem_of_list_to_set, elem_of_remove_dups.
Qed.

(** The [with] block when the session starts and closes without failure. *)
Lemma run_batch_returns medicine_list w w1 w2 acc w3 w4 w5 w6 :
  playwright_start w = (Ret tt, w1) ->
  open_page w1 = (Ret tt, w2) ->
  process_items medicine_list ([], 0) w2 = (Ret acc, w3) ->
  page_close w3 = (Ret tt, w4) ->
  browser_close w4 = (Ret tt, w5) ->
  playwright_stop w5 = (Ret tt, w6) ->
  run_batch medicine_list w = (Ret acc, w6).
Proof.
  intros Hstart Hopen Hitems Hpage Hbrowser Hstop.
  unfold run_batch. unfold_monad.
  by rewrite Hstart, Hopen, Hitems, Hpage, Hbrowser, Hstop.
Qed.

(** C2, as the code has it.  Once the session is started, the loop collects
    exactly one record per input name, whatever fails for any item.  When
    the session also closes and the formatting loop accepts every record, a
    non-empty batch returns the mapping; it is keyed by resolved name, so it
    has one entry per distinct resolved name: at most [N] entries, and
    exactly [N] when the resolved names are pairwise distinct. *)
Theorem process_medicine_list_entries (medicine_list : list string) (w w1 w2 : W) :
  playwright_start w = (Ret tt, w1) ->
  open_page w1 = (Ret tt, w2) ->
  exists results success_count w3,
    process_items medicine_list ([], 0) w2 = (Ret (results, success_count), w3)
    /\ length results = length medicine_list
    /\ forall w4 w5 w6 medicine_data,
         page_close w3 = (Ret tt, w4) ->
         browser_close w4 = (Ret tt, w5) ->
         playwright_stop w5 = (Ret tt, w6) ->
         format_results ∅ results = Ret medicine_data ->
         medicine_list <> [] ->
         process_medicine_list medicine_list w = (Ret medicine_data, w6)
         /\ exists keys,
              Forall2 entered_as results keys
              /\ dom medicine_data = list_to_set keys
              /\ size medicine_data = length (remove_dups keys)
              /\ size medicine_data <= length medicine_list
              /\ (NoDup keys -> size medicine_data = length medicine_list).
Proof.
  intros Hstart Hopen.
  destruct (process_items_appends medicine_list [] 0 w2)
    as (results & success_count & w3 & Hitems & Hlen).
  exists results, success_count, w3. split; [exact Hitems|]. split; [exact Hlen|].
  intros w4 w5 w6 medicine_data Hpage Hbrowser Hstop Hformat Hne. split.
  - unfold process_medicine_list.
    rewrite (bind_returns _ _ _ _ _
               (run_batch_returns _ _ _ _ _ _ _ _ _
                  Hstart Hopen Hitems Hpage Hbrowser Hstop)).
    cbn [app]. unfold_monad. rewrite Hformat.
    unfold success_rate_check. by destruct medicine_list.
  - destruct (format_results_dom _ _ _ Hformat) as (keys & Hkeys & Hdom).
    assert (Hdom' : dom medicine_data = list_to_set keys) by set_solver.
    assert (Hsize : size medicine_data = length (remove_dups keys)).
    { rewrite <- size_dom, Hdom'. apply size_list_to_set_remove_dups. }
    assert (Hklen : length keys = length medicine_list).
    { rewrite <- Hlen. symmetry. by eapply Forall2_length. }
    exists keys. split; [done|]. split; [done|]. split; [done|]. split.
    + rewrite Hsize, <- Hklen. apply remove_dups_length.
    + intros Hnodup. rewrite <- size_dom, Hdom', <- Hklen.
      by apply size_list_to_set.
Qed.

(** C10. For the empty list the function raises instead of returning a
    mapping: when the browser session starts and closes without failure, the
    exception is the [ZeroDivisionError] of the success ratio; otherwise it
    is the session's own failure. *)
Theorem process_medicine_list_empty (w : W) :
  (exists e w', process_medicine_list [] w = (Raise e, w'))
  /\ (forall w1 w2 w3 w4 w5,
         playwright_start w = (Ret tt, w1) ->
         open_page w1 = (Ret tt, w2) ->
         page_close w2 = (Ret tt, w3) ->
         browser_close w3 = (Ret tt, w4) ->
         playwright_stop w4 = (Ret tt, w5) ->
         process_medicine_list [] w = (Raise ZeroDivisionError, w5)).
Proof.
  split.
  - unfold process_medicine_list, run_batch. unfold_monad. cbn [process_items].
    unfold ret.
    repeat case_match; simplify_eq; by eexists _, _.
  - intros w1 w2 w3 w4 w5 Hstart Hopen Hpage Hbrowser Hstop.
    unfold process_medicine_list.
    rewrite (bind_returns _ _ _ ([], 0) w5).
    + reflexivity.
    + by eapply run_batch_returns.
Qed.

End OrchestratorFacts.

Lemma process_medicine_list_empty_witness :
  @process_medicine_list _ Sim.browser Sim.backend SimSummary.runtime
    [] SimBatch.session
  = (Raise ZeroDivisionError, SimBatch.session).
Proof.
  apply (proj2 (@process_medicine_list_empty _ Sim.browser Sim.backend
                  SimSummary.runtime SimBatch.session)
           SimBatch.session SimBatch.session SimBatch.session
           SimBatch.session SimBatch.session);
    reflexivity.
Defined.

(** A batch of two names for which every search fails: two placeholder
    records, two entries. *)
Lemma process_medicine_list_entries_witness :
  exists medicine_data w',
    @process_medicine_list _ Sim.browser Sim.backend SimSummary.runtime
      SimBatch.two_medicines SimBatch.barren
    = (Ret medicine_data, w')
    /\ size medicine_data = 2.
Proof.
  destruct (@process_medicine_list_entries _ Sim.browser Sim.backend
              SimSummary.runtime SimBatch.two_medicines
              SimBatch.barren SimBatch.barren SimBatch.barren
              eq_refl eq_refl)
    as (results & success_count & w3 & Hitems & Hlen & Hrest).
  assert (Hcalc :
            @process_items _ Sim.browser Sim.backend SimSummary.runtime
              SimBatch.two_medicines ([], 0) SimBatch.barren
            = (Ret ([SimBatch.not_found "ultracet"; SimBatch.not_found "dolo"], 0),
               Sim.navigate "https://www.google.com" SimBatch.barren))
    by (vm_compute; reflexivity).
  rewrite Hcalc in Hitems. injection Hitems as <- <- <-.
  destruct (Hrest _ _ _ SimBatch.two_placeholders eq_refl eq_refl eq_refl)
    as [Hrun (keys & Hkeys & _ & _ & _ & Hnodup)].
  - vm_compute. reflexivity.
  - discriminate.
  - eexists _, _. split; [exact Hrun|].
    apply Hnodup.
    apply Forall2_cons_inv_l in Hkeys as (k1 & keys1 & Hk1 & Hkeys & ->).
    apply Forall2_cons_inv_l in Hkeys as (k2 & keys2 & Hk2 & Hkeys & ->).
    apply Forall2_nil_inv_l in Hkeys as ->.
    destruct Hk1 as (v1 & Hv1 & Hh1), Hk2 as (v2 & Hv2 & Hh2).
    vm_compute in Hv1, Hv2.
    injection Hv1 as <-. injection Hv2 as <-.
    injection Hh1 as <-. injection Hh2 as <-.
    apply NoDup_cons. split; [|apply NoDup_singleton].
    intros Hin. apply elem_of_cons in Hin as [Heq|Hin]; [discriminate Heq|].
    by apply elem_of_nil in Hin.
Defined.

(** C2, as the specification states it, fails: two input names that resolve to the same
    medicine give a mapping with one entry, not two. *)
Lemma process_medicine_list_merges_names :
  @process_medicine_list _ Sim.browser Sim.backend SimSummary.runtime
    SimBatch.two_spellings SimBatch.session
  = (Ret SimBatch.merged,
     Sim.World "https://www.1mg.com/drugs/ultracet-tablet-75142"
       (Sim.hits SimBatch.session) None None (Some "Ultracet Tablet") "" [])
  /\ size SimBatch.merged = 1
  /\ size SimBatch.merged <> length SimBatch.two_spellings.
Proof.
  split; [vm_compute; reflexivity|].
  split; [vm_compute; reflexivity|].
  vm_compute. discriminate.
Qed.

(* ===================================================================== *)
(** * Properties: Content Normalizer *)
(* ===================================================================== *)

Section TreeFacts.

(** Induction on a document tree, with the hypothesis for every child. *)
Lemma node_tree_ind (P : node -> Prop) :
  (forall s, P (Text s)) ->
  (forall name id classes role children,
      Forall P children -> P (Tag name id classes role children)) ->
  forall n, P n.
Proof.
  intros Htext Htag. fix IH 1. intros [s|name id classes role children].
  - apply Htext.
  - apply Htag. induction children as [|c children IHc]; constructor.
    + apply IH.
    + apply IHc.
Qed.

Lemma subtree_tag name id classes role children :
  subtree (Tag name id classes role children)
  = Tag name id classes role children :: flat_map subtree children.
Proof. reflexivity. Qed.

Lemma decompose_noise_tag name id classes role children :
  decompose_noise (Tag name id classes role children)
  = if matches_any noise_selectors (Tag name id classes role children)
    then None
    else Some (Tag name id classes role (omap decompose_noise children)).
Proof.
  cbn [decompose_noise]. by destruct (matches_any _ _).
Qed.

(** Whether a selector matches does not depend on what the element
    contains. *)
Lemma matches_any_children sels name id classes role children children' :
  matches_any sels (Tag name id classes role children)
  = matches_any sels (Tag name id classes role children').
Proof. reflexivity. Qed.

Lemma matches_any_text sels s : matches_any sels (Text s) = false.
Proof. unfold matches_any. by induction sels. Qed.

Lemma elem_of_flat_map_subtree (x : node) (l : list node) :
  x ∈ flat_map subtree l <-> exists c, c ∈ l /\ x ∈ subtree c.
Proof.
  rewrite list_elem_of_In, in_flat_map.
  split; intros (c & Hc & Hx); exists c; by rewrite ?list_elem_of_In in *.
Qed.

(** What is left of a node after the noise is removed contains no element
    that a noise selector matches. *)
Lemma decompose_noise_clean (n n' x : node) :
  decompose_noise n = Some n' -> x ∈ subtree n' ->
  matches_any noise_selectors x = false.
Proof.
  revert n' x. induction n as [s|name id classes role children IH]
    using node_tree_ind; intros n' x.
  - intros [= <-] Hx. apply list_elem_of_singleton in Hx as ->.
    apply matches_any_text.
  - rewrite decompose_noise_tag.
    destruct (matches_any noise_selectors _) eqn:Hnoise; [done|].
    intros [= <-]. rewrite subtree_tag, elem_of_cons.
    intros [->|Hx].
    + by rewrite (matches_any_children _ _ _ _ _ _ children).
    + apply elem_of_flat_map_subtree in Hx as (c' & Hc' & Hx).
      apply list_elem_of_omap in Hc' as (c & Hc & Hdec).
      rewrite Forall_forall in IH. by eapply IH.
Qed.

Lemma remove_noise_clean (soup : list node) (x : node) :
  x ∈ subtrees (remove_noise soup) -> matches_any noise_selectors x = false.
Proof.
  unfold subtrees, remove_noise. intros Hx.
  apply elem_of_flat_map_subtree in Hx as (c' & Hc' & Hx).
  apply list_elem_of_omap in Hc' as (c & Hc & Hdec).
  by eapply decompose_noise_clean.
Qed.

(** The descendants of a descendant are descendants. *)
Lemma subtree_trans (r e x : node) :
  e ∈ subtree r -> x ∈ subtree e -> x ∈ subtree r.
Proof.
  revert e x. induction r as [s|name id classes role children IH]
    using node_tree_ind; intros e x.
  - intros He. by apply list_elem_of_singleton in He as ->.
  - rewrite subtree_tag, elem_of_cons. intros [->|He] Hx.
    + by rewrite <- subtree_tag.
    + apply elem_of_cons. right.
      apply elem_of_flat_map_subtree in He as (c & Hc & He).
      apply elem_of_flat_map_subtree. exists c. split; [done|].
      rewrite Forall_forall in IH. by eapply IH.
Qed.

Lemma select_subtrees sels soup e :
  e ∈ select sels soup -> e ∈ subtrees soup.
Proof. unfold select. by intros [_ He]%list_elem_of_filter. Qed.

(** An element the normalizer selects from the cleaned document is free of
    noise. *)
Lemma selected_clean sels soup e x :
  e ∈ select sels (remove_noise soup) -> x ∈ subtree e ->
  matches_any noise_selectors x = false.
Proof.
  intros He Hx. apply select_subtrees in He.
  apply (remove_noise_clean soup).
  unfold subtrees in *.
  apply elem_of_flat_map_subtree in He as (c & Hc & He).
  apply elem_of_flat_map_subtree. exists c. split; [done|].
  by eapply subtree_trans.
Qed.

Lemma find_first {A} (f : A -> bool) (before : list A) (x : A) (after : list A) :
  (forall y, y ∈ before -> f y = false) -> f x = true ->
  List.find f (before ++ x :: after) = Some x.
Proof.
  intros Hbefore Hx. induction before as [|y before IH]; simpl.
  - by rewrite Hx.
  - rewrite (Hbefore y) by (apply elem_of_cons; by left).
    apply IH. intros z Hz. apply Hbefore. apply elem_of_cons. by right.
Qed.

Lemma find_nothing {A} (f : A -> bool) (l : list A) :
  (forall y, y ∈ l -> f y = false) -> List.find f l = None.
Proof.
  intros Hl. induction l as [|y l IH]; simpl; [done|].
  rewrite (Hl y) by (apply elem_of_cons; by left).
  apply IH. intros z Hz. apply Hl. apply elem_of_cons. by right.
Qed.

(** The search for the main content: the selectors in order, and for the
    first selector with a substantial match its first substantial match. *)
Lemma find_main_content_first soup before sel after earlier element later :
  (forall sel' e, sel' ∈ before -> e ∈ select [sel'] soup ->
                  substantial e = false) ->
  select [sel] soup = earlier ++ element :: later ->
  (forall e, e ∈ earlier -> substantial e = false) ->
  substantial element = true ->
  find_main_content (before ++ sel :: after) soup = Some element.
Proof.
  intros Hbefore Hsel Hearlier Hsub.
  induction before as [|sel' before IH]; cbn [app find_main_content].
  - by rewrite Hsel, find_first.
  - rewrite find_nothing.
    + apply IH. intros s0 e Hs0. apply Hbefore. apply elem_of_cons. by right.
    + intros e. apply Hbefore. apply elem_of_cons. by left.
Qed.

End TreeFacts.

Section ContentNormalizerFacts.
Context `{Runtime}.

(** C7, as the code has it.  Let the parsed document, after the removal of
    every element a noise selector matches ([nav], [script], ...), contain an
    element matching a candidate selector, with more than 200 characters of
    stripped text, such that no element matching an earlier candidate
    selector is that long and no earlier match of the same selector is.
    Then this element is handed to the markdown converter; it contains no
    [nav], [script] or other noise element; and the output is the converted
    text with its blank lines collapsed, an empty line, and the line
    [Source URL: <url>]. *)
Theorem convert_html_to_markdown_main_content
    (html_content url markdown_content : string) (soup : list node)
    (before after : list selector) (sel : selector)
    (earlier later : list node) (element : node) :
  parse_html html_content = Ret soup ->
  potential_content_selectors = before ++ sel :: after ->
  (forall sel' e, sel' ∈ before -> e ∈ select [sel'] (remove_noise soup) ->
                  substantial e = false) ->
  select [sel] (remove_noise soup) = earlier ++ element :: later ->
  (forall e, e ∈ earlier -> substantial e = false) ->
  substantial element = true ->
  markdownify (Some element) = Ret markdown_content ->
  convert_html_to_markdown html_content url
  = collapse_blank_lines markdown_content
    +:+ Py.newlines 2 +:+ "Source URL: " +:+ url
  /\ (forall x, x ∈ subtree element ->
                matches_any noise_selectors x = false)
  /\ (forall x, x ∈ subtree element ->
                matches (ByTag "nav") x = false
                /\ matches (ByTag "script") x = false).
Proof.
  intros Hparse Hsels Hbefore Hsel Hearlier Hsub Hmd.
  assert (Hclean : forall x, x ∈ subtree element ->
                             matches_any noise_selectors x = false).
  { intros x Hx. apply (selected_clean [sel] soup element); [|done].
    rewrite Hsel. apply elem_of_app. right. apply elem_of_cons. by left. }
  split; [|split; [exact Hclean|]].
  - unfold convert_html_to_markdown, convert. rewrite Hparse. cbn [obind].
    rewrite Hsels.
    rewrite (find_main_content_first _ _ _ _ _ _ _ Hbefore Hsel Hearlier Hsub).
    by rewrite Hmd.
  - intros x Hx. specialize (Hclean x Hx).
    unfold matches_any, noise_selectors in Hclean. cbn [existsb] in Hclean.
    repeat (apply orb_false_elim in Hclean as [? Hclean]). by split.
Qed.

End ContentNormalizerFacts.

(** The page of the specification's example: the [div] with class
    [content] is converted, without the menu and the script. *)
Lemma convert_html_to_markdown_main_content_witness :
  @convert_html_to_markdown SimPage.runtime "product" SimPage.address
  = SimPage.repeated "B" 201
    +:+ Py.newlines 2 +:+ "Source URL: " +:+ SimPage.address.
Proof.
  refine (proj1 (@convert_html_to_markdown_main_content SimPage.runtime
                   "product" SimPage.address (SimPage.repeated "B" 201)
                   SimPage.product_page
                   [ByTag "main"; ByTag "article"; ById "content"]
                   [ByClass "main"; ByClass "main-content";
                    ByClass "product-detail"; ByClass "drug-info";
                    ByClass "medicine-info"; ByClass "product-description";
                    ByTagRole "div" "main"]
                   (ByClass "content") [] [] SimPage.leaflet
                   _ _ _ _ _ _ _)).
  - reflexivity.
  - reflexivity.
  - intros sel' e Hsel'. rewrite !elem_of_cons, elem_of_nil in Hsel'.
    destruct Hsel' as [->|[->|[->|[]]]]; vm_compute; intros He;
      by apply elem_of_nil in He.
  - vm_compute. reflexivity.
  - intros e He. by apply elem_of_nil in He.
  - vm_compute. reflexivity.
  - reflexivity.
Defined.

(** C7, as the specification states it, fails: this page has a [nav], a
    [script] and an element of class [content] with more than 200
    characters, which is still there after the noise is removed; but the
    [main] element before it is the one selected, it does not contain the
    [content] element, and the output does not include that element's
    text. *)
Lemma convert_html_to_markdown_skips_content :
  SimPage.menu ∈ subtrees SimPage.portal_page
  /\ SimPage.tracker ∈ subtrees SimPage.portal_page
  /\ SimPage.leaflet ∈ select [ByClass "content"] (remove_noise SimPage.portal_page)
  /\ ByClass "content" ∈ potential_content_selectors
  /\ 200 < String.length (get_text_strip SimPage.leaflet)
  /\ find_main_content potential_content_selectors
       (remove_noise SimPage.portal_page) = Some SimPage.article
  /\ (SimPage.leaflet ∉ subtree SimPage.article)
  /\ Py.contains (get_text SimPage.leaflet)
       (@convert_html_to_markdown SimPage.runtime "portal" SimPage.address)
     = false.
Proof.
  split; [|split; [|split; [|split; [|split; [|split; [|split]]]]]].
  - solve_elem_of.
  - solve_elem_of.
  - solve_elem_of.
  - solve_elem_of.
  - apply Nat.ltb_lt. vm_compute. reflexivity.
  - vm_compute. reflexivity.
  - unfold SimPage.article, SimPage.leaflet. rewrite subtree_tag.
    cbn [flat_map subtree app].
    rewrite !elem_of_cons, elem_of_nil. intros [Hin|[Hin|[]]]; discriminate Hin.
  - vm_compute. reflexivity.
Qed.

(* ===================================================================== *)
(** * Further properties: the blank-line collapse *)
(* ===================================================================== *)

Section CollapseFacts.

Lemma ascii_neq_nl (c : ascii) :
  Ascii.eqb c Py.nl = false -> Ascii.eqb Py.nl c = false.
Proof. intros Hc. by rewrite Ascii.eqb_sym. Qed.

(** A run of at most two newlines followed by another character starts no
    run of three. *)
Lemma contains_newlines_cons (m : nat) (c : ascii) (t : string) :
  m <= 2 -> Ascii.eqb c Py.nl = false ->
  Py.contains (Py.newlines 3) (Py.newlines m +:+ String c t)
  = Py.contains (Py.newlines 3) t.
Proof.
  intros Hm Hc. apply ascii_neq_nl in Hc.
  destruct m as [|[|[|m]]]; [| | |lia];
    cbn [Py.newlines]; rewrite ?string_app_cons, string_app_nil_l;
    cbn [Py.contains Py.startswith Py.newlines];
    rewrite ?Ascii.eqb_refl, Hc; cbn [andb orb];
    by rewrite ?andb_false_r.
Qed.

Lemma sub_newline_runs_no_triple (s : string) (run : nat) :
  Py.contains (Py.newlines 3) (Py.sub_newline_runs run s) = false.
Proof.
  revert run. induction s as [|c s IH]; intros run.
  - cbn [Py.sub_newline_runs]. by destruct run as [|[|[|run]]].
  - cbn [Py.sub_newline_runs]. destruct (Ascii.eqb c Py.nl) eqn:Hc; [apply IH|].
    assert (Hm : exists m, m <= 2 /\ Py.flush_run run = Py.newlines m).
    { destruct (decide (run <= 2)) as [Hr|Hr].
      - exists run. split; [done | by apply flush_run_small].
      - exists 2. split; [lia | apply flush_run_large; lia]. }
    destruct Hm as (m & Hm & ->).
    rewrite contains_newlines_cons by done. apply IH.
Qed.

(** [s.replace('\n', '')] *)
Lemma remove_newlines_cons (c : ascii) (t : string) :
  Py.replace (String Py.nl "") "" (String c t)
  = if Ascii.eqb c Py.nl then Py.replace (String Py.nl "") "" t
    else String c (Py.replace (String Py.nl "") "" t).
Proof.
  unfold Py.replace. cbn [Py.replace_go Py.startswith String.length].
  rewrite (Ascii.eqb_sym Py.nl c).
  destruct (Ascii.eqb c Py.nl); cbn [andb]; [|done].
  by destruct c as [[] [] [] [] [] [] [] []].
Qed.

Lemma remove_newlines_newlines (m : nat) (t : string) :
  Py.replace (String Py.nl "") "" (Py.newlines m +:+ t)
  = Py.replace (String Py.nl "") "" t.
Proof.
  induction m as [|m IH]; [done|].
  change (Py.newlines (S m) +:+ t) with (String Py.nl (Py.newlines m +:+ t)).
  by rewrite remove_newlines_cons, Ascii.eqb_refl.
Qed.

Lemma flush_run_newlines (run : nat) :
  exists m, m <= 2 /\ m <= run /\ Py.flush_run run = Py.newlines m.
Proof.
  destruct (decide (run <= 2)) as [Hr|Hr].
  - exists run. split; [done|]. split; [done | by apply flush_run_small].
  - exists 2. split; [lia|]. split; [lia | apply flush_run_large; lia].
Qed.

Lemma sub_newline_runs_keeps_text (s : string) (run : nat) :
  Py.replace (String Py.nl "") "" (Py.sub_newline_runs run s)
  = Py.replace (String Py.nl "") "" s.
Proof.
  revert run. induction s as [|c s IH]; intros run.
  - cbn [Py.sub_newline_runs].
    destruct (flush_run_newlines run) as (m & _ & _ & ->).
    rewrite <- (string_app_nil_r (Py.newlines m)).
    by rewrite remove_newlines_newlines.
  - cbn [Py.sub_newline_runs]. rewrite remove_newlines_cons.
    destruct (Ascii.eqb c Py.nl) eqn:Hc; [apply IH|].
    destruct (flush_run_newlines run) as (m & _ & _ & ->).
    by rewrite remove_newlines_newlines, remove_newlines_cons, Hc, IH.
Qed.

Lemma string_length_app (a b : string) :
  String.length (a +:+ b) = String.length a + String.length b.
Proof.
  induction a as [|c a IH]; [done|].
  rewrite string_app_cons. cbn [String.length]. by rewrite IH.
Qed.

Lemma string_length_newlines (m : nat) : String.length (Py.newlines m) = m.
Proof. induction m as [|m IH]; cbn [Py.newlines String.length]; [done | by rewrite IH]. Qed.

Lemma sub_newline_runs_length (s : string) (run : nat) :
  String.length (Py.sub_newline_runs run s) <= run + String.length s.
Proof.
  revert run. induction s as [|c s IH]; intros run.
  - cbn [Py.sub_newline_runs String.length].
    destruct (flush_run_newlines run) as (m & _ & Hm & ->).
    rewrite string_length_newlines. lia.
  - cbn [Py.sub_newline_runs String.length].
    destruct (Ascii.eqb c Py.nl).
    + specialize (IH (S run)). lia.
    + destruct (flush_run_newlines run) as (m & _ & Hm & ->).
      rewrite string_length_app, string_length_newlines.
      cbn [String.length]. specialize (IH 0). lia.
Qed.

Lemma newlines_snoc (m : nat) (t : string) :
  Py.newlines m +:+ String Py.nl t = Py.newlines (S m) +:+ t.
Proof.
  induction m as [|m IH]; [done|].
  change (Py.newlines (S m) +:+ String Py.nl t)
    with (String Py.nl (Py.newlines m +:+ String Py.nl t)).
  by rewrite IH.
Qed.

Lemma contains_newlines_prefix (t : string) :
  Py.contains (Py.newlines 3) (Py.newlines 3 +:+ t) = true.
Proof.
  cbn [Py.newlines]. rewrite !string_app_cons, string_app_nil_l.
  cbn [Py.contains Py.startswith]. by rewrite !Ascii.eqb_refl.
Qed.

Lemma sub_newline_runs_fixed (s : string) (run : nat) :
  run <= 2 ->
  Py.contains (Py.newlines 3) (Py.newlines run +:+ s) = false ->
  Py.sub_newline_runs run s = Py.newlines run +:+ s.
Proof.
  revert run. induction s as [|c s IH]; intros run Hrun Hno.
  - cbn [Py.sub_newline_runs]. by rewrite flush_run_small, string_app_nil_r.
  - cbn [Py.sub_newline_runs]. destruct (Ascii.eqb c Py.nl) eqn:Hc.
    + apply Ascii.eqb_eq in Hc as ->. rewrite newlines_snoc in Hno |- *.
      destruct (decide (run = 2)) as [->|Hne].
      * by rewrite contains_newlines_prefix in Hno.
      * apply IH; [lia | done].
    + rewrite contains_newlines_cons in Hno by done.
      rewrite flush_run_small by done.
      rewrite (IH 0); [done | lia | done].
Qed.

End CollapseFacts.

(** X1. The collapse leaves no run of three or more newlines: its output
    never contains three consecutive newline characters. *)
Theorem collapse_blank_lines_no_triple (s : string) :
  Py.contains (Py.newlines 3) (collapse_blank_lines s) = false.
Proof. apply sub_newline_runs_no_triple. Qed.

(** X2. The collapse only removes newlines: with the newlines taken out, the
    text before and after is the same, and the output is never longer than
    the input. *)
Theorem collapse_blank_lines_keeps_text (s : string) :
  Py.replace (String Py.nl "") "" (collapse_blank_lines s)
  = Py.replace (String Py.nl "") "" s
  /\ String.length (collapse_blank_lines s) <= String.length s.
Proof.
  split.
  - apply sub_newline_runs_keeps_text.
  - apply (sub_newline_runs_length s 0).
Qed.

(** X3. Text without three consecutive newlines is left as it is. *)
Theorem collapse_blank_lines_fixed (s : string) :
  Py.contains (Py.newlines 3) s = false -> collapse_blank_lines s = s.
Proof. intros Hno. by apply (sub_newline_runs_fixed s 0); [lia|]. Qed.

Lemma collapse_blank_lines_fixed_witness :
  collapse_blank_lines ("Uses" +:+ Py.newlines 2 +:+ "Pain relief" +:+ Py.newlines 1)
  = "Uses" +:+ Py.newlines 2 +:+ "Pain relief" +:+ Py.newlines 1.
Proof. apply collapse_blank_lines_fixed. reflexivity. Defined.

(** X4. The code-fence handling of the Summarization Stage never fails: the
    subscripts [[1]] and [[0]] it applies to the pieces of the answer are
    always in range; an answer without a fence is only stripped of its
    surrounding whitespace. *)
Theorem strip_code_fence_total (response_text : string) :
  (exists json_text, strip_code_fence response_text = Ret json_text)
  /\ (Py.contains fence response_text = false ->
      strip_code_fence response_text = Ret (Py.strip response_text)).
Proof.
  split; [apply strip_code_fence_returns|].
  intros Hno. unfold strip_code_fence. rewrite Hno.
  destruct (Py.contains (fence +:+ "json") response_text) eqn:Hjson; [|done].
  exfalso. revert Hjson Hno. clear.
  induction response_text as [|c t IH]; [done|].
  cbn [Py.contains]. intros Hjson Hno.
  apply orb_false_elim in Hno as [Hstart Hrest].
  apply orb_true_iff in Hjson as [Hj|Hj]; [|by apply IH].
  revert Hj Hstart. unfold fence. rewrite !string_app_cons.
  cbn [Py.startswith].
  destruct t as [|c1 [|c2 t]]; cbn [Py.startswith];
    rewrite ?andb_false_r; try done.
  destruct (Ascii.eqb _ c), (Ascii.eqb _ c1), (Ascii.eqb _ c2); by cbn.
Qed.

Lemma strip_code_fence_total_witness :
  strip_code_fence (" {} " +:+ Py.newlines 1) = Ret "{}".
Proof.
  apply (proj2 (strip_code_fence_total (" {} " +:+ Py.newlines 1))).
  reflexivity.
Defined.

(* ===================================================================== *)
(** * Further properties: Content Normalizer *)
(* ===================================================================== *)

Section NormalizerFacts.
Context `{Runtime}.

Lemma omap_decompose_noise_fixed (children : list node) :
  Forall (fun c => forall c', decompose_noise c = Some c' ->
                              decompose_noise c' = Some c') children ->
  omap decompose_noise (omap decompose_noise children)
  = omap decompose_noise children.
Proof.
  induction 1 as [|c children Hc _ IH]; [done|].
  cbn [omap list_omap]. destruct (decompose_noise c) as [c'|] eqn:Hdec; [|done].
  cbn [omap list_omap]. rewrite (Hc c' eq_refl).
  by f_equal.
Qed.

(** What is left of a node is left as it is by a second removal. *)
Lemma decompose_noise_fixed (n n' : node) :
  decompose_noise n = Some n' -> decompose_noise n' = Some n'.
Proof.
  revert n'. induction n as [s|name id classes role children IH]
    using node_tree_ind; intros n'.
  - by intros [= <-].
  - rewrite decompose_noise_tag.
    destruct (matches_any noise_selectors _) eqn:Hnoise; [done|].
    intros [= <-]. rewrite decompose_noise_tag.
    rewrite (matches_any_children _ _ _ _ _ _ children), Hnoise.
    by rewrite omap_decompose_noise_fixed.
Qed.

Lemma find_some_elem_of {A} (f : A -> bool) (l : list A) (x : A) :
  List.find f l = Some x -> x ∈ l /\ f x = true.
Proof.
  intros Hf. apply find_some in Hf as [Hin Hx].
  by rewrite list_elem_of_In.
Qed.

Lemma find_main_content_sound sels soup element :
  find_main_content sels soup = Some element ->
  exists sel, sel ∈ sels /\ element ∈ select [sel] soup
              /\ substantial element = true.
Proof.
  induction sels as [|sel sels IH]; cbn [find_main_content]; [done|].
  destruct (List.find substantial (select [sel] soup)) as [e|] eqn:Hfind.
  - intros [= <-]. apply find_some_elem_of in Hfind as [Hin Hsub].
    exists sel. split; [apply elem_of_cons; by left | done].
  - intros Hrest. destruct (IH Hrest) as (sel' & Hsel' & Hin & Hsub).
    exists sel'. split; [apply elem_of_cons; by right | done].
Qed.

Lemma find_main_content_nothing sels soup :
  (forall sel e, sel ∈ sels -> e ∈ select [sel] soup -> substantial e = false) ->
  find_main_content sels soup = None.
Proof.
  intros Hnone. induction sels as [|sel sels IH]; cbn [find_main_content]; [done|].
  rewrite find_nothing.
  - apply IH. intros s0 e Hs0. apply Hnone. apply elem_of_cons. by right.
  - intros e. apply Hnone. apply elem_of_cons. by left.
Qed.

Lemma select_matches sel soup e :
  e ∈ select [sel] soup -> matches sel e = true.
Proof.
  unfold select. intros [Hm _]%list_elem_of_filter.
  unfold matches_any in Hm. cbn [existsb] in Hm. by rewrite orb_false_r in Hm.
Qed.

(** X5. Removing the noise elements is idempotent: a second pass over the
    cleaned document changes nothing. *)
Theorem remove_noise_idempotent (soup : list node) :
  remove_noise (remove_noise soup) = remove_noise soup.
Proof.
  unfold remove_noise. apply omap_decompose_noise_fixed.
  apply Forall_forall. intros c _ c'. apply decompose_noise_fixed.
Qed.

(** X6. Whatever the search for the main content selects is an element of
    the cleaned document that matches one of the candidate selectors, has
    more than 200 characters of stripped text, and contains no element a
    noise selector matches. *)
Theorem find_main_content_selected (soup : list node) (element : node) :
  find_main_content potential_content_selectors (remove_noise soup)
  = Some element ->
  (exists sel, sel ∈ potential_content_selectors /\ matches sel element = true)
  /\ element ∈ subtrees (remove_noise soup)
  /\ 200 < String.length (get_text_strip element)
  /\ (forall x, x ∈ subtree element -> matches_any noise_selectors x = false).
Proof.
  intros Hfind.
  destruct (find_main_content_sound _ _ _ Hfind) as (sel & Hsel & Hin & Hsub).
  split; [exists sel; split; [done | by eapply select_matches]|].
  split; [by eapply select_subtrees|].
  split; [by apply Nat.ltb_lt|].
  intros x Hx. by eapply selected_clean.
Qed.

(** X7. When no element matching a candidate selector has more than 200
    characters, the body of the cleaned document is converted ([None]
    stands for a document without body), and the output is again the
    converted text, collapsed, with the source line. *)
Theorem convert_html_to_markdown_body
    (html_content url markdown_content : string) (soup : list node) :
  parse_html html_content = Ret soup ->
  (forall sel e, sel ∈ potential_content_selectors ->
                 e ∈ select [sel] (remove_noise soup) ->
                 substantial e = false) ->
  markdownify (body (remove_noise soup)) = Ret markdown_content ->
  convert_html_to_markdown html_content url
  = collapse_blank_lines markdown_content
    +:+ Py.newlines 2 +:+ "Source URL: " +:+ url.
Proof.
  intros Hparse Hnone Hmd.
  unfold convert_html_to_markdown, convert. rewrite Hparse. cbn [obind].
  rewrite (find_main_content_nothing _ _ Hnone). by rewrite Hmd.
Qed.

(** X8. A failure of the parser or of the markdown converter becomes the
    failure text.  If the HTML parser raises, the output is
    [Failed to convert content: <message>] with the message of that
    exception; if it returns a document and the converter raises on the main
    content chosen from it (the first substantial candidate of the cleaned
    document, else its body), the output is the failure text with that
    message; and if the converter returns, the output is the converted text,
    collapsed, followed by an empty line and [Source URL: <url>]. *)
Theorem convert_html_to_markdown_shape (html_content url : string) :
  (forall e,
      parse_html html_content = Raise e ->
      convert_html_to_markdown html_content url
      = "Failed to convert content: " +:+ exn_msg e)
  /\ (forall soup main_content,
         parse_html html_content = Ret soup ->
         main_content
         = match find_main_content potential_content_selectors
                   (remove_noise soup) with
           | Some element => Some element
           | None => body (remove_noise soup)
           end ->
         (forall e,
             markdownify main_content = Raise e ->
             convert_html_to_markdown html_content url
             = "Failed to convert content: " +:+ exn_msg e)
         /\ (forall markdown_content,
                markdownify main_content = Ret markdown_content ->
                convert_html_to_markdown html_content url
                = collapse_blank_lines markdown_content
                  +:+ Py.newlines 2 +:+ "Source URL: " +:+ url)).
Proof.
  unfold convert_html_to_markdown, convert. split.
  - intros e ->. done.
  - intros soup main_content -> ->. cbn [obind].
    split; [intros e Hmd | intros markdown_content Hmd]; by rewrite Hmd.
Qed.

End NormalizerFacts.

Lemma convert_html_to_markdown_shape_witness :
  @convert_html_to_markdown SimBroken.runtime "<html" "https://www.1mg.com/y"
  = "Failed to convert content: The markup you provided was rejected by the parser.".
Proof.
  apply (proj1 (@convert_html_to_markdown_shape SimBroken.runtime
                  "<html" "https://www.1mg.com/y") SimBroken.rejected).
  reflexivity.
Defined.

Lemma find_main_content_selected_witness :
  matches (ByClass "content") SimPage.leaflet = true
  /\ 200 < String.length (get_text_strip SimPage.leaflet).
Proof.
  destruct (find_main_content_selected SimPage.product_page SimPage.leaflet)
    as ((sel & Hsel & Hm) & _ & Hlen & _).
  - vm_compute. reflexivity.
  - split; [reflexivity | exact Hlen].
Defined.

Lemma convert_html_to_markdown_body_witness :
  @convert_html_to_markdown SimLeaflet.runtime "<html>...</html>" SimPage.address
  = "Take after food." +:+ Py.newlines 2 +:+ "Source URL: " +:+ SimPage.address.
Proof.
  apply (@convert_html_to_markdown_body SimLeaflet.runtime
           "<html>...</html>" SimPage.address "Take after food."
           SimLeaflet.short_page).
  - reflexivity.
  - intros sel e Hsel. unfold potential_content_selectors in Hsel.
    rewrite !elem_of_cons, elem_of_nil in Hsel.
    destruct Hsel as [->|[->|[->|[->|[->|[->|[->|[->|[->|[->|[->|[]]]]]]]]]]]];
      revert e; apply Forall_forall; vm_compute; repeat constructor.
  - reflexivity.
Defined.

(* ===================================================================== *)
(** * Further properties: Summarization Stage *)
(* ===================================================================== *)

Section AnswerFacts.
Context {W : Type} `{Backend W} `{Runtime}.

(** The stage once the backend has answered: the completed record, or the
    error record of whatever the parsing raised. *)
Lemma extract_medicine_info_answered
    (markdown_content medicine_name response_text : string) (w w' : W) :
  generate_content
    (prompt_text medicine_name (Py.take 20000 markdown_content)) w
  = (Ret response_text, w') ->
  extract_medicine_info markdown_content medicine_name w
  = (match parse_response response_text medicine_name with
     | Ret r => Ret r
     | Raise e => Ret (error_record medicine_name e)
     end, w').
Proof.
  intros Hgen. rewrite extract_medicine_info_is_body.
  unfold extract_medicine_info_body. unfold_monad. rewrite Hgen.
  by destruct (parse_response response_text medicine_name).
Qed.

Lemma take_take (n : nat) (s : string) : Py.take n (Py.take n s) = Py.take n s.
Proof.
  revert s. induction n as [|n IH]; intros [|c s]; cbn [Py.take]; [done..|].
  by rewrite IH.
Qed.

(** X9. An answer that cannot be parsed ends in the error record.  When
    the first parse raises [JSONDecodeError], the text is parsed once more
    without its non-ASCII characters and the message of that second failure
    is the one embedded; when the first parse raises anything else, no
    second parse is made and its own message is embedded. *)
Theorem extract_medicine_info_unparsable
    (markdown_content medicine_name response_text json_text : string)
    (e1 e2 : exn) (w w' : W) :
  generate_content
    (prompt_text medicine_name (Py.take 20000 markdown_content)) w
  = (Ret response_text, w') ->
  strip_code_fence response_text = Ret json_text ->
  json_loads (clean_json_text json_text) = Raise e1 ->
  (exn_class e1 = "JSONDecodeError" ->
   json_loads (Py.strip_non_ascii (clean_json_text json_text)) = Raise e2) ->
  (exn_class e1 <> "JSONDecodeError" -> e2 = e1) ->
  extract_medicine_info markdown_content medicine_name w
  = (Ret (error_record medicine_name e2), w').
Proof.
  intros Hgen Hfence Hfirst Hsecond Hother.
  rewrite (extract_medicine_info_answered _ _ _ _ _ Hgen).
  unfold parse_response, parse_json. rewrite Hfence. cbn [obind].
  rewrite Hfirst.
  destruct (String.eqb_spec (exn_class e1) "JSONDecodeError") as [Hc|Hc].
  - by rewrite (Hsecond Hc).
  - by rewrite (Hother Hc).
Qed.

(** X10. An answer that parses only after its non-ASCII characters are
    dropped is used as if it had parsed at once: the record is the parsed
    object with the name and the missing keys filled in. *)
Theorem extract_medicine_info_repaired
    (markdown_content medicine_name response_text json_text : string)
    (e1 : exn) (d : gmap string json) (w w' : W) :
  generate_content
    (prompt_text medicine_name (Py.take 20000 markdown_content)) w
  = (Ret response_text, w') ->
  strip_code_fence response_text = Ret json_text ->
  json_loads (clean_json_text json_text) = Raise e1 ->
  exn_class e1 = "JSONDecodeError" ->
  json_loads (Py.strip_non_ascii (clean_json_text json_text)) = Ret (JDict d) ->
  exists d1,
    set_missing_name (JDict d) medicine_name = Ret d1
    /\ extract_medicine_info markdown_content medicine_name w
       = (Ret (foldl ensure_key d1 required_keys), w')
    /\ forall key, key ∈ required_keys ->
                   is_Some (foldl ensure_key d1 required_keys !! key).
Proof.
  intros Hgen Hfence Hfirst Hclass Hsecond.
  destruct (set_missing_name_dict d medicine_name) as (d1 & Hset & _).
  exists d1. split; [done|]. split; [|intros key; apply foldl_ensure_key_complete].
  rewrite (extract_medicine_info_answered _ _ _ _ _ Hgen).
  unfold parse_response, parse_json. rewrite Hfence. cbn [obind].
  rewrite Hfirst, Hclass, String.eqb_refl, Hsecond.
  cbn [obind]. by rewrite Hset.
Qed.

(** X11. An answer that is valid JSON but not an object (an array, a text,
    a number, [null]) is a failure too: the membership test or the subscript
    on it raises [TypeError], and the stage returns the error record. *)
Theorem extract_medicine_info_not_an_object
    (markdown_content medicine_name response_text json_text : string)
    (v : json) (w w' : W) :
  generate_content
    (prompt_text medicine_name (Py.take 20000 markdown_content)) w
  = (Ret response_text, w') ->
  strip_code_fence response_text = Ret json_text ->
  parse_json (clean_json_text json_text) = Ret v ->
  (forall d, v <> JDict d) ->
  exists e,
    exn_class e = "TypeError"
    /\ extract_medicine_info markdown_content medicine_name w
       = (Ret (error_record medicine_name e), w').
Proof.
  intros Hgen Hfence Hparse Hv.
  rewrite (extract_medicine_info_answered _ _ _ _ _ Hgen).
  unfold parse_response. rewrite Hfence. cbn [obind]. rewrite Hparse.
  cbn [obind].
  destruct v as [|b|z|f|s|l|d]; cbn [set_missing_name];
    try (by eexists; split; [|reflexivity]).
  - destruct (Py.contains "medicine_name" s);
      by eexists; split; [|reflexivity].
  - by destruct (Hv d).
Qed.

(** X12. Only the first 20000 characters of the content reach the backend:
    what follows them never influences the result. *)
Theorem extract_medicine_info_truncates
    (markdown_content medicine_name : string) (w : W) :
  extract_medicine_info markdown_content medicine_name w
  = extract_medicine_info (Py.take 20000 markdown_content) medicine_name w.
Proof.
  rewrite !extract_medicine_info_is_body.
  unfold extract_medicine_info_body. by rewrite take_take.
Qed.

End AnswerFacts.

Lemma extract_medicine_info_unparsable_witness :
  @extract_medicine_info _ Sim.backend SimSummary.runtime
    "Ultracet is a pain reliever." "Ultracet Tablet" SimAnswers.prose
  = (Ret (error_record "Ultracet Tablet" Sim.JSONDecodeError),
     SimSummary.page []).
Proof.
  apply (@extract_medicine_info_unparsable _ Sim.backend SimSummary.runtime
           "Ultracet is a pain reliever." "Ultracet Tablet"
           "I could not find this medicine." "I could not find this medicine."
           Sim.JSONDecodeError Sim.JSONDecodeError).
  - reflexivity.
  - vm_compute. reflexivity.
  - vm_compute. reflexivity.
  - intros _. vm_compute. reflexivity.
  - intros Hc. by destruct Hc.
Defined.

Lemma extract_medicine_info_repaired_witness :
  exists r,
    @extract_medicine_info _ Sim.backend SimSummary.runtime
      "Ultracet is a pain reliever." "Ultracet Tablet" SimAnswers.polluted
    = (Ret r, SimSummary.page [])
    /\ is_Some (r !! "description").
Proof.
  destruct (@extract_medicine_info_repaired _ Sim.backend SimSummary.runtime
              "Ultracet is a pain reliever." "Ultracet Tablet"
              SimAnswers.polluted_answer SimAnswers.polluted_answer
              Sim.JSONDecodeError SimSummary.valid_record
              SimAnswers.polluted (SimSummary.page []))
    as (d1 & _ & Hrun & Hkeys).
  - reflexivity.
  - vm_compute. reflexivity.
  - vm_compute. reflexivity.
  - reflexivity.
  - vm_compute. reflexivity.
  - exists (foldl ensure_key d1 required_keys). split; [exact Hrun|].
    apply Hkeys. apply elem_of_cons. right. apply elem_of_cons. by left.
Defined.

Lemma extract_medicine_info_not_an_object_witness :
  exists e,
    exn_class e = "TypeError"
    /\ @extract_medicine_info _ Sim.backend SimAnswers.array_runtime
         "Ultracet is a pain reliever." "Ultracet Tablet" SimAnswers.array
       = (Ret (error_record "Ultracet Tablet" e), SimSummary.page []).
Proof.
  apply (@extract_medicine_info_not_an_object _ Sim.backend
           SimAnswers.array_runtime
           "Ultracet is a pain reliever." "Ultracet Tablet" "[]" "[]"
           (JList [])).
  - reflexivity.
  - reflexivity.
  - reflexivity.
  - intros d. discriminate.
Defined.

(* ===================================================================== *)
(** * Further properties: Medicine Search Stage and Name Extractor *)
(* ===================================================================== *)

Section SearchFacts.
Context {W : Type} `{Browser W}.

Lemma did_you_mean_raises original e w w' :
  did_you_mean original w = (Raise e, w')
  <-> is_visible did_you_mean_link w = (Raise e, w').
Proof.
  unfold did_you_mean. unfold_monad.
  destruct (is_visible did_you_mean_link w) as [[[]|e0] w1];
    [| |split; intros Heq; by simplify_eq].
  - destruct (inner_text suggestion_text w1) as [[s|e1] w2]; [|by split].
    by destruct (click suggestion_click w2) as [[[]|e2] w3]; split.
  - by split.
Qed.

Lemma showing_results_for_raises corrected e w w' :
  showing_results_for corrected w = (Raise e, w')
  <-> count showing_results_mark w = (Raise e, w').
Proof.
  unfold showing_results_for. unfold_monad.
  destruct (count showing_results_mark w) as [[n|e0] w1];
    [|split; intros Heq; by simplify_eq].
  destruct (0 <? n); [|by split].
  by destruct (inner_text auto_correction_text w1) as [[c|e1] w2]; split.
Qed.

(** The URL the stage hands on is never the empty text. *)
Lemma search_single_medicine_url query w corrected u w' :
  search_single_medicine query w = (Ret (corrected, Some u), w') -> u <> "".
Proof.
  unfold search_single_medicine. unfold_monad. intros Hrun.
  repeat case_match; simplify_eq. by apply String.eqb_neq.
Qed.

(** X13. The Search Stage returns "no URL" rather than an empty URL: a URL
    it returns is never the empty text. *)
Theorem search_single_medicine_url_nonempty
    (query corrected u : string) (w w' : W) :
  search_single_medicine query w = (Ret (corrected, Some u), w') -> u <> "".
Proof. apply search_single_medicine_url. Qed.

(** X14. The failures that escape the Search Stage are exactly those of the
    query submission (navigation, cookie dialog, typing, waiting) and of the
    two presence checks for a spelling correction; a failure while a
    suggestion is read or clicked, or anywhere in the Site Selector, never
    escapes. *)
Theorem search_single_medicine_raises (query : string) (e : exn) (w w' : W) :
  search_single_medicine query w = (Raise e, w')
  <-> submit_query query w = (Raise e, w')
      \/ (exists w1,
             submit_query query w = (Ret tt, w1)
             /\ is_visible did_you_mean_link w1 = (Raise e, w'))
      \/ (exists w1 c1 w2,
             submit_query query w = (Ret tt, w1)
             /\ did_you_mean query w1 = (Ret c1, w2)
             /\ count showing_results_mark w2 = (Raise e, w')).
Proof.
  unfold search_single_medicine.
  destruct (submit_query query w) as [[[]|e0] w1] eqn:Hsubmit.
  - rewrite (bind_returns _ _ _ _ _ Hsubmit).
    destruct (did_you_mean query w1) as [[c1|e1] w2] eqn:Hdym.
    + rewrite (bind_returns _ _ _ _ _ Hdym).
      destruct (showing_results_for c1 w2) as [[c2|e2] w3] eqn:Hshow.
      * rewrite (bind_returns _ _ _ _ _ Hshow).
        destruct (search_tail c2 w3) as (url & w4 & ->).
        split; [done|]. intros [?|[(w1' & ? & Hvis)|(w1' & c1' & w2' & ? & ? & Hcount)]];
          simplify_eq.
        -- apply (proj2 (did_you_mean_raises query _ _ _)) in Hvis. congruence.
        -- apply (proj2 (showing_results_for_raises c1' _ _ _)) in Hcount. congruence.
      * unfold bind at 1. rewrite Hshow.
        split.
        -- intros [= <- <-]. right. right. exists w1, c1, w2.
           split; [done|]. split; [done|].
           by apply (showing_results_for_raises c1).
        -- intros [?|[(w1' & ? & Hvis)|(w1' & c1' & w2' & ? & ? & Hcount)]];
             simplify_eq.
           ++ apply (proj2 (did_you_mean_raises query _ _ _)) in Hvis. congruence.
           ++ apply (proj2 (showing_results_for_raises c1' _ _ _)) in Hcount. congruence.
    + unfold bind at 1. rewrite Hdym. split.
      * intros [= <- <-]. right. left. exists w1. split; [done|].
        by apply (did_you_mean_raises query).
      * intros [?|[(w1' & ? & Hvis)|(w1' & c1' & w2' & ? & ? & Hcount)]];
          simplify_eq.
        -- apply (proj2 (did_you_mean_raises query _ _ _)) in Hvis. congruence.
        -- congruence.
  - unfold bind at 1. rewrite Hsubmit. split.
    + intros [= <- <-]. by left.
    + intros [?|[(w1' & ? & _)|(w1' & c1' & w2' & ? & _)]]; congruence.
Qed.

End SearchFacts.

Lemma search_single_medicine_url_nonempty_witness :
  "https://www.1mg.com/drugs/paracetamol-500mg-tablet" <> "".
Proof.
  apply (search_single_medicine_url_nonempty "paracetamo" "paracetamol"
           "https://www.1mg.com/drugs/paracetamol-500mg-tablet"
           SimSearch.suggested
           (Sim.navigate "https://www.1mg.com/drugs/paracetamol-500mg-tablet"
              SimSearch.suggested)).
  vm_compute. reflexivity.
Defined.

Section NameFacts.
Context {W : Type} `{Browser W} `{Runtime}.

(** X15. The Name Extractor never propagates an exception: in every world
    it returns a name or [None]; a failure of the site-specific probe gives
    [None].  When no site-specific rule returns a name and the page has a
    visible [h1], the name is the stripped text of that heading. *)
Theorem extract_medicine_name_from_url_returns (url : string) (w : W) :
  (exists r w', extract_medicine_name_from_url url w = (Ret r, w'))
  /\ (forall e w1,
         site_specific_name url w = (Raise e, w1) ->
         extract_medicine_name_from_url url w = (Ret None, w1))
  /\ (forall w1 w2 text w3,
         site_specific_name url w = (Ret None, w1) ->
         is_visible (First (Locator "h1")) w1 = (Ret true, w2) ->
         inner_text (First (Locator "h1")) w2 = (Ret text, w3) ->
         extract_medicine_name_from_url url w = (Ret (Some (Py.strip text)), w3)).
Proof.
  split; [apply (try_except_returns _ (fun _ => None))|]. split.
  - intros e w1 Hsite. unfold extract_medicine_name_from_url. unfold_monad.
    by rewrite Hsite.
  - intros w1 w2 text w3 Hsite Hvis Htext.
    unfold extract_medicine_name_from_url, visible_title. unfold_monad.
    by rewrite Hsite, Hvis, Htext.
Qed.

End NameFacts.

Lemma extract_medicine_name_from_url_returns_witness :
  @extract_medicine_name_from_url _ Sim.browser SimSummary.runtime
    "https://www.drugs.com/ultracet.html" SimProduct.page
  = (Ret (Some "Ultracet"), SimProduct.page).
Proof.
  apply (proj2 (proj2 (@extract_medicine_name_from_url_returns
                         _ Sim.browser SimSummary.runtime
                         "https://www.drugs.com/ultracet.html" SimProduct.page))
           SimProduct.page SimProduct.page "  Ultracet  " SimProduct.page);
    vm_compute; reflexivity.
Defined.

(* ===================================================================== *)
(** * Further properties: Pipeline Orchestrator *)
(* ===================================================================== *)

Section LoopFacts.
Context {W : Type} `{Browser W} `{Backend W} `{Runtime}.

Lemma extract_medicine_info_complete markdown_content medicine_name w r w' :
  extract_medicine_info markdown_content medicine_name w = (Ret r, w') ->
  forall key, key ∈ required_keys -> is_Some (r !! key).
Proof.
  rewrite extract_medicine_info_is_body.
  unfold extract_medicine_info_body, parse_response. unfold_monad.
  destruct (generate_content _ w) as [[text|e] w1].
  - destruct (strip_code_fence text) as [jt|e]; cbn [obind].
    + destruct (parse_json (clean_json_text jt)) as [v|e]; cbn [obind].
      * destruct (set_missing_name v medicine_name) as [d1|e]; cbn [obind].
        -- intros [= <- <-]. apply foldl_ensure_key_complete.
        -- intros [= <- <-]. apply error_record_complete.
      * intros [= <- <-]. apply error_record_complete.
    + intros [= <- <-]. apply error_record_complete.
  - intros [= <- <-]. apply error_record_complete.
Qed.

Lemma succeeded_placeholder medicine_name description :
  succeeded (placeholder medicine_name description) = false.
Proof.
  unfold succeeded.
  by destruct (meaningful (placeholder medicine_name description)) as [[|]|].
Qed.

Lemma placeholder_keys medicine_name description key :
  key ∈ required_keys ++ ["url"] ->
  is_Some (placeholder medicine_name description !! key).
Proof.
  unfold required_keys. cbn [app]. rewrite !elem_of_cons, elem_of_nil.
  intros [->|[->|[->|[->|[->|[->|[->|[]]]]]]]]; by eexists.
Qed.

Lemma item_record_keys medicine_name info key :
  item_record medicine_name info ->
  key ∈ required_keys ++ ["url"] -> is_Some (info !! key).
Proof.
  intros [|e|url rec Hurl Hkeys] Hkey; [by apply placeholder_keys..|].
  destruct (decide (key = "url")) as [->|Hne].
  - rewrite lookup_insert_eq. by eexists.
  - rewrite lookup_insert_ne by done. apply Hkeys.
    apply elem_of_app in Hkey as [Hkey|Hkey]; [done|].
    by apply list_elem_of_singleton in Hkey.
Qed.

(** One round of the loop: one more record, of one of the three kinds, and
    the count goes up exactly when that record is a success. *)
Lemma process_medicine_shape medicine_name results success_count w :
  exists info w',
    process_medicine medicine_name (results, success_count) w
    = (Ret (results ++ [info],
            success_count + (if succeeded info then 1 else 0)), w')
    /\ item_record medicine_name info.
Proof.
  unfold process_medicine. unfold_monad.
  destruct (search_single_medicine _ w) as [[[c1 [u|]]|e] w1] eqn:Hs.
  - pose proof (search_single_medicine_url _ _ _ _ _ Hs) as Hu.
    destruct (extract_medicine_name_from_url u w1) as [[actual|e] w2].
    + destruct (content w2) as [[html|e] w3].
      * match goal with
        | |- context [extract_medicine_info ?m ?n w3] =>
            destruct (extract_medicine_info m n w3) as [[info|e] w4] eqn:He
        end.
        -- destruct (meaningful (<["url" := JStr u]> info)) as [ok|e] eqn:Hm.
           ++ eexists _, _. split; [|by eapply item_summarized,
                                         extract_medicine_info_complete].
              unfold succeeded. rewrite Hm, lookup_insert_eq.
              apply String.eqb_neq in Hu. rewrite Hu.
              destruct ok; cbn [negb]; by rewrite ?Nat.add_1_r, ?Nat.add_0_r.
           ++ eexists _, _. split; [|apply (item_failed _ e)].
              by rewrite succeeded_placeholder, Nat.add_0_r.
        -- eexists _, _. split; [|apply (item_failed _ e)].
           by rewrite succeeded_placeholder, Nat.add_0_r.
      * eexists _, _. split; [|apply (item_failed _ e)].
        by rewrite succeeded_placeholder, Nat.add_0_r.
    + eexists _, _. split; [|apply (item_failed _ e)].
      by rewrite succeeded_placeholder, Nat.add_0_r.
  - eexists _, _. split; [|apply item_not_found].
    by rewrite succeeded_placeholder, Nat.add_0_r.
  - eexists _, _. split; [|apply (item_failed _ e)].
    by rewrite succeeded_placeholder, Nat.add_0_r.
Qed.

Lemma process_items_shape medicine_list results success_count w :
  exists new w',
    process_items medicine_list (results, success_count) w
    = (Ret (results ++ new,
            success_count + length (filter (fun r => succeeded r = true) new)),
       w')
    /\ Forall2 item_record medicine_list new.
Proof.
  revert results success_count w.
  induction medicine_list as [|medicine_name rest IH];
    intros results success_count w.
  - exists [], w. split; [|constructor].
    cbn [process_items]. unfold ret. by rewrite app_nil_r, Nat.add_0_r.
  - destruct (process_medicine_shape medicine_name results success_count w)
      as (info & w1 & Hone & Hinfo).
    destruct (IH (results ++ [info])
                 (success_count + (if succeeded info then 1 else 0)) w1)
      as (new & w2 & Hrest & Hnew).
    exists (info :: new), w2. split; [|by constructor].
    cbn [process_items]. unfold bind. rewrite Hone, Hrest.
    rewrite <- app_assoc. cbn [app]. do 3 f_equal.
    rewrite filter_cons. destruct (succeeded info); cbn [length].
    + rewrite decide_True by done. cbn [length]. lia.
    + rewrite decide_False by done. lia.
Qed.

Lemma items_outcome_length medicine_list w new w' :
  items_outcome medicine_list w new w' -> length new = length medicine_list.
Proof. induction 1; cbn [length]; congruence. Qed.

(** One round of the loop never raises and appends exactly the record of
    its outcome. *)
Lemma process_medicine_outcome medicine_name results success_count w :
  exists info success_count' w',
    process_medicine medicine_name (results, success_count) w
    = (Ret (results ++ [info], success_count'), w')
    /\ item_outcome medicine_name w info w'.
Proof.
  unfold process_medicine. unfold_monad.
  destruct (search_single_medicine _ w) as [[[c1 [u|]]|e] w1] eqn:Hs.
  - assert (exists r w', extract_medicine_name_from_url u w1 = (Ret r, w'))
      as (actual & w2 & Hn) by apply (try_except_returns _ (fun _ => None)).
    rewrite Hn.
    destruct (content w2) as [[html|e] w3] eqn:Hc.
    + destruct (extract_medicine_info_body_returns
                  (convert_html_to_markdown html u) (name_used c1 actual) w3)
        as (info & w4 & He).
      rewrite <- extract_medicine_info_is_body in He.
      change (match actual with
              | Some name => if String.eqb name "" then c1 else name
              | None => c1
              end) with (name_used c1 actual).
      rewrite He.
      destruct (meaningful (<["url" := JStr u]> info)) as [ok|e] eqn:Hm.
      * eexists _, _, _. split; [done|]. by eapply outcome_summarized.
      * eexists _, _, _. split; [done|]. by eapply outcome_check_failed.
    + eexists _, _, _. split; [done|]. by eapply outcome_content_failed.
  - eexists _, _, _. split; [done|]. by eapply outcome_not_found.
  - eexists _, _, _. split; [done|]. by eapply outcome_search_failed.
Qed.

Lemma process_items_outcome medicine_list results success_count w :
  exists new success_count' w',
    process_items medicine_list (results, success_count) w
    = (Ret (results ++ new, success_count'), w')
    /\ items_outcome medicine_list w new w'.
Proof.
  revert results success_count w.
  induction medicine_list as [|medicine_name rest IH];
    intros results success_count w.
  - exists [], success_count, w. split; [|constructor].
    cbn [process_items]. unfold ret. by rewrite app_nil_r.
  - destruct (process_medicine_outcome medicine_name results success_count w)
      as (info & c1 & w1 & Hone & Hinfo).
    destruct (IH (results ++ [info]) c1 w1) as (new & c2 & w2 & Hrest & Hnew).
    exists (info :: new), c2, w2. split; [|by econstructor].
    cbn [process_items]. unfold bind. rewrite Hone, Hrest.
    by rewrite <- app_assoc.
Qed.

(** X16. The loop never raises and leaves one record per input name, in
    input order, each the outcome of its round run in the world the round
    before left: the placeholder [Error: <message>] when the search raises
    or the page content cannot be read, the "not found" placeholder when the
    search finds no URL, and otherwise the record that
    [extract_medicine_info] returned for the normalized content of the page
    and the name in use, with the URL attached; only if the check of its
    description raises is that record replaced by the placeholder with the
    message of that failure. *)
Theorem process_items_records (medicine_list : list string) (w : W) :
  exists results success_count w',
    process_items medicine_list ([], 0) w = (Ret (results, success_count), w')
    /\ length results = length medicine_list
    /\ items_outcome medicine_list w results w'.
Proof.
  destruct (process_items_outcome medicine_list [] 0 w)
    as (new & c & w' & Hrun & Hnew).
  exists new, c, w'. split; [exact Hrun|].
  split; [by eapply items_outcome_length | done].
Qed.

(** X17. Every record the loop collects has the six content keys and the
    [url] key, whatever failed for its item: the formatting loop never meets
    a missing key. *)
Theorem process_items_keys (medicine_list : list string) (w : W) :
  exists results success_count w',
    process_items medicine_list ([], 0) w = (Ret (results, success_count), w')
    /\ forall info key,
         info ∈ results -> key ∈ required_keys ++ ["url"] ->
         is_Some (info !! key).
Proof.
  destruct (process_items_shape medicine_list [] 0 w) as (new & w' & Hrun & Hnew).
  eexists new, _, w'. split; [exact Hrun|].
  intros info key Hin Hkey.
  apply list_elem_of_lookup in Hin as [i Hi].
  destruct (Forall2_lookup_r _ _ _ _ _ Hnew Hi) as (name & _ & Hrec).
  by eapply item_record_keys.
Qed.

(** X18. The success count is the number of collected records that carry a
    URL and whose description is a non-empty text not starting with "Error";
    it never exceeds the number of input names.  (A "not found" placeholder
    has such a description but no URL, and is not counted.) *)
Theorem process_items_success_count (medicine_list : list string) (w : W) :
  exists results success_count w',
    process_items medicine_list ([], 0) w = (Ret (results, success_count), w')
    /\ success_count = length (filter (fun r => succeeded r = true) results)
    /\ success_count <= length medicine_list.
Proof.
  destruct (process_items_shape medicine_list [] 0 w) as (new & w' & Hrun & Hnew).
  eexists new, _, w'. split; [exact Hrun|]. split; [done|].
  rewrite (Forall2_length _ _ _ Hnew). cbn [Nat.add]. apply length_filter.
Qed.

(** X19. An item whose search raises, or finds no URL, costs nothing more:
    the loop appends the placeholder with the input name and goes on with
    the next name in the world the search left, without reading the page or
    asking the backend, and without counting a success. *)
Theorem process_items_skips_failed_item
    (medicine_name : string) (rest : list string)
    (results : list (gmap string json)) (success_count : nat) (w w1 : W) :
  (forall e,
      search_single_medicine (medicine_name +:+ " medicine links") w
      = (Raise e, w1) ->
      process_items (medicine_name :: rest) (results, success_count) w
      = process_items rest
          (results ++ [placeholder medicine_name ("Error: " +:+ exn_msg e)],
           success_count) w1)
  /\ (forall corrected,
         search_single_medicine (medicine_name +:+ " medicine links") w
         = (Ret (corrected, None), w1) ->
         process_items (medicine_name :: rest) (results, success_count) w
         = process_items rest
             (results ++
                [placeholder medicine_name
                   "Failed to find a reliable URL for this medicine"],
              success_count) w1).
Proof.
  split; intros x Hsearch; cbn [process_items]; unfold process_medicine;
    unfold_monad; by rewrite Hsearch.
Qed.

End LoopFacts.

Lemma process_items_skips_failed_item_witness :
  @process_items _ (SimFaulty.browser true false) Sim.backend SimSummary.runtime
    ["ultracet"] ([], 0) SimBatch.barren
  = (Ret ([placeholder "ultracet" "Error: net::ERR_INTERNET_DISCONNECTED"], 0),
     SimBatch.barren).
Proof.
  apply (proj1 (@process_items_skips_failed_item
                  _ (SimFaulty.browser true false) Sim.backend SimSummary.runtime
                  "ultracet" [] [] 0 SimBatch.barren SimBatch.barren)
           SimFaulty.unreachable).
  reflexivity.
Defined.

Section FormatFacts.
Context {W : Type} `{Browser W} `{Backend W} `{Runtime}.

Lemma entered_as_unique info k k' :
  entered_as info k -> entered_as info k' -> k = k'.
Proof. intros (v & Hv & Hk) (v' & Hv' & Hk'). congruence. Qed.

Lemma format_record_inserts medicine_data info medicine_data' :
  format_record medicine_data info = Ret medicine_data' ->
  exists k en, entered_as info k /\ entry_for info en
               /\ medicine_data' = <[k := en]> medicine_data.
Proof.
  unfold format_record, entered_as, entry_for, py_getitem, obind. intros Hf.
  repeat case_match; simplify_eq.
  eexists _, (Entry _ _ _ _ _ _). cbn.
  split; [by eexists|]. split; [|done].
  repeat split; try done. by eexists.
Qed.

Lemma format_results_app medicine_data pre post :
  format_results medicine_data (pre ++ post)
  = obind (format_results medicine_data pre)
          (fun medicine_data' => format_results medicine_data' post).
Proof.
  revert medicine_data. induction pre as [|info pre IH]; intros medicine_data.
  - done.
  - cbn [app format_results].
    destruct (format_record medicine_data info); cbn [obind]; [apply IH | done].
Qed.

(** Records entered under other names leave an entry alone. *)
Lemma format_results_preserves post medicine_data medicine_data' k :
  format_results medicine_data post = Ret medicine_data' ->
  (forall info', info' ∈ post -> ~ entered_as info' k) ->
  medicine_data' !! k = medicine_data !! k.
Proof.
  revert medicine_data. induction post as [|info post IH]; intros medicine_data.
  - by intros [= <-].
  - cbn [format_results]. unfold obind at 1.
    destruct (format_record medicine_data info) as [m1|] eqn:Hone; [|done].
    intros Hrest Hother.
    destruct (format_record_inserts _ _ _ Hone) as (k1 & en & Hk1 & _ & ->).
    rewrite (IH _ Hrest).
    + apply lookup_insert_ne. intros ->.
      apply (Hother info); [apply elem_of_cons; by left | done].
    + intros info' Hin. apply Hother. apply elem_of_cons. by right.
Qed.

Lemma str_items_raises (l : list json) (i : nat) (item : json) :
  item ∈ l -> (forall s, item <> JStr s) -> is_raise (str_items i l) = true.
Proof.
  intros Hin Hitem. revert i. induction l as [|x l IH]; intros i.
  - by apply elem_of_nil in Hin.
  - apply elem_of_cons in Hin as [<-|Hin].
    + destruct item; try done. by destruct (Hitem s).
    + destruct x; try done. cbn [str_items].
      specialize (IH Hin (S i)). by destruct (str_items (S i) l).
Qed.

Lemma str_items_error (l : list json) (i : nat) (e : exn) :
  str_items i l = Raise e -> exn_class e = "TypeError".
Proof.
  revert i. induction l as [|x l IH]; intros i; [done|].
  destruct x; cbn [str_items]; try by intros [= <-].
  destruct (str_items (S i) l) eqn:Hrest; [done|].
  cbn [obind]. intros [= <-]. by eapply IH.
Qed.

Lemma format_record_unformattable medicine_data info :
  unformattable info -> is_raise (format_record medicine_data info) = true.
Proof.
  unfold format_record, py_getitem.
  intros [(l & item & Hb & Hin & Hitem)|(v & Hv & Hhash)].
  - rewrite Hb. destruct (info !! "medicine_name"); [|done]. cbn [obind].
    unfold benefits_text.
    pose proof (str_items_raises l 0 item Hin Hitem) as Hraise.
    by destruct (str_items 0 l).
  - rewrite Hv. cbn [obind].
    destruct (hash_key v) as [k|e]; [done|].
    unfold obind. by repeat case_match.
Qed.

Lemma format_record_error medicine_data info e :
  (forall key, key ∈ required_keys -> is_Some (info !! key)) ->
  format_record medicine_data info = Raise e -> exn_class e = "TypeError".
Proof.
  intros Hkeys. unfold format_record, py_getitem.
  destruct (Hkeys "medicine_name") as [v0 ->]; [set_solver|].
  destruct (Hkeys "key_benefits") as [v1 ->]; [set_solver|].
  destruct (Hkeys "description") as [v2 ->]; [set_solver|].
  destruct (Hkeys "directions") as [v3 ->]; [set_solver|].
  destruct (Hkeys "safety_info") as [v4 ->]; [set_solver|].
  destruct (Hkeys "relevant_info") as [v5 ->]; [set_solver|].
  cbn [obind]. unfold benefits_text.
  destruct v1; cbn [obind];
    try (destruct v0; cbn [hash_key obind]; by intros [= <-]).
  destruct (str_items 0 l) as [items|e0] eqn:Hitems; cbn [obind].
  - destruct v0; cbn [hash_key obind]; by intros [= <-].
  - intros [= <-]. by eapply str_items_error.
Qed.

Lemma format_results_unformattable results medicine_data info :
  info ∈ results -> unformattable info ->
  (forall info' key, info' ∈ results -> key ∈ required_keys ->
                     is_Some (info' !! key)) ->
  exists e, exn_class e = "TypeError"
            /\ format_results medicine_data results = Raise e.
Proof.
  intros Hin Hbad. revert medicine_data.
  induction results as [|x results IH]; intros medicine_data Hkeys.
  - by apply elem_of_nil in Hin.
  - cbn [format_results].
    destruct (format_record medicine_data x) as [m1|e] eqn:Hone; cbn [obind].
    + apply elem_of_cons in Hin as [->|Hin].
      * pose proof (format_record_unformattable medicine_data x Hbad) as Hr.
        by rewrite Hone in Hr.
      * apply IH; [done|]. intros info' key Hin'. apply Hkeys.
        apply elem_of_cons. by right.
    + exists e. split; [|done]. eapply format_record_error; [|done].
      intros key. apply Hkeys. apply elem_of_cons. by left.
Qed.

(** X20. In the returned mapping the last record of a name wins: the entry
    under a key is the one written for the last record entered under it,
    with that record's description, benefits, directions, safety and other
    information and URL. *)
Theorem format_results_last_wins
    (pre post : list (gmap string json)) (info : gmap string json)
    (medicine_data medicine_data' : gmap pykey entry) (k : pykey) :
  format_results medicine_data (pre ++ info :: post) = Ret medicine_data' ->
  entered_as info k ->
  (forall info', info' ∈ post -> ~ entered_as info' k) ->
  exists en, medicine_data' !! k = Some en /\ entry_for info en.
Proof.
  rewrite format_results_app.
  destruct (format_results medicine_data pre) as [m0|]; [|done].
  cbn [obind format_results]. unfold obind at 1.
  destruct (format_record m0 info) as [m1|] eqn:Hone; [|done].
  intros Hrest Hk Hother.
  destruct (format_record_inserts _ _ _ Hone) as (k1 & en & Hk1 & Hen & ->).
  rewrite (entered_as_unique _ _ _ Hk1 Hk) in Hrest.
  exists en. split; [|done].
  rewrite (format_results_preserves _ _ _ _ Hrest Hother).
  apply lookup_insert_eq.
Qed.

(** X21. A record the formatting loop cannot take makes the whole call
    fail after every item has been processed: with a [key_benefits] list
    that holds anything but text, or a name that cannot be a dict key, among
    the collected records, [process_medicine_list] raises [TypeError] and
    returns no mapping at all. *)
Theorem process_medicine_list_formatting_fails
    (medicine_list : list string) (results : list (gmap string json))
    (success_count : nat) (info : gmap string json) (w w1 w2 w3 w4 w5 w6 : W) :
  playwright_start w = (Ret tt, w1) ->
  open_page w1 = (Ret tt, w2) ->
  process_items medicine_list ([], 0) w2 = (Ret (results, success_count), w3) ->
  page_close w3 = (Ret tt, w4) ->
  browser_close w4 = (Ret tt, w5) ->
  playwright_stop w5 = (Ret tt, w6) ->
  info ∈ results -> unformattable info ->
  exists e, exn_class e = "TypeError"
            /\ process_medicine_list medicine_list w = (Raise e, w6).
Proof.
  intros Hstart Hopen Hitems Hpage Hbrowser Hstop Hin Hbad.
  destruct (process_items_shape medicine_list [] 0 w2)
    as (new & w3' & Hrun & Hnew).
  rewrite Hitems in Hrun. cbn [app] in Hrun. injection Hrun as -> _ _.
  destruct (format_results_unformattable new ∅ info Hin Hbad) as (e & He & Hf).
  { intros info' key Hin' Hkey.
    apply list_elem_of_lookup in Hin' as [i Hi].
    destruct (Forall2_lookup_r _ _ _ _ _ Hnew Hi) as (name & _ & Hrec).
    eapply item_record_keys; [done|]. apply elem_of_app. by left. }
  exists e. split; [done|].
  unfold process_medicine_list.
  rewrite (bind_returns _ _ _ _ _
             (run_batch_returns _ _ _ _ _ _ _ _ _
                Hstart Hopen Hitems Hpage Hbrowser Hstop)).
  unfold_monad. by rewrite Hf.
Qed.

(** X22. The results are lost when the page cannot be closed: if
    [page.close()] raises after the loop, [browser.close()] is skipped, the
    automation session is still stopped, and [process_medicine_list] raises
    that exception although every item has been processed. *)
Theorem process_medicine_list_close_fails
    (medicine_list : list string) (acc : list (gmap string json) * nat)
    (e : exn) (w w1 w2 w3 w4 w5 : W) :
  playwright_start w = (Ret tt, w1) ->
  open_page w1 = (Ret tt, w2) ->
  process_items medicine_list ([], 0) w2 = (Ret acc, w3) ->
  page_close w3 = (Raise e, w4) ->
  playwright_stop w4 = (Ret tt, w5) ->
  process_medicine_list medicine_list w = (Raise e, w5).
Proof.
  intros Hstart Hopen Hitems Hpage Hstop.
  unfold process_medicine_list, run_batch. unfold_monad.
  by rewrite Hstart, Hopen, Hitems, Hpage, Hstop.
Qed.

End FormatFacts.

Lemma format_results_last_wins_witness :
  exists en,
    (SimBatch.merged : gmap pykey entry) !! KStr "Ultracet" = Some en
    /\ description en = JStr "Relieves moderate to severe pain".
Proof.
  destruct (@format_results_last_wins SimSummary.runtime
              [<["medicine_name" := JStr "Ultracet"]> SimMerge.first_try;
               SimMerge.other]
              [SimMerge.other] SimMerge.second_try ∅
              (<[KStr "dolo" := SimBatch.not_found_entry]> SimBatch.merged)
              (KStr "Ultracet"))
    as (en & Hlook & Hdesc & _).
  - vm_compute. reflexivity.
  - eexists. split; vm_compute; reflexivity.
  - intros info' Hin (v & Hv & Hk).
    apply list_elem_of_singleton in Hin as ->.
    vm_compute in Hv. injection Hv as <-. discriminate Hk.
  - rewrite lookup_insert_ne in Hlook by discriminate.
    exists en. split; [exact Hlook|].
    assert (py_getitem SimMerge.second_try "description"
            = Ret (JStr "Relieves moderate to severe pain")) as Hval
      by (vm_compute; reflexivity).
    rewrite Hval in Hdesc. by injection Hdesc as <-.
Defined.

Lemma process_medicine_list_formatting_fails_witness :
  exists e,
    exn_class e = "TypeError"
    /\ @process_medicine_list _ Sim.browser Sim.backend SimFaulty.runtime
         ["ultracet"] SimFaulty.session
       = (Raise e,
          Sim.World "https://www.1mg.com/drugs/ultracet-tablet-75142"
            (Sim.hits SimFaulty.session) None None (Some "Ultracet Tablet") "" []).
Proof.
  eapply (@process_medicine_list_formatting_fails
            _ Sim.browser Sim.backend SimFaulty.runtime ["ultracet"]
            [<["url" := JStr "https://www.1mg.com/drugs/ultracet-tablet-75142"]>
               (foldl ensure_key SimFaulty.counted_benefits required_keys)]
            1 _ SimFaulty.session SimFaulty.session SimFaulty.session).
  - reflexivity.
  - reflexivity.
  - vm_compute. reflexivity.
  - reflexivity.
  - reflexivity.
  - reflexivity.
  - apply list_elem_of_here.
  - left. exists [JInt 3], (JInt 3).
    split; [vm_compute; reflexivity|]. split; [apply list_elem_of_here|].
    intros s. discriminate.
Defined.

Lemma process_medicine_list_close_fails_witness :
  @process_medicine_list _ (SimFaulty.browser false true) Sim.backend
    SimSummary.runtime ["ultracet"] SimBatch.barren
  = (Raise SimFaulty.crashed,
     Sim.navigate "https://www.google.com" SimBatch.barren).
Proof.
  eapply (@process_medicine_list_close_fails
            _ (SimFaulty.browser false true) Sim.backend SimSummary.runtime
            ["ultracet"] ([SimBatch.not_found "ultracet"], 0)
            SimFaulty.crashed SimBatch.barren SimBatch.barren SimBatch.barren).
  - reflexivity.
  - reflexivity.
  - vm_compute. reflexivity.
  - reflexivity.
  - reflexivity.
Defined.

Section TimingFacts.
Import Prescription.

Lemma rev_app_rev_app a b c :
  String.rev_app (String.rev_app a b) c = String.rev_app b (a +:+ c).
Proof.
  revert b c. induction a as [|x a IH]; intros b c; [done|].
  cbn [String.rev_app]. by rewrite IH.
Qed.


Lemma startswith_dash c s :
  Py.startswith "-" (String c s) = Ascii.eqb "-" c.
Proof.
  change (Py.startswith "-" (String c s))
    with (Ascii.eqb "-" c && Py.startswith "" s).
  replace (Py.startswith "" s) with true by (by destruct s).
  apply andb_true_r.
Qed.

Lemma contains_dash_cons c s :
  Py.contains "-" (String c s) = Ascii.eqb "-" c || Py.contains "-" s.
Proof.
  change (Py.contains "-" (String c s))
    with (Py.startswith "-" (String c s) || Py.contains "-" s).
  by rewrite startswith_dash.
Qed.


Lemma split_go_last a cur :
  Py.contains "-" a = false ->
  Py.split_go "-" 0 cur a = [String.rev_app cur a].
Proof.
  revert cur. induction a as [|c a IH]; intros cur Hfree; [done|].
  rewrite contains_dash_cons in Hfree. apply orb_false_elim in Hfree as [Hc Ha].
  cbn [Py.split_go]. rewrite startswith_dash, Hc. by rewrite IH.
Qed.

Lemma split_go_piece a cur rest :
  Py.contains "-" a = false ->
  Py.split_go "-" 0 cur (a +:+ String "-" rest)
  = String.rev_app cur a :: Py.split_go "-" 0 "" rest.
Proof.
  revert cur. induction a as [|c a IH]; intros cur Hfree.
  - change ("" +:+ String "-" rest) with (String "-" rest).
    cbn [Py.split_go]. by rewrite startswith_dash.
  - rewrite contains_dash_cons in Hfree.
    apply orb_false_elim in Hfree as [Hc Ha].
    rewrite string_app_cons. cbn [Py.split_go].
    rewrite startswith_dash, Hc. by rewrite IH.
Qed.

Lemma split_three morning afternoon night :
  Py.contains "-" morning = false ->
  Py.contains "-" afternoon = false ->
  Py.contains "-" night = false ->
  Py.split "-" (morning +:+ "-" +:+ afternoon +:+ "-" +:+ night)
  = [morning; afternoon; night].
Proof.
  intros Hm Ha Hn. unfold Py.split.
  change (morning +:+ "-" +:+ afternoon +:+ "-" +:+ night)
    with (morning +:+ String "-" (afternoon +:+ String "-" night)).
  by rewrite !split_go_piece, split_go_last.
Qed.



Lemma set_dose_lookup key part schedule k :
  set_dose key part schedule !! k
  = if decide (key = k) then (if taken part then Some part else schedule !! k)
    else schedule !! k.
Proof.
  unfold set_dose. destruct (taken part), (decide (key = k)) as [->|Hk]; try done.
  - apply lookup_insert_eq.
  - by apply lookup_insert_ne.
Qed.

(** X23. A timing code of three dash-free parts is read back part by part:
    [get_timing_text] of [morning-afternoon-night] returns a schedule that
    lists each part under its own key unless the part is ["0"] or ["0/0"],
    and lists nothing else. *)
Theorem get_timing_text_three_parts (morning afternoon night : string) :
  Py.contains "-" morning = false ->
  Py.contains "-" afternoon = false ->
  Py.contains "-" night = false ->
  exists schedule,
    get_timing_text (JStr (morning +:+ "-" +:+ afternoon +:+ "-" +:+ night))
    = Ret schedule
    /\ schedule !! "morning" = (if taken morning then Some morning else None)
    /\ schedule !! "afternoon"
       = (if taken afternoon then Some afternoon else None)
    /\ schedule !! "night" = (if taken night then Some night else None)
    /\ forall k, k ∉ ["morning"; "afternoon"; "night"] -> schedule !! k = None.
Proof.
  intros Hm Ha Hn. unfold get_timing_text.
  assert (truthy (JStr (morning +:+ "-" +:+ afternoon +:+ "-" +:+ night))
          = true) as ->.
  { cbn [truthy]. by destruct morning. }
  cbn [negb]. rewrite (split_three _ _ _ Hm Ha Hn).
  cbn [length Nat.eqb negb nth]. eexists. split; [done|].
  rewrite !set_dose_lookup.
  repeat split; try done.
  intros k Hk. rewrite !set_dose_lookup.
  repeat (destruct (decide (_ = k)) as [<-|_];
          [exfalso; apply Hk; solve_elem_of|]).
  done.
Qed.


(** X25. A schedule never lists a zero dose: whatever the argument, every
    key of a schedule returned by [get_timing_text] is ["morning"],
    ["afternoon"] or ["night"], and its dose is neither ["0"] nor ["0/0"]. *)
Theorem get_timing_text_no_zero_dose
    (timing_str : json) (schedule : gmap string string) (k dose : string) :
  get_timing_text timing_str = Ret schedule ->
  schedule !! k = Some dose ->
  k ∈ ["morning"; "afternoon"; "night"] /\ dose <> "0" /\ dose <> "0/0".
Proof.
  assert (forall part, taken part = true -> part <> "0" /\ part <> "0/0")
    as Htaken.
  { intros part Ht. apply andb_prop in Ht as [H0 H00].
    split; intros ->; done. }
  unfold get_timing_text. intros Hget Hk.
  destruct (negb (truthy timing_str)); [by simplify_eq|].
  destruct timing_str; try done.
  destruct (negb (length (Py.split "-" s) =? 3)); [by simplify_eq|].
  injection Hget as <-. rewrite !set_dose_lookup in Hk.
  repeat (destruct (decide (_ = k)) as [<-|_];
          [split; [solve_elem_of|];
           destruct (taken _) eqn:Ht; [|done];
           injection Hk as <-; by apply Htaken|]).
  done.
Qed.

End TimingFacts.

Lemma get_timing_text_three_parts_witness :
  exists schedule,
    Prescription.get_timing_text (JStr "1-0-1/2") = Ret schedule
    /\ schedule !! "morning" = Some "1"
    /\ schedule !! "afternoon" = None
    /\ schedule !! "night" = Some "1/2".
Proof.
  destruct (get_timing_text_three_parts "1" "0" "1/2")
    as (schedule & Hget & Hm & Ha & Hn & _); [reflexivity..|].
  by exists schedule.
Defined.


Lemma get_timing_text_no_zero_dose_witness :
  "night" ∈ ["morning"; "afternoon"; "night"] /\ "1/2" <> "0" /\ "1/2" <> "0/0".
Proof.
  apply (get_timing_text_no_zero_dose (JStr "1-0-1/2")
           (<["night" := "1/2"]> {["morning" := "1"]}) "night" "1/2").
  - vm_compute. reflexivity.
  - vm_compute. reflexivity.
Defined.
